(** * wait-for-vercel-preview: the bounded-retry waiters of the action

    A shallow embedding of the action's source: the retry budget
    ([calculateIterations]), the password exchange ([getPassword]), the three
    waiters ([waitForDeploymentToStart], [waitForStatus], [waitForUrl]), the
    pull-request lookup ([getShaForPullRequest]) and the orchestrator ([run]).

    Conventions of the embedding.
    - A JavaScript [number] is an IEEE-754 binary64 value, modelled by the
      Standard Library's [spec_float] with precision 53 and maximal exponent
      1024; [/] and [*] are [SFdiv] and [SFmul] (round to nearest, ties to
      even).
    - The value of [Math.floor] is an integer-valued double, an infinity or
      NaN; it is represented by [Count], which holds the integer it denotes.
    - The loop counter [i] of the [for] loops is a natural number (the
      source's counter is exact below 2^53 attempts).
    - [async] functions are functions of a state-and-exception monad [M] over
      the [World]: the number of calls made so far to each collaborator and
      the trace of observable events.  The collaborators (GitHub API, HTTP
      server, the workflow context and inputs, library functions) are the
      fields of an environment [Env].
    - [console.log] and [console.error] are diagnostics without influence on
      control flow; they are left out of the trace.  [core.setOutput],
      [core.setFailed] and [github.getOctokit] are taken not to throw. *)

From Stdlib Require Import ZArith List Bool Lia String Ascii.
From Stdlib Require Import DecimalString.
From Stdlib Require Import Floats.SpecFloat.
From Stdlib Require QArith.QArith_base QArith.Qround.
Import ListNotations.

Local Open Scope string_scope.
Local Open Scope list_scope.
Local Open Scope Z_scope.

Local Notation "a +++ b" := (String.append a b)
  (at level 60, right associativity).

(** ** Numbers *)

Module JsNumber.

Definition prec : Z := 53.
Definition emax : Z := 1024.

Definition t : Type := spec_float.

(** A numeric literal with an integral value. *)
Definition of_Z (z : Z) : t := binary_normalize prec emax z 0 false.

Definition div (x y : t) : t := SFdiv prec emax x y.
Definition mul (x y : t) : t := SFmul prec emax x y.

(** [ToBoolean]: zero (of either sign) and NaN are falsy. *)
Definition truthy (x : t) : bool :=
  match x with
  | S754_zero _ | S754_nan => false
  | _ => true
  end.

(** [x || d] on numbers. *)
Definition or (x d : t) : t := if truthy x then x else d.

(** A positive finite number. *)
Definition positive (x : t) : Prop :=
  match x with
  | S754_finite false _ _ => True
  | _ => False
  end.

(** A zero of either sign. *)
Definition zero (x : t) : Prop :=
  match x with
  | S754_zero _ => True
  | _ => False
  end.

End JsNumber.

(** The value of [Math.floor]: an integer, an infinity or NaN. *)
Inductive Count : Type :=
| Int (z : Z)
| PosInfinity
| NegInfinity
| NaN.

(** [Math.floor x].  A finite double is [(-1)^s * m * 2^e]; for [e < 0]
    [Z.shiftl _ e] is the floor of the division by [2^(-e)]. *)
Definition Math_floor (x : JsNumber.t) : Count :=
  match x with
  | S754_zero _ => Int 0
  | S754_infinity false => PosInfinity
  | S754_infinity true => NegInfinity
  | S754_nan => NaN
  | S754_finite s m e => Int (Z.shiftl (cond_Zopp s (Zpos m)) e)
  end.

(** [i < iterations] for the loop counter [i]. *)
Definition counter_lt (i : nat) (iterations : Count) : bool :=
  match iterations with
  | Int n => Z.of_nat i <? n
  | PosInfinity => true
  | NegInfinity | NaN => false
  end.

(** [iterations >= 0]. *)
Definition Count_nonneg (c : Count) : Prop :=
  match c with
  | Int n => 0 <= n
  | PosInfinity => True
  | NegInfinity | NaN => False
  end.

(** ** The retry budget *)

Definition calculateIterations
  (maxTimeoutSec checkIntervalInMilliseconds : JsNumber.t) : Count :=
  Math_floor
    (JsNumber.div maxTimeoutSec
       (JsNumber.div checkIntervalInMilliseconds (JsNumber.of_Z 1000))).

(** ** Data *)

(** A deployment as returned by the GitHub API: its [id] and the login of
    its creator ([deployment.creator?.login], absent when there is no
    creator). *)
Module Deployment.
Record t : Type := { id : Z; creator : option string }.
End Deployment.

(** A deployment status: its [state] and its [target_url]. *)
Module DeploymentStatus.
Record t : Type := { state : string; target_url : string }.
End DeploymentStatus.

(** What an octokit request gives: a response with an HTTP status and its
    [data], or a thrown request error. *)
Inductive OctokitResult (A : Type) : Type :=
| Resolved (status : Z) (data : A)
| Rejected (message : string).
Arguments Resolved {A} status data.
Arguments Rejected {A} message.

(** An HTTP response as axios presents it: the status and
    [response.headers['set-cookie']]. *)
Module HttpResponse.
Record t : Type := { status : Z; set_cookie : option (list string) }.
End HttpResponse.

(** What the server does with a request: it answers, or no response is
    received at all (transport failure).  For a request that lets axios
    follow redirects the answer is the one that ends the redirections; with
    [maxRedirects: 0] it is the direct answer of the server. *)
Inductive HttpOutcome : Type :=
| Responded (r : HttpResponse.t)
| NoResponse (message : string).

(** A cookie as set-cookie-parser returns it. *)
Module Cookie.
Record t : Type := { name : string; value : string }.
End Cookie.

(** The request configuration given to axios; [None] stands for a field left
    to axios's default. *)
Module AxiosRequest.
Record t : Type := {
  url : string;
  method : string;
  data : option string;
  headers : list (string * string);
  maxRedirects : option Z;
  validateStatus : option (Z -> bool)
}.
End AxiosRequest.

(** The exceptions of the program. *)
Inductive Exception : Type :=
| AxiosError (message : string) (response : option Z)
| RequestError (message : string)
| Error (message : string)
| TypeError (message : string)
| StatusError (message : string).

Definition Exception_message (e : Exception) : string :=
  match e with
  | AxiosError m _ | RequestError m | Error m | TypeError m
  | StatusError m => m
  end.

(** [github.context]: the repository, the commit of the run and the number
    of [payload.pull_request] when the run belongs to a pull request. *)
Module Context.
Record t : Type := {
  owner : string;
  repo : string;
  sha : string;
  pull_request : option Z
}.
End Context.

(** The inputs of the action as [core.getInput] returns them, that is,
    trimmed.  [max_timeout] and [check_interval] hold
    [Number(core.getInput ...)]; [allow_inactive] is [None] when
    [core.getBooleanInput] rejects the text.  The test of a required input
    is made on the text before it is trimmed: [token_blank] tells that the
    text given for the token is not empty although [token], its trimmed
    form, is. *)
Module Inputs.
Record t : Type := {
  token : string;
  token_blank : bool;
  vercel_password : string;
  vercel_protection_bypass_header : string;
  environment : string;
  max_timeout : JsNumber.t;
  allow_inactive : option bool;
  path : string;
  check_interval : JsNumber.t
}.
End Inputs.

(** The collaborators.  The answers of the GitHub deployment API and of the
    preview server are sequences indexed by the number of earlier calls of
    the same kind; the pull-request lookup answers by its request. *)
Record Env : Type := {
  octokit_listDeployments : nat -> OctokitResult (list Deployment.t);
  octokit_listDeploymentStatuses :
    nat -> OctokitResult (list DeploymentStatus.t);
  octokit_pulls_get : string -> string -> Z -> OctokitResult string;
  server_post : nat -> HttpOutcome;
  server_get : nat -> HttpOutcome;
  parseCookies : list string -> list Cookie.t;
  URL_toString : string -> string -> option string;
  URLSearchParams_toString : list (string * string) -> string;
  context : Context.t;
  inputs : Inputs.t
}.

(** Observable events, in the order in which they happen. *)
Inductive Event : Type :=
| ListDeployments (owner repo sha : string) (environment : option string)
| ListDeploymentStatuses (owner repo : string) (deployment_id : Z)
| PullsGet (owner repo : string) (pull_number : Z)
| Request (req : AxiosRequest.t)
| Sleep (ms : JsNumber.t)
| SetOutput (name value : string)
| SetFailed (message : string).

Record World : Type := {
  calls_listDeployments : nat;
  calls_listDeploymentStatuses : nat;
  calls_post : nat;
  calls_get : nat;
  trace : list Event
}.

Definition initial : World :=
  {| calls_listDeployments := 0; calls_listDeploymentStatuses := 0;
     calls_post := 0; calls_get := 0; trace := [] |}.

Definition emit (ev : Event) (w : World) : World :=
  {| calls_listDeployments := calls_listDeployments w;
     calls_listDeploymentStatuses := calls_listDeploymentStatuses w;
     calls_post := calls_post w;
     calls_get := calls_get w;
     trace := trace w ++ [ev] |}.

(** ** The monad of the program *)

Inductive Completion (A : Type) : Type :=
| Normal (a : A)
| Throw (e : Exception)
| OutOfFuel.
Arguments Normal {A} a.
Arguments Throw {A} e.
Arguments OutOfFuel {A}.

Definition M (A : Type) : Type := World -> Completion A * World.

Definition ret {A : Type} (a : A) : M A := fun w => (Normal a, w).

Definition throw {A : Type} (e : Exception) : M A := fun w => (Throw e, w).

Definition bind {A B : Type} (m : M A) (k : A -> M B) : M B :=
  fun w =>
    match m w with
    | (Normal a, w') => k a w'
    | (Throw e, w') => (Throw e, w')
    | (OutOfFuel, w') => (OutOfFuel, w')
    end.

(** [try { m } catch (e) { handler e }]. *)
Definition try_catch {A : Type} (m : M A) (handler : Exception -> M A)
  : M A :=
  fun w =>
    match m w with
    | (Throw e, w') => handler e w'
    | r => r
    end.

Declare Scope action_scope.
Delimit Scope action_scope with action.
Notation "x <- m ;; k" := (bind m (fun x => k))
  (at level 61, m at next level, right associativity) : action_scope.
Notation "m ;; k" := (bind m (fun _ => k))
  (at level 61, right associativity) : action_scope.
Local Open Scope action_scope.

(** What one turn of a loop body, or a whole loop, leaves: a [return] out
    of the enclosing function, or the normal end. *)
Inductive Control (A : Type) : Type :=
| Return (a : A)
| Next.
Arguments Return {A} a.
Arguments Next {A}.

(** [for (let i = i0; i < iterations; i++) { body i }].  One unit of fuel
    is spent on each test of the condition. *)
Fixpoint for_loop {A : Type} (fuel : nat) (iterations : Count)
  (body : nat -> M (Control A)) (i : nat) : M (Control A) :=
  fun w =>
    match fuel with
    | O => (OutOfFuel, w)
    | S fuel' =>
        if counter_lt i iterations then
          match body i w with
          | (Normal Next, w') => for_loop fuel' iterations body (S i) w'
          | r => r
          end
        else (Normal Next, w)
    end.

(** JavaScript truthiness of an optional string. *)
Definition truthy (s : option string) : option string :=
  match s with
  | Some "" => None
  | _ => s
  end.

Definition string_of_Z (z : Z) : string :=
  NilZero.string_of_int (Z.to_int z).

Definition dquote : string := String (ascii_of_nat 34) "".

Definition newline : string := String (ascii_of_nat 10) "".

(** ** The options of the functions, as their interfaces declare them.
    The API client ([octokit]) is the environment and is not a field. *)

Module WaitForUrlOptions.
Record t : Type := {
  url : string;
  maxTimeout : JsNumber.t;
  checkIntervalInMilliseconds : JsNumber.t;
  vercelPassword : option string;
  protectionBypassHeader : option string;
  path : string
}.
End WaitForUrlOptions.

Module GetPasswordOptions.
Record t : Type := { url : string; vercelPassword : string }.
End GetPasswordOptions.

Module WaitForStatusOptions.
Record t : Type := {
  token : string;
  owner : string;
  repo : string;
  deployment_id : Z;
  maxTimeout : JsNumber.t;
  allowInactive : bool;
  checkIntervalInMilliseconds : JsNumber.t
}.
End WaitForStatusOptions.

Module WaitForDeploymentToStartOptions.
Record t : Type := {
  owner : string;
  repo : string;
  sha : string;
  environment : option string;
  actorName : option string;
  maxTimeout : option JsNumber.t;
  checkIntervalInMilliseconds : option JsNumber.t
}.
End WaitForDeploymentToStartOptions.

Module GetShaForPullRequestOptions.
Record t : Type := { owner : string; repo : string; number : Z }.
End GetShaForPullRequestOptions.

(** ** The program *)

Section Action.

Variable E : Env.

(** *** Collaborators as monadic operations *)

Definition core_setOutput (name value : string) : M unit :=
  fun w => (Normal tt, emit (SetOutput name value) w).

Definition core_setFailed (message : string) : M unit :=
  fun w => (Normal tt, emit (SetFailed message) w).

(** [wait(ms)]: the promise resolves after the timer. *)
Definition wait (ms : JsNumber.t) : M unit :=
  fun w => (Normal tt, emit (Sleep ms) w).

Definition of_octokit {A : Type} (r : OctokitResult A) (w : World)
  : Completion (Z * A) * World :=
  match r with
  | Resolved status data => (Normal (status, data), w)
  | Rejected message => (Throw (RequestError message), w)
  end.

(** The world after a call of [octokit.rest.repos.listDeployments]. *)
Definition after_listDeployments (owner repo sha : string)
  (environment : option string) (w : World) : World :=
  {| calls_listDeployments := S (calls_listDeployments w);
     calls_listDeploymentStatuses := calls_listDeploymentStatuses w;
     calls_post := calls_post w;
     calls_get := calls_get w;
     trace := trace w ++ [ListDeployments owner repo sha environment] |}.

Definition listDeployments (owner repo sha : string)
  (environment : option string) : M (Z * list Deployment.t) :=
  fun w =>
    of_octokit (octokit_listDeployments E (calls_listDeployments w))
      (after_listDeployments owner repo sha environment w).

(** The world after a call of
    [octokit.rest.repos.listDeploymentStatuses]. *)
Definition after_listDeploymentStatuses (owner repo : string)
  (deployment_id : Z) (w : World) : World :=
  {| calls_listDeployments := calls_listDeployments w;
     calls_listDeploymentStatuses := S (calls_listDeploymentStatuses w);
     calls_post := calls_post w;
     calls_get := calls_get w;
     trace :=
       trace w ++ [ListDeploymentStatuses owner repo deployment_id] |}.

Definition listDeploymentStatuses (owner repo : string)
  (deployment_id : Z) : M (Z * list DeploymentStatus.t) :=
  fun w =>
    of_octokit
      (octokit_listDeploymentStatuses E (calls_listDeploymentStatuses w))
      (after_listDeploymentStatuses owner repo deployment_id w).

Definition pulls_get (owner repo : string) (pull_number : Z)
  : M (Z * string) :=
  fun w =>
    of_octokit (octokit_pulls_get E owner repo pull_number)
      (emit (PullsGet owner repo pull_number) w).

(** axios's default [validateStatus]. *)
Definition default_validateStatus (status : Z) : bool :=
  (200 <=? status) && (status <? 300).

Definition is_post (req : AxiosRequest.t) : bool :=
  String.eqb (AxiosRequest.method req) "post".

(** The world after the request [req] has been sent. *)
Definition sent (req : AxiosRequest.t) (w : World) : World :=
  {| calls_listDeployments := calls_listDeployments w;
     calls_listDeploymentStatuses := calls_listDeploymentStatuses w;
     calls_post := if is_post req then S (calls_post w) else calls_post w;
     calls_get := if is_post req then calls_get w else S (calls_get w);
     trace := trace w ++ [Request req] |}.

(** [axios(req)]: the promise is rejected with an [AxiosError] when no
    response is received or when [validateStatus] refuses the status. *)
Definition axios (req : AxiosRequest.t) : M HttpResponse.t :=
  fun w =>
    let outcome :=
      if is_post req then server_post E (calls_post w)
      else server_get E (calls_get w) in
    let valid :=
      match AxiosRequest.validateStatus req with
      | Some f => f
      | None => default_validateStatus
      end in
    match outcome with
    | NoResponse message => (Throw (AxiosError message None), sent req w)
    | Responded r =>
        if valid (HttpResponse.status r) then (Normal r, sent req w)
        else
          (Throw
             (AxiosError
                ("Request failed with status code "
                 +++ string_of_Z (HttpResponse.status r))
                (Some (HttpResponse.status r))),
           sent req w)
    end.

(** The request of [axios.get(url, { headers })]. *)
Definition get_request (url : string) (headers : list (string * string))
  : AxiosRequest.t :=
  {| AxiosRequest.url := url;
     AxiosRequest.method := "get";
     AxiosRequest.data := None;
     AxiosRequest.headers := headers;
     AxiosRequest.maxRedirects := None;
     AxiosRequest.validateStatus := None |}.

Definition axios_get (url : string) (headers : list (string * string))
  : M HttpResponse.t :=
  axios (get_request url headers).

(** [new URL(path, url).toString()]; the constructor throws a [TypeError]
    on an invalid URL. *)
Definition new_URL (path url : string) : M string :=
  match URL_toString E path url with
  | Some uri => ret uri
  | None => throw (TypeError "Invalid URL")
  end.

(** *** getPassword *)

Definition password_request (url vercelPassword : string)
  : AxiosRequest.t :=
  {| AxiosRequest.url := url;
     AxiosRequest.method := "post";
     AxiosRequest.data :=
       Some (URLSearchParams_toString E
               [("_vercel_password", vercelPassword)]);
     AxiosRequest.headers :=
       [("content-type", "application/x-www-form-urlencoded")];
     AxiosRequest.maxRedirects := Some 0;
     AxiosRequest.validateStatus :=
       Some (fun status => (200 <=? status) && (status <? 307)) |}.

Definition getPassword (o : GetPasswordOptions.t) : M string :=
  let url := GetPasswordOptions.url o in
  let vercelPassword := GetPasswordOptions.vercelPassword o in
  response <- axios (password_request url vercelPassword) ;;
  match HttpResponse.set_cookie response with
  | None => throw (Error "no vercel JWT in response")
  | Some setCookieHeader =>
      let cookies := parseCookies E setCookieHeader in
      match
        find (fun cookie => String.eqb (Cookie.name cookie) "_vercel_jwt")
          cookies
      with
      | None => throw (Error "no vercel JWT in response")
      | Some vercelJwtCookie =>
          if String.eqb (Cookie.value vercelJwtCookie) "" then
            throw (Error "no vercel JWT in response")
          else ret (Cookie.value vercelJwtCookie)
      end
  end.

(** *** waitForUrl *)

Definition waitForUrl_attempt (o : WaitForUrlOptions.t)
  : M (Control unit) :=
  let url := WaitForUrlOptions.url o in
  try_catch
    (headers <-
       match truthy (WaitForUrlOptions.vercelPassword o) with
       | Some vercelPassword =>
           jwt <- getPassword
                    {| GetPasswordOptions.url := url;
                       GetPasswordOptions.vercelPassword := vercelPassword
                    |} ;;
           core_setOutput "vercel_jwt" jwt ;;
           ret [("Cookie", "_vercel_jwt=" +++ jwt)]
       | None => ret []
       end ;;
     let headers :=
       match truthy (WaitForUrlOptions.protectionBypassHeader o) with
       | Some protectionBypassHeader =>
           [("x-vercel-protection-bypass", protectionBypassHeader)]
       | None => headers
       end in
     checkUri <- new_URL (WaitForUrlOptions.path o) url ;;
     _ <- axios_get checkUri headers ;;
     ret (Return tt))
    (fun e =>
       wait (WaitForUrlOptions.checkIntervalInMilliseconds o) ;;
       ret Next).

Definition waitForUrl (fuel : nat) (o : WaitForUrlOptions.t) : M unit :=
  let iterations :=
    calculateIterations (WaitForUrlOptions.maxTimeout o)
      (WaitForUrlOptions.checkIntervalInMilliseconds o) in
  r <- for_loop fuel iterations (fun i => waitForUrl_attempt o) 0%nat ;;
  match r with
  | Return _ => ret tt
  | Next =>
      core_setFailed
        ("Timeout reached: Unable to connect to "
         +++ WaitForUrlOptions.url o)
  end.

(** *** waitForStatus *)

Definition waitForStatus_attempt (o : WaitForStatusOptions.t)
  : M (Control DeploymentStatus.t) :=
  try_catch
    (statuses <-
       listDeploymentStatuses (WaitForStatusOptions.owner o)
         (WaitForStatusOptions.repo o)
         (WaitForStatusOptions.deployment_id o) ;;
     match snd statuses with
     | [] => throw (StatusError "No status was available")
     | status :: _ =>
         if WaitForStatusOptions.allowInactive o
            && String.eqb (DeploymentStatus.state status) "inactive"
         then ret (Return status)
         else if negb (String.eqb (DeploymentStatus.state status) "success")
         then
           throw
             (StatusError
                ("No status with state " +++ dquote +++ "success"
                 +++ dquote +++ " was available"))
         else if String.eqb (DeploymentStatus.state status) "success"
         then ret (Return status)
         else throw (StatusError "Unknown status error")
     end)
    (fun e =>
       wait (WaitForStatusOptions.checkIntervalInMilliseconds o) ;;
       ret Next).

Definition waitForStatus (fuel : nat) (o : WaitForStatusOptions.t)
  : M (option DeploymentStatus.t) :=
  let iterations :=
    calculateIterations (WaitForStatusOptions.maxTimeout o)
      (WaitForStatusOptions.checkIntervalInMilliseconds o) in
  r <- for_loop fuel iterations (fun i => waitForStatus_attempt o) 0%nat ;;
  match r with
  | Return status => ret (Some status)
  | Next =>
      core_setFailed
        "Timeout reached: Unable to wait for an deployment to be successful"
      ;;
      ret None
  end.

(** *** waitForDeploymentToStart *)

Definition created_by (actorName : string) (deployment : Deployment.t)
  : bool :=
  match Deployment.creator deployment with
  | Some login => String.eqb login actorName
  | None => false
  end.

Definition waitForDeploymentToStart_attempt
  (o : WaitForDeploymentToStartOptions.t) : M (Control Deployment.t) :=
  let actorName :=
    match WaitForDeploymentToStartOptions.actorName o with
    | Some a => a
    | None => "vercel[bot]"
    end in
  let checkIntervalInMilliseconds :=
    match WaitForDeploymentToStartOptions.checkIntervalInMilliseconds o with
    | Some ms => ms
    | None => JsNumber.of_Z 2000
    end in
  r <- try_catch
         (deployments <-
            listDeployments (WaitForDeploymentToStartOptions.owner o)
              (WaitForDeploymentToStartOptions.repo o)
              (WaitForDeploymentToStartOptions.sha o)
              (WaitForDeploymentToStartOptions.environment o) ;;
          let deployment :=
            if (0 <? List.length (snd deployments))%nat
            then find (created_by actorName) (snd deployments)
            else None in
          match deployment with
          | Some deployment => ret (Return deployment)
          | None => ret Next
          end)
         (fun e => ret Next) ;;
  match r with
  | Return deployment => ret (Return deployment)
  | Next => wait checkIntervalInMilliseconds ;; ret Next
  end.

Definition waitForDeploymentToStart (fuel : nat)
  (o : WaitForDeploymentToStartOptions.t) : M (option Deployment.t) :=
  let maxTimeout :=
    match WaitForDeploymentToStartOptions.maxTimeout o with
    | Some s => s
    | None => JsNumber.of_Z 20
    end in
  let checkIntervalInMilliseconds :=
    match WaitForDeploymentToStartOptions.checkIntervalInMilliseconds o with
    | Some ms => ms
    | None => JsNumber.of_Z 2000
    end in
  let iterations :=
    calculateIterations maxTimeout checkIntervalInMilliseconds in
  r <- for_loop fuel iterations
         (fun i => waitForDeploymentToStart_attempt o) 0%nat ;;
  match r with
  | Return deployment => ret (Some deployment)
  | Next => ret None
  end.

(** *** getShaForPullRequest *)

Definition getShaForPullRequest (o : GetShaForPullRequestOptions.t)
  : M (option string) :=
  let owner := GetShaForPullRequestOptions.owner o in
  let repo := GetShaForPullRequestOptions.repo o in
  match Context.pull_request (context E) with
  | None | Some 0 =>
      core_setFailed "No pull request number was found" ;;
      ret None
  | Some PR_NUMBER =>
      currentPR <- pulls_get owner repo PR_NUMBER ;;
      if negb (fst currentPR =? 200) then
        core_setFailed
          "Could not get information about the current pull request" ;;
        ret None
      else ret (Some (snd currentPR))
  end.

(** *** run *)

(** [core.getInput(name, { required: true })]: the text is required not
    to be empty, and is then returned trimmed, [value], which is empty for a
    [blank] text. *)
Definition core_getInput_required (name value : string) (blank : bool)
  : M string :=
  if String.eqb value "" && negb blank then
    throw (Error ("Input required and not supplied: " +++ name))
  else ret value.

(** [core.getBooleanInput(name)]. *)
Definition core_getBooleanInput (name : string) (value : option bool)
  : M bool :=
  match value with
  | Some b => ret b
  | None =>
      throw
        (TypeError
           ("Input does not meet YAML 1.2 " +++ dquote +++ "Core Schema"
            +++ dquote +++ " specification: " +++ name +++ newline
            +++ "Support boolean input list: "
            +++ "`true | True | TRUE | false | False | FALSE`"))
  end.

Definition run (fuel : nat) : M unit :=
  try_catch
    (GITHUB_TOKEN <-
       core_getInput_required "token" (Inputs.token (inputs E))
         (Inputs.token_blank (inputs E)) ;;
     let VERCEL_PASSWORD := Inputs.vercel_password (inputs E) in
     let VERCEL_PROTECTION_BYPASS_HEADER :=
       Inputs.vercel_protection_bypass_header (inputs E) in
     let ENVIRONMENT := Inputs.environment (inputs E) in
     let MAX_TIMEOUT :=
       JsNumber.or (Inputs.max_timeout (inputs E)) (JsNumber.of_Z 60) in
     ALLOW_INACTIVE <-
       core_getBooleanInput "allow_inactive"
         (Inputs.allow_inactive (inputs E)) ;;
     let PATH :=
       if String.eqb (Inputs.path (inputs E)) "" then "/"
       else Inputs.path (inputs E) in
     let CHECK_INTERVAL_IN_MS :=
       JsNumber.mul
         (JsNumber.or (Inputs.check_interval (inputs E)) (JsNumber.of_Z 2))
         (JsNumber.of_Z 1000) in
     if String.eqb GITHUB_TOKEN "" then
       core_setFailed "Required field `token` was not provided"
     else
       let owner := Context.owner (context E) in
       let repo := Context.repo (context E) in
       sha <-
         match Context.pull_request (context E) with
         | Some number =>
             getShaForPullRequest
               {| GetShaForPullRequestOptions.owner := owner;
                  GetShaForPullRequestOptions.repo := repo;
                  GetShaForPullRequestOptions.number := number |}
         | None => ret (truthy (Some (Context.sha (context E))))
         end ;;
       match truthy sha with
       | None => core_setFailed "Unable to determine SHA. Exiting..."
       | Some sha =>
           deployment <-
             waitForDeploymentToStart fuel
               {| WaitForDeploymentToStartOptions.owner := owner;
                  WaitForDeploymentToStartOptions.repo := repo;
                  WaitForDeploymentToStartOptions.sha := sha;
                  WaitForDeploymentToStartOptions.environment :=
                    Some ENVIRONMENT;
                  WaitForDeploymentToStartOptions.actorName :=
                    Some "vercel[bot]";
                  WaitForDeploymentToStartOptions.maxTimeout :=
                    Some MAX_TIMEOUT;
                  WaitForDeploymentToStartOptions.checkIntervalInMilliseconds :=
                    Some CHECK_INTERVAL_IN_MS |} ;;
           match deployment with
           | None => core_setFailed "no vercel deployment found, exiting..."
           | Some deployment =>
               status <-
                 waitForStatus fuel
                   {| WaitForStatusOptions.owner := owner;
                      WaitForStatusOptions.repo := repo;
                      WaitForStatusOptions.deployment_id :=
                        Deployment.id deployment;
                      WaitForStatusOptions.token := GITHUB_TOKEN;
                      WaitForStatusOptions.maxTimeout := MAX_TIMEOUT;
                      WaitForStatusOptions.allowInactive := ALLOW_INACTIVE;
                      WaitForStatusOptions.checkIntervalInMilliseconds :=
                        CHECK_INTERVAL_IN_MS |} ;;
               let targetUrl :=
                 match status with
                 | Some status =>
                     truthy (Some (DeploymentStatus.target_url status))
                 | None => None
                 end in
               match targetUrl with
               | None =>
                   core_setFailed "no target_url found in the status check"
               | Some targetUrl =>
                   core_setOutput "url" targetUrl ;;
                   waitForUrl fuel
                     {| WaitForUrlOptions.url := targetUrl;
                        WaitForUrlOptions.maxTimeout := MAX_TIMEOUT;
                        WaitForUrlOptions.checkIntervalInMilliseconds :=
                          CHECK_INTERVAL_IN_MS;
                        WaitForUrlOptions.vercelPassword :=
                          Some VERCEL_PASSWORD;
                        WaitForUrlOptions.protectionBypassHeader :=
                          Some VERCEL_PROTECTION_BYPASS_HEADER;
                        WaitForUrlOptions.path := PATH |}
               end
           end
       end)
    (fun error => core_setFailed (Exception_message error)).

End Action.

(** ** Reading aids for the statements *)

(** The number of attempts a count allows: [None] when the loop condition
    never becomes false. *)
Definition budget (iterations : Count) : option nat :=
  match iterations with
  | Int n => Some (Z.to_nat n)
  | PosInfinity => None
  | NegInfinity | NaN => Some 0%nat
  end.

(** The exact value of a finite double, as a signed mantissa. *)
Definition signed_mantissa (s : bool) (m : positive) : Z :=
  cond_Zopp s (Zpos m).

(** The count in the words of the specification,
    [floor(maxTimeoutSeconds / (intervalMilliseconds / 1000))], computed on
    rational numbers, without rounding. *)
Definition spec_iterations (maxTimeoutSeconds intervalMilliseconds : Z) : Z :=
  Qround.Qfloor
    (QArith_base.Qdiv (QArith_base.inject_Z maxTimeoutSeconds)
       (QArith_base.Qdiv (QArith_base.inject_Z intervalMilliseconds)
          (QArith_base.inject_Z 1000))).

(** The check made on each whole-second setting: a timeout of [a] seconds
    and an interval of [s] seconds give the integer quotient, which is also
    the count of the specification. *)
Definition whole_second_check (a s : Z) : bool :=
  match
    calculateIterations (JsNumber.of_Z a) (JsNumber.of_Z (1000 * s))
  with
  | Int n => (n =? a / s) && (spec_iterations a (1000 * s) =? a / s)
  | _ => false
  end.

(** A number that is not negative: [+0], a positive finite number or
    [+Infinity]. *)
Definition not_negative (x : JsNumber.t) : Prop :=
  match x with
  | S754_zero false | S754_infinity false | S754_finite false _ _ => True
  | _ => False
  end.


(** An infinity of either sign. *)
Definition infinite (x : JsNumber.t) : Prop :=
  match x with
  | S754_infinity _ => True
  | _ => False
  end.

(** *** The status waiter *)

(** The observation of one poll that ends the wait: the newest (first)
    status when its state is [success], or [inactive] while
    [allowInactive] holds.  An empty list, any other state and a failed
    request give [None]. *)
Definition accepted (allowInactive : bool)
  (r : OctokitResult (list DeploymentStatus.t))
  : option DeploymentStatus.t :=
  match r with
  | Resolved _ (status :: _) =>
      if String.eqb (DeploymentStatus.state status) "success"
         || (String.eqb (DeploymentStatus.state status) "inactive"
             && allowInactive)
      then Some status
      else None
  | _ => None
  end.

(** The poll number [j] counted from the world [w]. *)
Definition status_poll (E : Env) (w : World) (j : nat)
  : OctokitResult (list DeploymentStatus.t) :=
  octokit_listDeploymentStatuses E (calls_listDeploymentStatuses w + j).

(** The world after one poll of the statuses. *)
Definition status_polled (o : WaitForStatusOptions.t) : World -> World :=
  after_listDeploymentStatuses (WaitForStatusOptions.owner o)
    (WaitForStatusOptions.repo o) (WaitForStatusOptions.deployment_id o).

(** The world after one poll that is retried: the poll, then the sleep. *)
Definition status_retried (o : WaitForStatusOptions.t) (w : World) : World :=
  emit (Sleep (WaitForStatusOptions.checkIntervalInMilliseconds o))
    (status_polled o w).

Definition status_iterations (o : WaitForStatusOptions.t) : Count :=
  calculateIterations (WaitForStatusOptions.maxTimeout o)
    (WaitForStatusOptions.checkIntervalInMilliseconds o).

Definition status_timeout_message : string :=
  "Timeout reached: Unable to wait for an deployment to be successful".

Definition a_status (state : string) : DeploymentStatus.t :=
  {| DeploymentStatus.state := state;
     DeploymentStatus.target_url := "https://preview.example.com" |}.

(** *** Sample collaborators for the concrete runs *)

(** The part of [s] before the first [c], and the part after it. *)
Fixpoint before (c : ascii) (s : string) : string :=
  match s with
  | EmptyString => EmptyString
  | String a s' => if Ascii.eqb a c then EmptyString else String a (before c s')
  end.

Fixpoint after (c : ascii) (s : string) : option string :=
  match s with
  | EmptyString => None
  | String a s' => if Ascii.eqb a c then Some s' else after c s'
  end.

(** A parser in the manner of set-cookie-parser for headers of the form
    [name=value; attributes]: the pair is the text before the first [;],
    split at its first [=]. *)
Definition sample_parseCookies (headers : list string) : list Cookie.t :=
  map
    (fun h =>
       let pair := before ";"%char h in
       match after "="%char pair with
       | Some v => {| Cookie.name := before "="%char pair; Cookie.value := v |}
       | None => {| Cookie.name := ""; Cookie.value := pair |}
       end)
    (filter (fun h => negb (String.eqb h "")) headers).

(** A URL join for a base without path and an absolute path. *)
Definition sample_URL_toString (path url : string) : option string :=
  Some (url +++ path).

(** Form encoding of pairs that need no escaping. *)
Definition sample_URLSearchParams_toString (l : list (string * string))
  : string :=
  String.concat "&" (map (fun p => fst p +++ "=" +++ snd p) l).

Definition sample_context : Context.t :=
  {| Context.owner := "acme"; Context.repo := "site";
     Context.sha := "abc"; Context.pull_request := None |}.

Definition sample_inputs (password bypass : string) (max_timeout : Z)
  : Inputs.t :=
  {| Inputs.token := "ghs_token";
     Inputs.token_blank := false;
     Inputs.vercel_password := password;
     Inputs.vercel_protection_bypass_header := bypass;
     Inputs.environment := "";
     Inputs.max_timeout := JsNumber.of_Z max_timeout;
     Inputs.allow_inactive := Some false;
     Inputs.path := "";
     Inputs.check_interval := JsNumber.of_Z 2 |}.

(** An environment from the answers of the API and of the server. *)
Definition sample_env
  (deployments : nat -> OctokitResult (list Deployment.t))
  (statuses : nat -> OctokitResult (list DeploymentStatus.t))
  (post get : nat -> HttpOutcome) (i : Inputs.t) : Env :=
  {| octokit_listDeployments := deployments;
     octokit_listDeploymentStatuses := statuses;
     octokit_pulls_get := fun _ _ _ => Resolved 200 "abc";
     server_post := post;
     server_get := get;
     parseCookies := sample_parseCookies;
     URL_toString := sample_URL_toString;
     URLSearchParams_toString := sample_URLSearchParams_toString;
     context := sample_context;
     inputs := i |}.

Definition vercel_deployment : Deployment.t :=
  {| Deployment.id := 7; Deployment.creator := Some "vercel[bot]" |}.

(** The deployment list with the platform's deployment. *)
Definition one_deployment (k : nat) : OctokitResult (list Deployment.t) :=
  Resolved 200 [vercel_deployment].

(** A server that cannot be reached. *)
Definition no_answer (k : nat) : HttpOutcome :=
  NoResponse "connect ECONNREFUSED".

Definition http (status : Z) (set_cookie : option (list string))
  : HttpOutcome :=
  Responded
    {| HttpResponse.status := status; HttpResponse.set_cookie := set_cookie |}.

(** The polls [queued], [in_progress], [success]. *)
Definition polls_until_success (k : nat)
  : OctokitResult (list DeploymentStatus.t) :=
  match k with
  | 0%nat => Resolved 200 [a_status "queued"]
  | 1%nat => Resolved 200 [a_status "in_progress"; a_status "queued"]
  | _ =>
      Resolved 200
        [a_status "success"; a_status "in_progress"; a_status "queued"]
  end.

Definition status_options (maxTimeout : Z) (allowInactive : bool)
  : WaitForStatusOptions.t :=
  {| WaitForStatusOptions.token := "ghs_token";
     WaitForStatusOptions.owner := "acme";
     WaitForStatusOptions.repo := "site";
     WaitForStatusOptions.deployment_id := 7;
     WaitForStatusOptions.maxTimeout := JsNumber.of_Z maxTimeout;
     WaitForStatusOptions.allowInactive := allowInactive;
     WaitForStatusOptions.checkIntervalInMilliseconds :=
       JsNumber.of_Z 2000 |}.

(** The newest (first) status of a poll, when the poll gives one. *)
Definition newest (r : OctokitResult (list DeploymentStatus.t))
  : option DeploymentStatus.t :=
  match r with
  | Resolved _ (status :: _) => Some status
  | _ => None
  end.

(** *** The start waiter *)

(** The deployment one poll finds: the first entry of the returned list
    created by [actorName]; none when the request fails. *)
Definition matched (actorName : string)
  (r : OctokitResult (list Deployment.t)) : option Deployment.t :=
  match r with
  | Resolved _ deployments => find (created_by actorName) deployments
  | Rejected _ => None
  end.

Definition start_actorName (o : WaitForDeploymentToStartOptions.t)
  : string :=
  match WaitForDeploymentToStartOptions.actorName o with
  | Some a => a
  | None => "vercel[bot]"
  end.

Definition start_interval (o : WaitForDeploymentToStartOptions.t)
  : JsNumber.t :=
  match WaitForDeploymentToStartOptions.checkIntervalInMilliseconds o with
  | Some ms => ms
  | None => JsNumber.of_Z 2000
  end.

Definition start_iterations (o : WaitForDeploymentToStartOptions.t)
  : Count :=
  calculateIterations
    match WaitForDeploymentToStartOptions.maxTimeout o with
    | Some s => s
    | None => JsNumber.of_Z 20
    end
    (start_interval o).

(** The request number [j] counted from the world [w]. *)
Definition start_poll (E : Env) (w : World) (j : nat)
  : OctokitResult (list Deployment.t) :=
  octokit_listDeployments E (calls_listDeployments w + j).

(** The world after one request of the deployments. *)
Definition start_polled (o : WaitForDeploymentToStartOptions.t)
  : World -> World :=
  after_listDeployments (WaitForDeploymentToStartOptions.owner o)
    (WaitForDeploymentToStartOptions.repo o)
    (WaitForDeploymentToStartOptions.sha o)
    (WaitForDeploymentToStartOptions.environment o).

(** The world after one request that is retried: the request, then the
    sleep. *)
Definition start_retried (o : WaitForDeploymentToStartOptions.t)
  (w : World) : World :=
  emit (Sleep (start_interval o)) (start_polled o w).

Definition start_options (maxTimeout : Z)
  : WaitForDeploymentToStartOptions.t :=
  {| WaitForDeploymentToStartOptions.owner := "acme";
     WaitForDeploymentToStartOptions.repo := "site";
     WaitForDeploymentToStartOptions.sha := "abc";
     WaitForDeploymentToStartOptions.environment := None;
     WaitForDeploymentToStartOptions.actorName := None;
     WaitForDeploymentToStartOptions.maxTimeout :=
       Some (JsNumber.of_Z maxTimeout);
     WaitForDeploymentToStartOptions.checkIntervalInMilliseconds := None |}.

Definition a_deployment (id : Z) (login : string) : Deployment.t :=
  {| Deployment.id := id; Deployment.creator := Some login |}.

(** A failed request, then no deployment of the actor, then two of them
    among deployments of others. *)
Definition deployments_appear (k : nat)
  : OctokitResult (list Deployment.t) :=
  match k with
  | 0%nat => Rejected "Bad credentials"
  | 1%nat => Resolved 200 [a_deployment 1 "octocat"]
  | _ =>
      Resolved 200
        [a_deployment 1 "octocat"; a_deployment 2 "vercel[bot]";
         {| Deployment.id := 3; Deployment.creator := None |};
         a_deployment 4 "vercel[bot]"]
  end.

(** *** The password exchange *)

(** The statuses the exchange accepts. *)
Definition exchange_valid (status : Z) : bool :=
  (200 <=? status) && (status <? 307).

(** The token a response carries: the value of the cookie named
    [_vercel_jwt] among those of its [Set-Cookie] header, when there is such
    a header, such a cookie, and its value is not empty. *)
Definition jwt_cookie (E : Env) (r : HttpResponse.t) : option string :=
  match HttpResponse.set_cookie r with
  | None => None
  | Some setCookieHeader =>
      match
        find (fun cookie => String.eqb (Cookie.name cookie) "_vercel_jwt")
          (parseCookies E setCookieHeader)
      with
      | Some cookie =>
          if String.eqb (Cookie.value cookie) "" then None
          else Some (Cookie.value cookie)
      | None => None
      end
  end.

Definition missing_token : Exception := Error "no vercel JWT in response".

Definition password_options (url vercelPassword : string)
  : GetPasswordOptions.t :=
  {| GetPasswordOptions.url := url;
     GetPasswordOptions.vercelPassword := vercelPassword |}.

(** What the exchange gives for an outcome of the POST: the token, or the
    exception thrown. *)
Definition exchange_result (E : Env) (outcome : HttpOutcome)
  : string + Exception :=
  match outcome with
  | NoResponse message => inr (AxiosError message None)
  | Responded r =>
      if exchange_valid (HttpResponse.status r) then
        match jwt_cookie E r with
        | Some jwt => inl jwt
        | None => inr missing_token
        end
      else
        inr
          (AxiosError
             ("Request failed with status code "
              +++ string_of_Z (HttpResponse.status r))
             (Some (HttpResponse.status r)))
  end.

Definition settle {A : Type} (r : A + Exception) : Completion A :=
  match r with
  | inl a => Normal a
  | inr e => Throw e
  end.

(** *** The URL health waiter *)

(** A GET that succeeds: a response is received and its status is not an
    error status for axios. *)
Definition get_ok (outcome : HttpOutcome) : bool :=
  match outcome with
  | Responded r => default_validateStatus (HttpResponse.status r)
  | NoResponse _ => false
  end.

(** The headers of the health check, from those the password gave. *)
Definition bypass_headers (o : WaitForUrlOptions.t)
  (headers : list (string * string)) : list (string * string) :=
  match truthy (WaitForUrlOptions.protectionBypassHeader o) with
  | Some protectionBypassHeader =>
      [("x-vercel-protection-bypass", protectionBypassHeader)]
  | None => headers
  end.

Definition url_iterations (o : WaitForUrlOptions.t) : Count :=
  calculateIterations (WaitForUrlOptions.maxTimeout o)
    (WaitForUrlOptions.checkIntervalInMilliseconds o).

Definition url_timeout_message (o : WaitForUrlOptions.t) : string :=
  "Timeout reached: Unable to connect to " +++ WaitForUrlOptions.url o.

(** The sleep that follows a failed attempt. *)
Definition url_slept (o : WaitForUrlOptions.t) : World -> World :=
  emit (Sleep (WaitForUrlOptions.checkIntervalInMilliseconds o)).

(** The health check of one attempt, once the headers are known: the URL
    is built, the GET is sent, and a failure of either is followed by the
    sleep. *)
Definition probe (E : Env) (o : WaitForUrlOptions.t)
  (headers : list (string * string)) (w : World)
  : Completion (Control unit) * World :=
  match
    URL_toString E (WaitForUrlOptions.path o) (WaitForUrlOptions.url o)
  with
  | None => (Normal Next, url_slept o w)
  | Some checkUri =>
      let req := get_request checkUri (bypass_headers o headers) in
      if get_ok (server_get E (calls_get w)) then
        (Normal (Return tt), sent req w)
      else (Normal Next, url_slept o (sent req w))
  end.

(** The request of the exchange made by the waiter. *)
Definition exchange_request (E : Env) (o : WaitForUrlOptions.t)
  (vercelPassword : string) : AxiosRequest.t :=
  password_request E (WaitForUrlOptions.url o) vercelPassword.

(** The request of the health check without password. *)
Definition url_request (o : WaitForUrlOptions.t) (checkUri : string)
  : AxiosRequest.t :=
  get_request checkUri (bypass_headers o []).

(** The world after a failed attempt without password, for the check URI
    [checkUri]: the GET, then the sleep. *)
Definition url_retried (o : WaitForUrlOptions.t) (checkUri : string)
  (w : World) : World :=
  url_slept o (sent (url_request o checkUri) w).

(** The world after an attempt whose exchange failed: the POST, then the
    sleep. *)
Definition exchange_retried (E : Env) (o : WaitForUrlOptions.t)
  (vercelPassword : string) (w : World) : World :=
  url_slept o (sent (exchange_request E o vercelPassword) w).

(** The number of failure signals in a trace. *)
Fixpoint failures (t : list Event) : nat :=
  match t with
  | [] => 0
  | SetFailed _ :: t' => S (failures t')
  | _ :: t' => failures t'
  end.

(** The number of sleeps in a trace. *)
Fixpoint sleeps (t : list Event) : nat :=
  match t with
  | [] => 0
  | Sleep _ :: t' => S (sleeps t')
  | _ :: t' => sleeps t'
  end.

Definition url_options (maxTimeout : Z) (vercelPassword bypass : string)
  : WaitForUrlOptions.t :=
  {| WaitForUrlOptions.url := "https://preview.example.com";
     WaitForUrlOptions.maxTimeout := JsNumber.of_Z maxTimeout;
     WaitForUrlOptions.checkIntervalInMilliseconds := JsNumber.of_Z 2000;
     WaitForUrlOptions.vercelPassword := Some vercelPassword;
     WaitForUrlOptions.protectionBypassHeader := Some bypass;
     WaitForUrlOptions.path := "/" |}.

(** The server answers 500, then 200. *)
Definition error_then_ok (k : nat) : HttpOutcome :=
  match k with
  | 0%nat => http 500 None
  | _ => http 200 None
  end.

(** An HTTP error status in the words of the specification: a client
    error or a server error, 4xx or 5xx. *)
Definition http_error_status (status : Z) : bool :=
  (400 <=? status) && (status <? 600).

(** The server answers 304 Not Modified, then 200. *)
Definition not_modified_then_ok (k : nat) : HttpOutcome :=
  match k with
  | 0%nat => http 304 None
  | _ => http 200 None
  end.

(** The server always answers 304 Not Modified. *)
Definition not_modified (k : nat) : HttpOutcome := http 304 None.

(** The number of exchanges one attempt of the waiter makes. *)
Definition exchanges_per_attempt (o : WaitForUrlOptions.t) : nat :=
  match truthy (WaitForUrlOptions.vercelPassword o) with
  | Some _ => 1
  | None => 0
  end.

(** The state of the waiter started in [w] after [i] failed attempts: no
    failure signal yet, [i] sleeps, the exchanges of [i] attempts, and only
    failed GETs. *)
Definition url_waiting (E : Env) (o : WaitForUrlOptions.t) (w : World)
  (i : nat) (w' : World) : Prop :=
  failures (trace w') = failures (trace w) /\
  sleeps (trace w') = (sleeps (trace w) + i)%nat /\
  calls_post w' = (calls_post w + i * exchanges_per_attempt o)%nat /\
  (calls_get w <= calls_get w')%nat /\
  (forall j, (calls_get w + j < calls_get w')%nat ->
     get_ok (server_get E (calls_get w + j)) = false).

(** The state of the waiter started in [w] when attempt [i] succeeds: the
    last GET sent is the first one that succeeds. *)
Definition url_succeeded (E : Env) (o : WaitForUrlOptions.t) (w : World)
  (i : nat) (w' : World) : Prop :=
  failures (trace w') = failures (trace w) /\
  sleeps (trace w') = (sleeps (trace w) + i)%nat /\
  calls_post w' = (calls_post w + S i * exchanges_per_attempt o)%nat /\
  exists m,
    calls_get w' = (calls_get w + S m)%nat /\
    get_ok (server_get E (calls_get w + m)) = true /\
    (forall j, (j < m)%nat ->
       get_ok (server_get E (calls_get w + j)) = false).

(** *** Sample runs *)

Definition success_at_once (k : nat)
  : OctokitResult (list DeploymentStatus.t) :=
  Resolved 200 [a_status "success"].

Definition always_ok (k : nat) : HttpOutcome := http 200 None.

Definition with_jwt_cookie (k : nat) : HttpOutcome :=
  http 303 (Some ["_vercel_jwt=abc123; Path=/; HttpOnly"]).



(** A run with the password [secret] whose first health check gets a
    500. *)
Definition env_password_error_then_ok : Env :=
  sample_env one_deployment success_at_once with_jwt_cookie error_then_ok
    (sample_inputs "secret" "" 60).

(** A run with the password [secret] and the bypass header [bypass-me]. *)
Definition env_password_and_bypass : Env :=
  sample_env one_deployment success_at_once with_jwt_cookie error_then_ok
    (sample_inputs "secret" "bypass-me" 60).

(** A run with the password [secret] whose exchanges never get a cookie,
    with a timeout of 4 seconds. *)
Definition env_cookie_never : Env :=
  sample_env one_deployment success_at_once (fun _ => http 303 None)
    always_ok (sample_inputs "secret" "" 4).

Definition preview : string := "https://preview.example.com".

(** *** The events of the URL health waiter with a password *)

Definition cookie_headers (jwt : string) : list (string * string) :=
  [("Cookie", "_vercel_jwt=" +++ jwt)].

(** The events of one failed attempt whose exchange meets [outcome]: the
    exchange alone when it throws; else the exchange, the report of its
    token and the health check; the sleep ends the attempt. *)
Inductive attempt_events (E : Env) (o : WaitForUrlOptions.t)
  (vercelPassword : string) (outcome : HttpOutcome) : list Event -> Prop :=
| exchange_failed (e : Exception) :
    exchange_result E outcome = inr e ->
    attempt_events E o vercelPassword outcome
      [Request (exchange_request E o vercelPassword);
       Sleep (WaitForUrlOptions.checkIntervalInMilliseconds o)]
| url_rejected (jwt : string) :
    exchange_result E outcome = inl jwt ->
    URL_toString E (WaitForUrlOptions.path o) (WaitForUrlOptions.url o)
    = None ->
    attempt_events E o vercelPassword outcome
      [Request (exchange_request E o vercelPassword);
       SetOutput "vercel_jwt" jwt;
       Sleep (WaitForUrlOptions.checkIntervalInMilliseconds o)]
| get_failed (jwt checkUri : string) :
    exchange_result E outcome = inl jwt ->
    URL_toString E (WaitForUrlOptions.path o) (WaitForUrlOptions.url o)
    = Some checkUri ->
    attempt_events E o vercelPassword outcome
      [Request (exchange_request E o vercelPassword);
       SetOutput "vercel_jwt" jwt;
       Request (get_request checkUri (bypass_headers o (cookie_headers jwt)));
       Sleep (WaitForUrlOptions.checkIntervalInMilliseconds o)].

(** The events of the attempt that succeeds. *)
Inductive success_events (E : Env) (o : WaitForUrlOptions.t)
  (vercelPassword : string) (outcome : HttpOutcome) : list Event -> Prop :=
| get_succeeded (jwt checkUri : string) :
    exchange_result E outcome = inl jwt ->
    URL_toString E (WaitForUrlOptions.path o) (WaitForUrlOptions.url o)
    = Some checkUri ->
    success_events E o vercelPassword outcome
      [Request (exchange_request E o vercelPassword);
       SetOutput "vercel_jwt" jwt;
       Request (get_request checkUri (bypass_headers o (cookie_headers jwt)))].

(** Failed attempts in a row, the first of which makes the exchange
    number [p]. *)
Inductive attempts_from (E : Env) (o : WaitForUrlOptions.t)
  (vercelPassword : string) : nat -> list (list Event) -> Prop :=
| no_attempt (p : nat) : attempts_from E o vercelPassword p []
| one_more (p : nat) (b : list Event) (bs : list (list Event)) :
    attempt_events E o vercelPassword (server_post E p) b ->
    attempts_from E o vercelPassword (S p) bs ->
    attempts_from E o vercelPassword p (b :: bs).

(** The trace of the waiter started in [w], with a password: failed
    attempts, then the attempt that succeeds or the timeout signal. *)
Definition password_trace (E : Env) (o : WaitForUrlOptions.t)
  (vercelPassword : string) (w w' : World) : Prop :=
  exists blocks,
    attempts_from E o vercelPassword (calls_post w) blocks /\
    ((exists last,
        success_events E o vercelPassword
          (server_post E (calls_post w + List.length blocks)) last /\
        counter_lt (List.length blocks) (url_iterations o) = true /\
        trace w' = trace w ++ List.concat blocks ++ last)
     \/
     (counter_lt (List.length blocks) (url_iterations o) = false /\
      trace w'
      = trace w ++ List.concat blocks
        ++ [SetFailed (url_timeout_message o)])).

(** The health checks among the events [d] carry the headers
    [bypass_headers o (cookie_headers jwt)] for some token [jwt]. *)
Definition health_check_headers (o : WaitForUrlOptions.t) (d : list Event)
  : Prop :=
  forall req,
    In (Request req) d -> is_post req = false ->
    exists jwt,
      AxiosRequest.headers req = bypass_headers o (cookie_headers jwt).

(** *** The order of the stages of a run *)

(** Calls of the GitHub API. *)
Definition is_api_call (ev : Event) : bool :=
  match ev with
  | ListDeployments _ _ _ _ | ListDeploymentStatuses _ _ _
  | PullsGet _ _ _ => true
  | _ => false
  end.

(** Requests to the preview server: the exchange and the health check. *)
Definition is_request (ev : Event) : bool :=
  match ev with
  | Request _ => true
  | _ => false
  end.

Definition no_api_call (ev : Event) : bool := negb (is_api_call ev).

(** From [w] to [w'] only events allowed by [P] happen. *)
Definition emits (P : Event -> bool) (w w' : World) : Prop :=
  exists d, trace w' = trace w ++ d /\ forallb P d = true.


(** The count every waiter of a run derives from the inputs. *)
Definition run_iterations (E : Env) : Count :=
  calculateIterations
    (JsNumber.or (Inputs.max_timeout (inputs E)) (JsNumber.of_Z 60))
    (JsNumber.mul
       (JsNumber.or (Inputs.check_interval (inputs E)) (JsNumber.of_Z 2))
       (JsNumber.of_Z 1000)).

(** *** The pull-request lookup *)

Definition sha_options (owner repo : string) (number : Z)
  : GetShaForPullRequestOptions.t :=
  {| GetShaForPullRequestOptions.owner := owner;
     GetShaForPullRequestOptions.repo := repo;
     GetShaForPullRequestOptions.number := number |}.

(** What the lookup of pull request [p] gives. *)
Definition lookup_result (E : Env) (owner repo : string) (p : Z)
  : Completion (option string) :=
  match octokit_pulls_get E owner repo p with
  | Resolved status sha =>
      if status =? 200 then Normal (Some sha) else Normal None
  | Rejected message => Throw (RequestError message)
  end.

(** A run for pull request 12, the only one the API knows. *)
Definition env_pull_request : Env :=
  {| octokit_listDeployments := one_deployment;
     octokit_listDeploymentStatuses := success_at_once;
     octokit_pulls_get :=
       fun _ _ pull_number =>
         if pull_number =? 12 then Resolved 200 "abc"
         else Rejected "Not Found";
     server_post := no_answer;
     server_get := always_ok;
     parseCookies := sample_parseCookies;
     URL_toString := sample_URL_toString;
     URLSearchParams_toString := sample_URLSearchParams_toString;
     context :=
       {| Context.owner := "acme"; Context.repo := "site";
          Context.sha := "merge-commit";
          Context.pull_request := Some 12 |};
     inputs := sample_inputs "" "" 60 |}.

(** A run without password or bypass header whose first health check is
    answered with 200. *)
Definition env_end_to_end : Env :=
  sample_env one_deployment success_at_once no_answer always_ok
    (sample_inputs "" "" 60).

(** *** The stages of a run *)

(** The timeout, the interval and the path a run hands to its waiters. *)
Definition run_max_timeout (E : Env) : JsNumber.t :=
  JsNumber.or (Inputs.max_timeout (inputs E)) (JsNumber.of_Z 60).

Definition run_interval (E : Env) : JsNumber.t :=
  JsNumber.mul
    (JsNumber.or (Inputs.check_interval (inputs E)) (JsNumber.of_Z 2))
    (JsNumber.of_Z 1000).

Definition run_path (E : Env) : string :=
  if String.eqb (Inputs.path (inputs E)) "" then "/"
  else Inputs.path (inputs E).

(** The options a run gives to each waiter. *)
Definition run_start_options (E : Env) (sha : string)
  : WaitForDeploymentToStartOptions.t :=
  {| WaitForDeploymentToStartOptions.owner := Context.owner (context E);
     WaitForDeploymentToStartOptions.repo := Context.repo (context E);
     WaitForDeploymentToStartOptions.sha := sha;
     WaitForDeploymentToStartOptions.environment :=
       Some (Inputs.environment (inputs E));
     WaitForDeploymentToStartOptions.actorName := Some "vercel[bot]";
     WaitForDeploymentToStartOptions.maxTimeout := Some (run_max_timeout E);
     WaitForDeploymentToStartOptions.checkIntervalInMilliseconds :=
       Some (run_interval E) |}.

Definition run_status_options (E : Env) (allowInactive : bool)
  (deployment : Deployment.t) : WaitForStatusOptions.t :=
  {| WaitForStatusOptions.token := Inputs.token (inputs E);
     WaitForStatusOptions.owner := Context.owner (context E);
     WaitForStatusOptions.repo := Context.repo (context E);
     WaitForStatusOptions.deployment_id := Deployment.id deployment;
     WaitForStatusOptions.maxTimeout := run_max_timeout E;
     WaitForStatusOptions.allowInactive := allowInactive;
     WaitForStatusOptions.checkIntervalInMilliseconds := run_interval E |}.

Definition run_url_options (E : Env) (targetUrl : string)
  : WaitForUrlOptions.t :=
  {| WaitForUrlOptions.url := targetUrl;
     WaitForUrlOptions.maxTimeout := run_max_timeout E;
     WaitForUrlOptions.checkIntervalInMilliseconds := run_interval E;
     WaitForUrlOptions.vercelPassword :=
       Some (Inputs.vercel_password (inputs E));
     WaitForUrlOptions.protectionBypassHeader :=
       Some (Inputs.vercel_protection_bypass_header (inputs E));
     WaitForUrlOptions.path := run_path E |}.

(** The commit of the run: the head of the pull request when the run
    belongs to one, else the commit of the context. *)
Definition sha_stage (E : Env) : M (option string) :=
  match Context.pull_request (context E) with
  | Some number =>
      getShaForPullRequest E
        (sha_options (Context.owner (context E)) (Context.repo (context E))
           number)
  | None => ret (truthy (Some (Context.sha (context E))))
  end.

(** A stage that ends the run with the failure [message]. *)
Definition failed (message : string) (w : World)
  : Completion unit * World :=
  (Normal tt, emit (SetFailed message) w).

(** The run from the health check on. *)
Definition run_from_url (E : Env) (fuel : nat) (targetUrl : string)
  (w : World) : Completion unit * World :=
  match
    waitForUrl E fuel (run_url_options E targetUrl)
      (emit (SetOutput "url" targetUrl) w)
  with
  | (Throw e, w') => failed (Exception_message e) w'
  | r => r
  end.

(** The run from the status waiter on. *)
Definition run_from_status (E : Env) (fuel : nat) (allowInactive : bool)
  (deployment : Deployment.t) (w : World) : Completion unit * World :=
  match
    waitForStatus E fuel (run_status_options E allowInactive deployment) w
  with
  | (Normal (Some status), w') =>
      match truthy (Some (DeploymentStatus.target_url status)) with
      | Some targetUrl => run_from_url E fuel targetUrl w'
      | None => failed "no target_url found in the status check" w'
      end
  | (Normal None, w') => failed "no target_url found in the status check" w'
  | (Throw e, w') => failed (Exception_message e) w'
  | (OutOfFuel, w') => (OutOfFuel, w')
  end.

(** The run from the start waiter on. *)
Definition run_from_start (E : Env) (fuel : nat) (allowInactive : bool)
  (sha : string) (w : World) : Completion unit * World :=
  match waitForDeploymentToStart E fuel (run_start_options E sha) w with
  | (Normal (Some deployment), w') =>
      run_from_status E fuel allowInactive deployment w'
  | (Normal None, w') => failed "no vercel deployment found, exiting..." w'
  | (Throw e, w') => failed (Exception_message e) w'
  | (OutOfFuel, w') => (OutOfFuel, w')
  end.

(** The message of [core.getBooleanInput] for a text that is no boolean. *)
Definition boolean_input_message (name : string) : string :=
  "Input does not meet YAML 1.2 " +++ dquote +++ "Core Schema"
  +++ dquote +++ " specification: " +++ name +++ newline
  +++ "Support boolean input list: "
  +++ "`true | True | TRUE | false | False | FALSE`".

(** The failure of a run whose token is empty: the input library refuses
    a text that is empty; a blank text passes, and the run refuses the
    empty token itself, after it has read [allow_inactive]. *)
Definition empty_token_message (E : Env) : string :=
  if Inputs.token_blank (inputs E) then
    match Inputs.allow_inactive (inputs E) with
    | None => boolean_input_message "allow_inactive"
    | Some _ => "Required field `token` was not provided"
    end
  else "Input required and not supplied: token".

(** The run, stage by stage. *)
Definition run_staged (E : Env) (fuel : nat) (w : World)
  : Completion unit * World :=
  if String.eqb (Inputs.token (inputs E)) "" then
    failed (empty_token_message E) w
  else
    match Inputs.allow_inactive (inputs E) with
    | None => failed (boolean_input_message "allow_inactive") w
    | Some allowInactive =>
        match sha_stage E w with
        | (Normal sha, w') =>
            match truthy sha with
            | Some sha => run_from_start E fuel allowInactive sha w'
            | None => failed "Unable to determine SHA. Exiting..." w'
            end
        | (Throw e, w') => failed (Exception_message e) w'
        | (OutOfFuel, w') => (OutOfFuel, w')
        end
    end.

(** A run whose token is missing. *)
Definition env_no_token : Env :=
  sample_env one_deployment success_at_once no_answer always_ok
    {| Inputs.token := "";
       Inputs.token_blank := false;
       Inputs.vercel_password := "";
       Inputs.vercel_protection_bypass_header := "";
       Inputs.environment := "";
       Inputs.max_timeout := JsNumber.of_Z 60;
       Inputs.allow_inactive := None;
       Inputs.path := "";
       Inputs.check_interval := JsNumber.of_Z 2 |}.

(** Deployments of other actors only. *)
Definition deployments_of_others (k : nat)
  : OctokitResult (list Deployment.t) :=
  Resolved 200
    [a_deployment 1 "octocat";
     {| Deployment.id := 2; Deployment.creator := None |}].

(** A run of 4 seconds that never sees a deployment of the platform. *)
Definition env_no_deployment : Env :=
  sample_env deployments_of_others success_at_once no_answer always_ok
    (sample_inputs "" "" 4).

(** A run of 4 seconds whose deployment stays in progress. *)
Definition env_never_successful : Env :=
  sample_env one_deployment
    (fun _ => Resolved 200 [a_status "in_progress"]) no_answer always_ok
    (sample_inputs "" "" 4).

(** A run whose successful status has no target URL. *)
Definition env_no_target_url : Env :=
  sample_env one_deployment
    (fun _ =>
       Resolved 200
         [{| DeploymentStatus.state := "success";
             DeploymentStatus.target_url := "" |}])
    no_answer always_ok (sample_inputs "" "" 4).


(** Two cookies named [_vercel_jwt], the first of them empty. *)
Definition two_jwt_cookies (k : nat) : HttpOutcome :=
  http 303 (Some ["theme=dark"; "_vercel_jwt="; "_vercel_jwt=abc123"]).

Definition env_two_jwt_cookies : Env :=
  sample_env one_deployment success_at_once two_jwt_cookies always_ok
    (sample_inputs "secret" "" 60).

(** An environment whose URL constructor rejects every URL. *)
Definition env_invalid_url : Env :=
  {| octokit_listDeployments := one_deployment;
     octokit_listDeploymentStatuses := success_at_once;
     octokit_pulls_get := fun _ _ _ => Resolved 200 "abc";
     server_post := with_jwt_cookie;
     server_get := always_ok;
     parseCookies := sample_parseCookies;
     URL_toString := fun _ _ => None;
     URLSearchParams_toString := sample_URLSearchParams_toString;
     context := sample_context;
     inputs := sample_inputs "secret" "" 4 |}.

(** Status options with an interval of [+0] milliseconds. *)
Definition status_options_no_interval : WaitForStatusOptions.t :=
  {| WaitForStatusOptions.token := "ghs_token";
     WaitForStatusOptions.owner := "acme";
     WaitForStatusOptions.repo := "site";
     WaitForStatusOptions.deployment_id := 7;
     WaitForStatusOptions.maxTimeout := JsNumber.of_Z 60;
     WaitForStatusOptions.allowInactive := false;
     WaitForStatusOptions.checkIntervalInMilliseconds := S754_zero false |}.

(** A run whose deployment appears at the third request, whose status is
    [success] at the third poll, and whose preview answers 500 once. *)
Definition env_slow_preview : Env :=
  sample_env deployments_appear polls_until_success no_answer error_then_ok
    (sample_inputs "" "" 60).
(** * Properties *)

(** ** Numbers and the retry budget *)

Lemma counter_lt_budget (i : nat) (iterations : Count) :
  counter_lt i iterations = true <->
  match budget iterations with
  | Some n => (i < n)%nat
  | None => True
  end.
Proof.
  destruct iterations as [n| | |]; simpl.
  - rewrite Z.ltb_lt. lia.
  - tauto.
  - split; [discriminate | lia].
  - split; [discriminate | lia].
Qed.

Lemma counter_lt_mono (i j : nat) (iterations : Count) :
  (i <= j)%nat -> counter_lt j iterations = true ->
  counter_lt i iterations = true.
Proof.
  intros Hij. rewrite !counter_lt_budget.
  destruct (budget iterations); [lia | trivial].
Qed.

(** [Math_floor] is the floor of the value [(-1)^s * m * 2^e]. *)
Lemma Math_floor_finite (s : bool) (m : positive) (e : Z) :
  exists n : Z,
    Math_floor (S754_finite s m e) = Int n /\
    (0 <= e -> n = signed_mantissa s m * 2 ^ e) /\
    (e < 0 ->
     n * 2 ^ (- e) <= signed_mantissa s m < (n + 1) * 2 ^ (- e)).
Proof.
  exists (Z.shiftl (signed_mantissa s m) e). split; [reflexivity | split].
  - intros He. now rewrite Z.shiftl_mul_pow2.
  - intros He. rewrite Z.shiftl_div_pow2 by lia.
    assert (Hp : 0 < 2 ^ (- e)) by (apply Z.pow_pos_nonneg; lia).
    pose proof (Z.div_mod (signed_mantissa s m) (2 ^ (- e))) as Hdm.
    pose proof (Z.mod_pos_bound (signed_mantissa s m) (2 ^ (- e)) Hp).
    nia.
Qed.

Lemma whole_second_grid_ok :
  forallb
    (fun a => forallb (whole_second_check a) (map Z.of_nat (seq 1 30)))
    (map Z.of_nat (seq 0 301)) = true.
Proof. vm_compute. reflexivity. Qed.

Lemma In_Z_range (lo len : nat) (z : Z) :
  Z.of_nat lo <= z < Z.of_nat (lo + len) -> In z (map Z.of_nat (seq lo len)).
Proof.
  intros Hz. rewrite in_map_iff. exists (Z.to_nat z). split; [lia |].
  apply in_seq. lia.
Qed.

Lemma whole_second_grid (a s : Z) :
  0 <= a <= 300 -> 1 <= s <= 30 ->
  calculateIterations (JsNumber.of_Z a) (JsNumber.of_Z (1000 * s))
  = Int (a / s) /\
  spec_iterations a (1000 * s) = a / s.
Proof.
  intros Ha Hs.
  pose proof (proj1 (forallb_forall _ _) whole_second_grid_ok a
                (In_Z_range 0 301 a ltac:(lia))) as Ga.
  cbv beta in Ga.
  pose proof (proj1 (forallb_forall _ _) Ga s
                (In_Z_range 1 30 s ltac:(lia))) as Gs.
  unfold whole_second_check in Gs.
  destruct (calculateIterations _ _); try discriminate.
  apply andb_true_iff in Gs. destruct Gs as [G1 G2].
  apply Z.eqb_eq in G1, G2. now subst.
Qed.

(** C1, as stated, fails: the divisions are those of doubles.  1100 / 1000
    is rounded up to the double next above 1.1, and the quotient of 33 by
    it is rounded to the double next below 30; the same happens for 81 and
    2700.  The count of the specification is 30 in both cases. *)
Lemma floor_of_exact_quotient_fails :
  calculateIterations (JsNumber.of_Z 33) (JsNumber.of_Z 1100) = Int 29 /\
  spec_iterations 33 1100 = 30 /\
  calculateIterations (JsNumber.of_Z 81) (JsNumber.of_Z 2700) = Int 29 /\
  spec_iterations 81 2700 = 30.
Proof. repeat split; vm_compute; reflexivity. Qed.

(** C1, amended.  For every pair the retry budget is the floor of the
    double [q] that the two divisions of doubles give,
    [maxTimeoutSec / (checkIntervalInMilliseconds / 1000)]: the greatest
    integer not above [q] when [q] is finite, 0 when [q] is a zero, and
    [q] itself when [q] is an infinity or NaN.  On whole seconds (timeouts
    up to 300 s, intervals of 1 to 30 s) it is the integer quotient, which
    is the count of the specification; it is 30 for (60, 2000) and 0 for
    (0, 2000). *)
Theorem calculateIterations_floor_of_double_quotient :
  (forall a b : JsNumber.t,
     match JsNumber.div a (JsNumber.div b (JsNumber.of_Z 1000)) with
     | S754_finite s m e =>
         exists n : Z,
           calculateIterations a b = Int n /\
           (0 <= e -> n = signed_mantissa s m * 2 ^ e) /\
           (e < 0 ->
            n * 2 ^ (- e) <= signed_mantissa s m < (n + 1) * 2 ^ (- e))
     | S754_zero _ => calculateIterations a b = Int 0
     | S754_infinity false => calculateIterations a b = PosInfinity
     | S754_infinity true => calculateIterations a b = NegInfinity
     | S754_nan => calculateIterations a b = NaN
     end) /\
  (forall a s : Z,
     0 <= a <= 300 -> 1 <= s <= 30 ->
     calculateIterations (JsNumber.of_Z a) (JsNumber.of_Z (1000 * s))
     = Int (a / s) /\
     spec_iterations a (1000 * s) = a / s) /\
  calculateIterations (JsNumber.of_Z 60) (JsNumber.of_Z 2000) = Int 30 /\
  calculateIterations (JsNumber.of_Z 0) (JsNumber.of_Z 2000) = Int 0.
Proof.
  split; [| split; [| split]].
  - intros a b. unfold calculateIterations.
    destruct (JsNumber.div a (JsNumber.div b (JsNumber.of_Z 1000)))
      as [s|[]| |s m e]; try reflexivity.
    apply Math_floor_finite.
  - apply whole_second_grid.
  - vm_compute. reflexivity.
  - vm_compute. reflexivity.
Qed.

Lemma calculateIterations_floor_of_double_quotient_witness :
  calculateIterations (JsNumber.of_Z 60) (JsNumber.of_Z (1000 * 2))
  = Int (60 / 2) /\
  spec_iterations 60 (1000 * 2) = 60 / 2.
Proof.
  apply (proj1 (proj2 calculateIterations_floor_of_double_quotient)); lia.
Defined.

(** *** The sign of a quotient *)

Lemma shr_1_nonneg (mrs : shr_record) :
  0 <= shr_m mrs -> 0 <= shr_m (shr_1 mrs).
Proof.
  destruct mrs as [m r s]. simpl.
  destruct m as [|p|p]; [| destruct p | ]; simpl; lia.
Qed.

Lemma iter_pos_shr_1_nonneg (p : positive) (mrs : shr_record) :
  0 <= shr_m mrs -> 0 <= shr_m (iter_pos shr_1 p mrs).
Proof.
  revert mrs.
  induction p as [p IH|p IH|]; intros mrs H; simpl.
  - apply IH, IH, shr_1_nonneg, H.
  - apply IH, IH, H.
  - apply shr_1_nonneg, H.
Qed.

Lemma shr_fexp_nonneg (m e : Z) (l : location) :
  0 <= m ->
  0 <= shr_m (fst (shr_fexp JsNumber.prec JsNumber.emax m e l)).
Proof.
  intros H. unfold shr_fexp, shr.
  assert (H0 : 0 <= shr_m (shr_record_of_loc m l))
    by (destruct l as [|[]]; simpl; exact H).
  destruct (fexp _ _ _ - e); simpl; auto using iter_pos_shr_1_nonneg.
Qed.

Lemma round_nearest_even_nonneg (m : Z) (l : location) :
  0 <= m -> 0 <= round_nearest_even m l.
Proof.
  intros H. unfold round_nearest_even.
  destruct l as [|[]]; try destruct (Z.even m); lia.
Qed.

Lemma binary_round_aux_not_negative (m e : Z) (l : location) :
  0 <= m ->
  not_negative (binary_round_aux JsNumber.prec JsNumber.emax false m e l).
Proof.
  intros H. unfold binary_round_aux.
  pose proof (shr_fexp_nonneg m e l H) as H1.
  destruct (shr_fexp JsNumber.prec JsNumber.emax m e l) as [mrs' e'].
  simpl in H1.
  pose proof (shr_fexp_nonneg _ e' loc_Exact
                (round_nearest_even_nonneg _ (loc_of_shr_record mrs') H1))
    as H2.
  destruct (shr_fexp _ _ (round_nearest_even _ _) e' loc_Exact)
    as [mrs'' e''].
  simpl in H2.
  destruct (shr_m mrs''); [exact I | | lia].
  destruct (e'' <=? _); exact I.
Qed.

Lemma div_positive_not_negative (x y : JsNumber.t) :
  JsNumber.positive x -> JsNumber.positive y ->
  not_negative (JsNumber.div x y).
Proof.
  destruct x as [| | |[] mx ex]; try contradiction.
  destruct y as [| | |[] my ey]; try contradiction.
  intros _ _. unfold JsNumber.div, SFdiv, SFdiv_core_binary.
  set (e' := Z.min _ _).
  set (m' := match ex - ey - e' with 0 => _ | Z.pos _ => _ | Z.neg _ => _ end).
  assert (Hm' : 0 <= m').
  { subst m'. destruct (ex - ey - e'); try lia.
    apply Z.shiftl_nonneg. lia. }
  pose proof (Z.div_pos m' (Z.pos my) Hm' ltac:(lia)) as Hq.
  unfold Z.div in Hq.
  destruct (Z.div_eucl m' (Z.pos my)) as [q r]. simpl in Hq.
  apply binary_round_aux_not_negative, Hq.
Qed.

Lemma calculateIterations_nonneg (a b : JsNumber.t) :
  JsNumber.positive a -> JsNumber.positive b ->
  Count_nonneg (calculateIterations a b).
Proof.
  intros Ha Hb. unfold calculateIterations.
  pose proof (div_positive_not_negative b (JsNumber.of_Z 1000) Hb I) as Hc.
  destruct (JsNumber.div b (JsNumber.of_Z 1000)) as [[]|[]| |[] mc ec];
    try contradiction.
  - destruct a as [| | |[] ma ea]; try contradiction. exact I.
  - destruct a as [| | |[] ma ea]; try contradiction. simpl. lia.
  - pose proof (div_positive_not_negative a (S754_finite false mc ec) Ha I)
      as Hq.
    destruct (JsNumber.div a (S754_finite false mc ec)) as [[]|[]| |[] mq eq];
      try contradiction; simpl; try lia.
    apply Z.shiftl_nonneg. lia.
Qed.

(** ** The [for] loop *)

Lemma concat_repeat_snoc {A : Type} (b : list A) (k : nat) :
  List.concat (repeat b (S k)) = List.concat (repeat b k) ++ b.
Proof.
  induction k as [|k IH]; simpl in *.
  - now rewrite app_nil_r.
  - rewrite IH at 1. now rewrite app_assoc.
Qed.

Section ForLoop.

Context {A : Type}.
Variable iterations : Count.
Variable body : nat -> M (Control A).

(** The loop returns at the first turn whose body returns, when the
    earlier turns end normally and the turn is within the count. *)
Lemma for_loop_first_return (k : nat) :
  forall (W : nat -> World) (i : nat) (a : A) (w' : World),
    (forall j, (j < k)%nat -> body (i + j) (W j) = (Normal Next, W (S j))) ->
    body (i + k)%nat (W k) = (Normal (Return a), w') ->
    counter_lt (i + k) iterations = true ->
    forall fuel, (k < fuel)%nat ->
      for_loop fuel iterations body i (W 0%nat) = (Normal (Return a), w').
Proof.
  induction k as [|k IH]; intros W i a w' Hnext Hret Hlt fuel Hfuel;
    destruct fuel as [|fuel]; try lia; simpl.
  - rewrite Nat.add_0_r in Hret, Hlt. now rewrite Hlt, Hret.
  - rewrite (counter_lt_mono i (i + S k) iterations) by (lia || exact Hlt).
    specialize (Hnext 0%nat ltac:(lia)) as H0.
    rewrite Nat.add_0_r in H0. rewrite H0.
    apply (IH (fun j => W (S j)) (S i) a w').
    + intros j Hj. specialize (Hnext (S j) ltac:(lia)).
      now rewrite Nat.add_succ_r in Hnext.
    + now rewrite Nat.add_succ_r in Hret.
    + now rewrite Nat.add_succ_r in Hlt.
    + lia.
Qed.

(** The loop ends normally after [n] turns when each of them ends
    normally and the count allows exactly [n] turns. *)
Lemma for_loop_exhausted (n : nat) :
  forall (W : nat -> World) (i : nat),
    (forall j, (j < n)%nat -> body (i + j) (W j) = (Normal Next, W (S j))) ->
    (forall j, (j < n)%nat -> counter_lt (i + j) iterations = true) ->
    counter_lt (i + n) iterations = false ->
    forall fuel, (n < fuel)%nat ->
      for_loop fuel iterations body i (W 0%nat) = (Normal Next, W n).
Proof.
  induction n as [|n IH]; intros W i Hnext Hin Hout fuel Hfuel;
    destruct fuel as [|fuel]; try lia; simpl.
  - rewrite Nat.add_0_r in Hout. now rewrite Hout.
  - specialize (Hin 0%nat ltac:(lia)) as H0.
    rewrite Nat.add_0_r in H0. rewrite H0.
    specialize (Hnext 0%nat ltac:(lia)) as H1.
    rewrite Nat.add_0_r in H1. rewrite H1.
    apply (IH (fun j => W (S j)) (S i)).
    + intros j Hj. specialize (Hnext (S j) ltac:(lia)).
      now rewrite Nat.add_succ_r in Hnext.
    + intros j Hj. specialize (Hin (S j) ltac:(lia)).
      now rewrite Nat.add_succ_r in Hin.
    + now rewrite Nat.add_succ_r in Hout.
    + lia.
Qed.

(** With a count of [n] attempts, [n] turns that end normally exhaust
    the loop. *)
Lemma for_loop_budget_exhausted (n : nat) (W : nat -> World) :
  budget iterations = Some n ->
  (forall j, (j < n)%nat -> body j (W j) = (Normal Next, W (S j))) ->
  forall fuel, (n < fuel)%nat ->
    for_loop fuel iterations body 0%nat (W 0%nat) = (Normal Next, W n).
Proof.
  intros Hb Hnext fuel Hfuel.
  apply for_loop_exhausted; try assumption.
  - intros j Hj. apply counter_lt_budget. rewrite Hb. exact Hj.
  - simpl. destruct (counter_lt n iterations) eqn:Hc; [| reflexivity].
    apply counter_lt_budget in Hc. rewrite Hb in Hc. lia.
Qed.

(** A loop invariant: [Inv i] holds before turn [i] and is kept by the
    turns that end normally, [Q i] holds where turn [i] returns, and no
    turn throws. *)
Lemma for_loop_invariant (Inv : nat -> World -> Prop)
  (Q : nat -> A -> World -> Prop) :
  (forall i w, Inv i w -> counter_lt i iterations = true ->
     match body i w with
     | (Normal Next, w') => Inv (S i) w'
     | (Normal (Return a), w') => Q i a w'
     | (Throw _, _) => False
     | (OutOfFuel, _) => True
     end) ->
  forall fuel i w, Inv i w ->
    match for_loop fuel iterations body i w with
    | (Normal Next, w') =>
        exists i', (i <= i')%nat /\ Inv i' w' /\
          counter_lt i' iterations = false /\
          (forall j, (i <= j < i')%nat -> counter_lt j iterations = true)
    | (Normal (Return a), w') =>
        exists i', (i <= i')%nat /\ Q i' a w' /\
          counter_lt i' iterations = true
    | (Throw _, _) => False
    | (OutOfFuel, _) => True
    end.
Proof.
  intros Hbody fuel.
  induction fuel as [|fuel IH]; intros i w Hw; simpl; [exact I |].
  destruct (counter_lt i iterations) eqn:Hlt.
  - specialize (Hbody i w Hw Hlt).
    destruct (body i w) as [[[a|]| e |] w']; try exact Hbody.
    + exists i. auto.
    + specialize (IH (S i) w' Hbody).
      destruct (for_loop fuel iterations body (S i) w')
        as [[[a|]| e |] w'']; try exact IH.
      * destruct IH as (i' & Hi & HQ & Hc). exists i'.
        split; [lia | auto].
      * destruct IH as (i' & Hi & HI & Hc & Hall). exists i'.
        split; [lia | split; [exact HI | split; [exact Hc |]]].
        intros j Hj. destruct (Nat.eq_dec j i) as [->|Hne]; [exact Hlt |].
        apply Hall. lia.
  - exists i. split; [lia | split; [exact Hw | split; [exact Hlt |]]].
    intros j Hj. lia.
Qed.

(** With a finite count and a body that always comes back, the loop
    comes back once the fuel exceeds the number of turns left. *)
Lemma for_loop_terminates (n : nat) :
  budget iterations = Some n ->
  (forall i w, fst (body i w) <> OutOfFuel) ->
  forall fuel i w, (n - i < fuel)%nat ->
    fst (for_loop fuel iterations body i w) <> OutOfFuel.
Proof.
  intros Hb Hbody fuel.
  induction fuel as [|fuel IH]; intros i w Hfuel; [lia |]. simpl.
  destruct (counter_lt i iterations) eqn:Hlt; [| discriminate].
  apply counter_lt_budget in Hlt. rewrite Hb in Hlt.
  specialize (Hbody i w).
  destruct (body i w) as [[[a|]| e |] w']; simpl in *;
    try discriminate; try contradiction.
  apply IH. lia.
Qed.

End ForLoop.

(** ** The status waiter *)

Section StatusWaiter.

Variable E : Env.
Variable o : WaitForStatusOptions.t.

(** One attempt returns the accepted status, or sleeps and goes on. *)
Lemma waitForStatus_attempt_spec (w : World) :
  waitForStatus_attempt E o w =
  match accepted (WaitForStatusOptions.allowInactive o) (status_poll E w 0) with
  | Some status => (Normal (Return status), status_polled o w)
  | None => (Normal Next, status_retried o w)
  end.
Proof.
  unfold waitForStatus_attempt, try_catch, bind, listDeploymentStatuses,
    accepted, status_poll, of_octokit.
  rewrite Nat.add_0_r.
  destruct (octokit_listDeploymentStatuses E _) as [st [|status rest]|msg];
    try reflexivity.
  simpl.
  destruct (WaitForStatusOptions.allowInactive o),
    (String.eqb (DeploymentStatus.state status) "inactive"),
    (String.eqb (DeploymentStatus.state status) "success");
    reflexivity.
Qed.

Lemma status_retried_calls (k : nat) (w : World) :
  calls_listDeploymentStatuses (Nat.iter k (status_retried o) w)
  = (calls_listDeploymentStatuses w + k)%nat.
Proof.
  induction k as [|k IH]; simpl; [lia | rewrite IH; lia].
Qed.

Lemma status_retried_trace (k : nat) (w : World) :
  trace (Nat.iter k (status_retried o) w)
  = trace w
    ++ List.concat
         (repeat
            [ListDeploymentStatuses (WaitForStatusOptions.owner o)
               (WaitForStatusOptions.repo o)
               (WaitForStatusOptions.deployment_id o);
             Sleep (WaitForStatusOptions.checkIntervalInMilliseconds o)]
            k).
Proof.
  induction k as [|k IH]; simpl Nat.iter.
  - simpl. now rewrite app_nil_r.
  - rewrite concat_repeat_snoc, app_assoc, <- IH.
    unfold status_retried at 1. simpl. now rewrite <- app_assoc.
Qed.

Lemma waitForStatus_attempt_retry (w : World) (k j : nat) :
  accepted (WaitForStatusOptions.allowInactive o) (status_poll E w j) = None ->
  (j <= k)%nat ->
  waitForStatus_attempt E o (Nat.iter j (status_retried o) w)
  = (Normal Next, Nat.iter (S j) (status_retried o) w).
Proof.
  intros Hj _. rewrite waitForStatus_attempt_spec. unfold status_poll in *.
  rewrite status_retried_calls, Nat.add_0_r, Hj. reflexivity.
Qed.

(** The waiter succeeds at the first accepted poll within the count. *)
Lemma waitForStatus_succeeds (w : World) (k : nat)
  (status : DeploymentStatus.t) :
  (forall j, (j < k)%nat ->
     accepted (WaitForStatusOptions.allowInactive o) (status_poll E w j) = None) ->
  accepted (WaitForStatusOptions.allowInactive o) (status_poll E w k)
  = Some status ->
  counter_lt k (status_iterations o) = true ->
  forall fuel, (k < fuel)%nat ->
    waitForStatus E fuel o w
    = (Normal (Some status),
       status_polled o (Nat.iter k (status_retried o) w)).
Proof.
  intros Hretry Hok Hlt fuel Hfuel.
  unfold waitForStatus, bind.
  rewrite (for_loop_first_return _ _ k
             (fun j => Nat.iter j (status_retried o) w) 0%nat status
             (status_polled o (Nat.iter k (status_retried o) w)));
    try assumption; try reflexivity.
  - intros j Hj. simpl.
    apply (waitForStatus_attempt_retry w k j); [auto | lia].
  - simpl. rewrite waitForStatus_attempt_spec. unfold status_poll in *.
    rewrite status_retried_calls, Nat.add_0_r, Hok. reflexivity.
Qed.

(** Without an accepted poll the waiter uses its whole count and signals
    the timeout. *)
Lemma waitForStatus_times_out (w : World) (n : nat) :
  budget (status_iterations o) = Some n ->
  (forall j, (j < n)%nat ->
     accepted (WaitForStatusOptions.allowInactive o) (status_poll E w j) = None) ->
  forall fuel, (n < fuel)%nat ->
    waitForStatus E fuel o w
    = (Normal None,
       emit (SetFailed status_timeout_message)
         (Nat.iter n (status_retried o) w)).
Proof.
  intros Hb Hretry fuel Hfuel.
  unfold waitForStatus, bind.
  rewrite (for_loop_budget_exhausted _ _ n
             (fun j => Nat.iter j (status_retried o) w));
    try assumption; try reflexivity.
  intros j Hj. apply (waitForStatus_attempt_retry w n j); [auto | lia].
Qed.

(** Whatever the polls, the waiter never throws; it returns a status only
    at the first accepted poll, and without one it signals the timeout
    after the attempts its count allows. *)
Lemma waitForStatus_outcome (fuel : nat) (w : World) :
  match waitForStatus E fuel o w with
  | (Normal (Some status), w') =>
      exists k,
        accepted (WaitForStatusOptions.allowInactive o) (status_poll E w k)
        = Some status /\
        (forall j, (j < k)%nat ->
           accepted (WaitForStatusOptions.allowInactive o)
             (status_poll E w j) = None) /\
        counter_lt k (status_iterations o) = true /\
        w' = status_polled o (Nat.iter k (status_retried o) w)
  | (Normal None, w') =>
      exists n,
        (forall j, (j < n)%nat ->
           accepted (WaitForStatusOptions.allowInactive o)
             (status_poll E w j) = None) /\
        counter_lt n (status_iterations o) = false /\
        (forall j, (j < n)%nat ->
           counter_lt j (status_iterations o) = true) /\
        w' = emit (SetFailed status_timeout_message)
               (Nat.iter n (status_retried o) w)
  | (Throw _, _) => False
  | (OutOfFuel, _) => True
  end.
Proof.
  unfold waitForStatus, bind. fold (status_iterations o).
  pose proof
    (for_loop_invariant (status_iterations o)
       (fun _ => waitForStatus_attempt E o)
       (fun i wc =>
          wc = Nat.iter i (status_retried o) w /\
          forall j, (j < i)%nat ->
            accepted (WaitForStatusOptions.allowInactive o)
              (status_poll E w j) = None)
       (fun i status wc =>
          wc = status_polled o (Nat.iter i (status_retried o) w) /\
          accepted (WaitForStatusOptions.allowInactive o)
            (status_poll E w i) = Some status /\
          forall j, (j < i)%nat ->
            accepted (WaitForStatusOptions.allowInactive o)
              (status_poll E w j) = None)) as H.
  specialize (H ltac:(
    intros i wc [-> Hnone] _; cbv beta;
    rewrite waitForStatus_attempt_spec; unfold status_poll at 1;
    rewrite status_retried_calls, Nat.add_0_r;
    fold (status_poll E w i);
    destruct (accepted _ (status_poll E w i)) eqn:Hi;
    [ auto
    | split; [reflexivity |];
      intros j Hj; destruct (Nat.eq_dec j i) as [->|Hne];
      [exact Hi | apply Hnone; lia] ])).
  specialize (H fuel 0%nat w).
  specialize (H ltac:(split; [reflexivity | intros j Hj; lia])).
  destruct (for_loop fuel (status_iterations o) _ 0%nat w)
    as [[[status|]| e |] w']; try exact H.
  - destruct H as (k & _ & (-> & Hk & Hnone) & Hc). exists k. auto.
  - destruct H as (n & _ & (-> & Hnone) & Hc & Hall). exists n.
    split; [exact Hnone | split; [exact Hc | split; [| reflexivity]]].
    intros j Hj. apply Hall. lia.
Qed.

End StatusWaiter.

Lemma accepted_iff (allowInactive : bool)
  (r : OctokitResult (list DeploymentStatus.t)) (status : DeploymentStatus.t) :
  accepted allowInactive r = Some status <->
  newest r = Some status /\
  (DeploymentStatus.state status = "success" \/
   DeploymentStatus.state status = "inactive" /\ allowInactive = true).
Proof.
  unfold accepted, newest.
  destruct r as [st [|s rest]|msg]; try (split; [discriminate | intros [H _]; discriminate]).
  destruct (String.eqb_spec (DeploymentStatus.state s) "success") as [Hs|Hs];
    simpl.
  - split; [intros [= <-]; auto | intros [[= <-] _]; reflexivity].
  - destruct (String.eqb_spec (DeploymentStatus.state s) "inactive")
      as [Hi|Hi]; simpl.
    + destruct allowInactive.
      * split; [intros [= <-]; auto | intros [[= <-] _]; reflexivity].
      * split; [discriminate |].
        intros [[= <-] [H|[_ H]]]; [contradiction | discriminate].
    + split; [discriminate |].
      intros [[= <-] [H|[H _]]]; contradiction.
Qed.

Lemma accepted_none_other_state (allowInactive : bool)
  (r : OctokitResult (list DeploymentStatus.t)) (status : DeploymentStatus.t) :
  newest r = Some status ->
  DeploymentStatus.state status <> "success" ->
  (DeploymentStatus.state status = "inactive" -> allowInactive = false) ->
  accepted allowInactive r = None.
Proof.
  intros Hn Hs Hi.
  destruct (accepted allowInactive r) as [s|] eqn:Ha; [| reflexivity].
  apply accepted_iff in Ha. destruct Ha as [Hn' [H|[H1 H2]]].
  - rewrite Hn in Hn'. injection Hn' as <-. contradiction.
  - rewrite Hn in Hn'. injection Hn' as <-. rewrite (Hi H1) in H2.
    discriminate.
Qed.

(** C2. An attempt of the status waiter ends the wait exactly when the
    newest status of its poll has state [success], or [inactive] while
    [allowInactive] holds; every other observation (an empty list, another
    state, a failed request) is followed by the sleep and the next attempt;
    the waiter returns at the first accepted poll within its count and
    signals the timeout when the count is used up.  So the polls [queued],
    [in_progress], [success] succeed at the third attempt, [inactive] never
    succeeds without [allowInactive] and succeeds at once with it. *)
Theorem waitForStatus_success_or_timeout :
  (forall E o w,
     waitForStatus_attempt E o w =
     match
       accepted (WaitForStatusOptions.allowInactive o)
         (octokit_listDeploymentStatuses E (calls_listDeploymentStatuses w))
     with
     | Some status => (Normal (Return status), status_polled o w)
     | None => (Normal Next, status_retried o w)
     end) /\
  (forall allowInactive r status,
     accepted allowInactive r = Some status <->
     newest r = Some status /\
     (DeploymentStatus.state status = "success" \/
      DeploymentStatus.state status = "inactive" /\ allowInactive = true)) /\
  (forall E o w k status,
     (forall j, (j < k)%nat ->
        accepted (WaitForStatusOptions.allowInactive o)
          (octokit_listDeploymentStatuses E
             (calls_listDeploymentStatuses w + j)) = None) ->
     accepted (WaitForStatusOptions.allowInactive o)
       (octokit_listDeploymentStatuses E (calls_listDeploymentStatuses w + k))
     = Some status ->
     counter_lt k (status_iterations o) = true ->
     forall fuel, (k < fuel)%nat ->
       waitForStatus E fuel o w
       = (Normal (Some status),
          status_polled o (Nat.iter k (status_retried o) w))) /\
  (forall E o w n,
     budget (status_iterations o) = Some n ->
     (forall j, (j < n)%nat ->
        accepted (WaitForStatusOptions.allowInactive o)
          (octokit_listDeploymentStatuses E
             (calls_listDeploymentStatuses w + j)) = None) ->
     forall fuel, (n < fuel)%nat ->
       waitForStatus E fuel o w
       = (Normal None,
          emit (SetFailed status_timeout_message)
            (Nat.iter n (status_retried o) w))) /\
  (forall E o fuel w,
     match waitForStatus E fuel o w with
     | (Normal (Some status), w') =>
         exists k,
           accepted (WaitForStatusOptions.allowInactive o)
             (status_poll E w k) = Some status /\
           (forall j, (j < k)%nat ->
              accepted (WaitForStatusOptions.allowInactive o)
                (status_poll E w j) = None) /\
           counter_lt k (status_iterations o) = true /\
           w' = status_polled o (Nat.iter k (status_retried o) w)
     | (Normal None, w') =>
         exists n,
           (forall j, (j < n)%nat ->
              accepted (WaitForStatusOptions.allowInactive o)
                (status_poll E w j) = None) /\
           counter_lt n (status_iterations o) = false /\
           (forall j, (j < n)%nat ->
              counter_lt j (status_iterations o) = true) /\
           w' = emit (SetFailed status_timeout_message)
                  (Nat.iter n (status_retried o) w)
     | (Throw _, _) => False
     | (OutOfFuel, _) => True
     end) /\
  (forall E o w s0 s1 s2,
     let c := calls_listDeploymentStatuses w in
     newest (octokit_listDeploymentStatuses E c) = Some s0 ->
     DeploymentStatus.state s0 = "queued" ->
     newest (octokit_listDeploymentStatuses E (c + 1)) = Some s1 ->
     DeploymentStatus.state s1 = "in_progress" ->
     newest (octokit_listDeploymentStatuses E (c + 2)) = Some s2 ->
     DeploymentStatus.state s2 = "success" ->
     counter_lt 2 (status_iterations o) = true ->
     forall fuel, (2 < fuel)%nat ->
       exists w',
         waitForStatus E fuel o w = (Normal (Some s2), w') /\
         calls_listDeploymentStatuses w' = (c + 3)%nat) /\
  (forall E o w n,
     WaitForStatusOptions.allowInactive o = false ->
     (forall j, exists s,
        newest (octokit_listDeploymentStatuses E j) = Some s /\
        DeploymentStatus.state s = "inactive") ->
     budget (status_iterations o) = Some n ->
     forall fuel, (n < fuel)%nat ->
       waitForStatus E fuel o w
       = (Normal None,
          emit (SetFailed status_timeout_message)
            (Nat.iter n (status_retried o) w))) /\
  (forall E o w s,
     WaitForStatusOptions.allowInactive o = true ->
     newest (octokit_listDeploymentStatuses E (calls_listDeploymentStatuses w))
     = Some s ->
     DeploymentStatus.state s = "inactive" ->
     counter_lt 0 (status_iterations o) = true ->
     forall fuel, (0 < fuel)%nat ->
       waitForStatus E fuel o w = (Normal (Some s), status_polled o w)).
Proof.
  split; [| split; [| split; [| split; [| split; [| split; [| split]]]]]].
  - intros E o w. rewrite waitForStatus_attempt_spec. unfold status_poll.
    now rewrite Nat.add_0_r.
  - apply accepted_iff.
  - intros E o w k status. apply waitForStatus_succeeds.
  - intros E o w n. apply waitForStatus_times_out.
  - apply waitForStatus_outcome.
  - intros E o w s0 s1 s2 c H0 S0 H1 S1 H2 S2 Hlt fuel Hfuel.
    eexists. split.
    + apply (waitForStatus_succeeds E o w 2 s2); unfold status_poll;
        try assumption.
      * intros j Hj.
        destruct j as [|[|j]]; [| | lia].
        -- rewrite Nat.add_0_r.
           apply (accepted_none_other_state _ _ s0 H0); rewrite S0;
             discriminate.
        -- apply (accepted_none_other_state _ _ s1 H1); rewrite S1;
             discriminate.
      * apply accepted_iff. split; [exact H2 | left; exact S2].
    + change (S (calls_listDeploymentStatuses
                   (Nat.iter 2 (status_retried o) w)) = (c + 3)%nat).
      rewrite status_retried_calls. subst c. lia.
  - intros E o w n Hallow Hall Hb fuel Hfuel.
    apply waitForStatus_times_out; unfold status_poll; try assumption.
    intros j _. destruct (Hall (calls_listDeploymentStatuses w + j)%nat)
      as [s [Hn Hs]].
    apply (accepted_none_other_state _ _ s Hn).
    + rewrite Hs. discriminate.
    + intros _. exact Hallow.
  - intros E o w s Hallow Hn Hs Hlt fuel Hfuel.
    apply (waitForStatus_succeeds E o w 0 s); unfold status_poll;
      try assumption.
    + intros j Hj. lia.
    + rewrite Nat.add_0_r. apply accepted_iff. split; [exact Hn |].
      right. split; [exact Hs | exact Hallow].
Qed.

Lemma waitForStatus_success_or_timeout_witness :
  waitForStatus
    (sample_env one_deployment polls_until_success no_answer no_answer
       (sample_inputs "" "" 60))
    31 (status_options 60 false) initial
  = (Normal (Some (a_status "success")),
     status_polled (status_options 60 false)
       (Nat.iter 2 (status_retried (status_options 60 false)) initial)).
Proof.
  apply (proj1 (proj2 (proj2 waitForStatus_success_or_timeout))).
  - intros j Hj. destruct j as [|[|j]]; [reflexivity | reflexivity | lia].
  - reflexivity.
  - vm_compute. reflexivity.
  - lia.
Defined.

(** ** The start waiter *)

Lemma find_first {A : Type} (f : A -> bool) (l : list A) (x : A) :
  find f l = Some x <->
  exists l1 l2,
    l = l1 ++ x :: l2 /\ f x = true /\ Forall (fun y => f y = false) l1.
Proof.
  induction l as [|a l IH]; simpl.
  - split; [discriminate |].
    intros (l1 & l2 & H & _). destruct l1; discriminate.
  - destruct (f a) eqn:Hfa.
    + split.
      * intros [= <-]. exists [], l. auto.
      * intros (l1 & l2 & H & Hx & Hl1).
        destruct l1 as [|b l1]; simpl in H; injection H as -> ->.
        -- reflexivity.
        -- inversion Hl1; congruence.
    + rewrite IH. split.
      * intros (l1 & l2 & -> & Hx & Hl1). exists (a :: l1), l2. auto.
      * intros (l1 & l2 & H & Hx & Hl1).
        destruct l1 as [|b l1]; simpl in H; injection H as -> ->.
        -- congruence.
        -- exists l1, l2. inversion Hl1. auto.
Qed.

Lemma created_by_iff (actorName : string) (d : Deployment.t) :
  created_by actorName d = true <-> Deployment.creator d = Some actorName.
Proof.
  unfold created_by. destruct (Deployment.creator d) as [login|].
  - rewrite String.eqb_eq. split; congruence.
  - split; discriminate.
Qed.

Section StartWaiter.

Variable E : Env.
Variable o : WaitForDeploymentToStartOptions.t.

(** One attempt returns the matched deployment, or sleeps and goes on:
    a failed request and a list without a match are not told apart. *)
Lemma waitForDeploymentToStart_attempt_spec (w : World) :
  waitForDeploymentToStart_attempt E o w =
  match matched (start_actorName o) (start_poll E w 0) with
  | Some deployment => (Normal (Return deployment), start_polled o w)
  | None => (Normal Next, start_retried o w)
  end.
Proof.
  unfold waitForDeploymentToStart_attempt, try_catch, bind,
    listDeployments, matched, start_poll, of_octokit.
  rewrite Nat.add_0_r. fold (start_actorName o).
  destruct (octokit_listDeployments E _) as [st [|d rest]|msg];
    try reflexivity.
  cbn [snd List.length Nat.ltb Nat.leb].
  destruct (find (created_by (start_actorName o)) (d :: rest));
    reflexivity.
Qed.

Lemma start_retried_calls (k : nat) (w : World) :
  calls_listDeployments (Nat.iter k (start_retried o) w)
  = (calls_listDeployments w + k)%nat.
Proof.
  induction k as [|k IH]; simpl; [lia | rewrite IH; lia].
Qed.

Lemma start_retried_trace (k : nat) (w : World) :
  trace (Nat.iter k (start_retried o) w)
  = trace w
    ++ List.concat
         (repeat
            [ListDeployments (WaitForDeploymentToStartOptions.owner o)
               (WaitForDeploymentToStartOptions.repo o)
               (WaitForDeploymentToStartOptions.sha o)
               (WaitForDeploymentToStartOptions.environment o);
             Sleep (start_interval o)]
            k).
Proof.
  induction k as [|k IH]; simpl Nat.iter.
  - simpl. now rewrite app_nil_r.
  - rewrite concat_repeat_snoc, app_assoc, <- IH.
    unfold start_retried at 1. simpl. now rewrite <- app_assoc.
Qed.

Lemma waitForDeploymentToStart_attempt_retry (w : World) (j : nat) :
  matched (start_actorName o) (start_poll E w j) = None ->
  waitForDeploymentToStart_attempt E o (Nat.iter j (start_retried o) w)
  = (Normal Next, Nat.iter (S j) (start_retried o) w).
Proof.
  intros Hj. rewrite waitForDeploymentToStart_attempt_spec.
  unfold start_poll in *.
  rewrite start_retried_calls, Nat.add_0_r, Hj. reflexivity.
Qed.

Lemma waitForDeploymentToStart_finds (w : World) (k : nat)
  (deployment : Deployment.t) :
  (forall j, (j < k)%nat ->
     matched (start_actorName o) (start_poll E w j) = None) ->
  matched (start_actorName o) (start_poll E w k) = Some deployment ->
  counter_lt k (start_iterations o) = true ->
  forall fuel, (k < fuel)%nat ->
    waitForDeploymentToStart E fuel o w
    = (Normal (Some deployment),
       start_polled o (Nat.iter k (start_retried o) w)).
Proof.
  intros Hretry Hok Hlt fuel Hfuel.
  unfold waitForDeploymentToStart, bind.
  fold (start_interval o).
  rewrite (for_loop_first_return _ _ k
             (fun j => Nat.iter j (start_retried o) w) 0%nat deployment
             (start_polled o (Nat.iter k (start_retried o) w)));
    try assumption; try reflexivity.
  - intros j Hj. simpl.
    apply waitForDeploymentToStart_attempt_retry. auto.
  - simpl. rewrite waitForDeploymentToStart_attempt_spec. unfold start_poll in *.
    rewrite start_retried_calls, Nat.add_0_r, Hok. reflexivity.
Qed.

Lemma waitForDeploymentToStart_gives_up (w : World) (n : nat) :
  budget (start_iterations o) = Some n ->
  (forall j, (j < n)%nat ->
     matched (start_actorName o) (start_poll E w j) = None) ->
  forall fuel, (n < fuel)%nat ->
    waitForDeploymentToStart E fuel o w
    = (Normal None, Nat.iter n (start_retried o) w).
Proof.
  intros Hb Hretry fuel Hfuel.
  unfold waitForDeploymentToStart, bind.
  fold (start_interval o).
  rewrite (for_loop_budget_exhausted _ _ n
             (fun j => Nat.iter j (start_retried o) w));
    try assumption; try reflexivity.
  intros j Hj. apply waitForDeploymentToStart_attempt_retry. auto.
Qed.

(** Whatever the answers, the waiter never throws; it returns a
    deployment only at the first attempt that finds one, and returns null
    after the attempts its count allows. *)
Lemma waitForDeploymentToStart_outcome (fuel : nat) (w : World) :
  match waitForDeploymentToStart E fuel o w with
  | (Normal (Some deployment), w') =>
      exists k,
        matched (start_actorName o) (start_poll E w k) = Some deployment /\
        (forall j, (j < k)%nat ->
           matched (start_actorName o) (start_poll E w j) = None) /\
        counter_lt k (start_iterations o) = true /\
        w' = start_polled o (Nat.iter k (start_retried o) w)
  | (Normal None, w') =>
      exists n,
        (forall j, (j < n)%nat ->
           matched (start_actorName o) (start_poll E w j) = None) /\
        counter_lt n (start_iterations o) = false /\
        (forall j, (j < n)%nat ->
           counter_lt j (start_iterations o) = true) /\
        w' = Nat.iter n (start_retried o) w
  | (Throw _, _) => False
  | (OutOfFuel, _) => True
  end.
Proof.
  unfold waitForDeploymentToStart, bind.
  fold (start_interval o). fold (start_iterations o).
  pose proof
    (for_loop_invariant (start_iterations o)
       (fun _ => waitForDeploymentToStart_attempt E o)
       (fun i wc =>
          wc = Nat.iter i (start_retried o) w /\
          forall j, (j < i)%nat ->
            matched (start_actorName o) (start_poll E w j) = None)
       (fun i deployment wc =>
          wc = start_polled o (Nat.iter i (start_retried o) w) /\
          matched (start_actorName o) (start_poll E w i) = Some deployment
          /\
          forall j, (j < i)%nat ->
            matched (start_actorName o) (start_poll E w j) = None)) as H.
  specialize (H ltac:(
    intros i wc [-> Hnone] _; cbv beta;
    rewrite waitForDeploymentToStart_attempt_spec; unfold start_poll at 1;
    rewrite start_retried_calls, Nat.add_0_r;
    fold (start_poll E w i);
    destruct (matched _ (start_poll E w i)) eqn:Hi;
    [ auto
    | split; [reflexivity |];
      intros j Hj; destruct (Nat.eq_dec j i) as [->|Hne];
      [exact Hi | apply Hnone; lia] ])).
  specialize (H fuel 0%nat w).
  specialize (H ltac:(split; [reflexivity | intros j Hj; lia])).
  destruct (for_loop fuel (start_iterations o) _ 0%nat w)
    as [[[deployment|]| e |] w']; try exact H.
  - destruct H as (k & _ & (-> & Hk & Hnone) & Hc). exists k. auto.
  - destruct H as (n & _ & (-> & Hnone) & Hc & Hall). exists n.
    split; [exact Hnone | split; [exact Hc | split; [| reflexivity]]].
    intros j Hj. apply Hall. lia.
Qed.

End StartWaiter.

(** C5. The start waiter returns at the first attempt whose list holds an
    entry created by the actor, and returns the first such entry in the
    order of the list; a failed request and a list without a match lead to
    the same sleep and next attempt; when the count is used up without a
    match the waiter returns null, without any failure signal. *)
Theorem waitForDeploymentToStart_first_match :
  (forall E o w,
     waitForDeploymentToStart_attempt E o w =
     match
       matched (start_actorName o)
         (octokit_listDeployments E (calls_listDeployments w))
     with
     | Some deployment => (Normal (Return deployment), start_polled o w)
     | None => (Normal Next, start_retried o w)
     end) /\
  (forall actorName status deployments deployment,
     matched actorName (Resolved status deployments) = Some deployment <->
     exists before after,
       deployments = before ++ deployment :: after /\
       Deployment.creator deployment = Some actorName /\
       Forall (fun d => Deployment.creator d <> Some actorName) before) /\
  (forall actorName message, matched actorName (Rejected message) = None) /\
  (forall E o w k deployment,
     (forall j, (j < k)%nat ->
        matched (start_actorName o)
          (octokit_listDeployments E (calls_listDeployments w + j)) = None) ->
     matched (start_actorName o)
       (octokit_listDeployments E (calls_listDeployments w + k))
     = Some deployment ->
     counter_lt k (start_iterations o) = true ->
     forall fuel, (k < fuel)%nat ->
       waitForDeploymentToStart E fuel o w
       = (Normal (Some deployment),
          start_polled o (Nat.iter k (start_retried o) w))) /\
  (forall E o w n,
     budget (start_iterations o) = Some n ->
     (forall j, (j < n)%nat ->
        matched (start_actorName o)
          (octokit_listDeployments E (calls_listDeployments w + j)) = None) ->
     forall fuel, (n < fuel)%nat ->
       waitForDeploymentToStart E fuel o w
       = (Normal None, Nat.iter n (start_retried o) w)) /\
  (forall E o fuel w,
     match waitForDeploymentToStart E fuel o w with
     | (Normal (Some deployment), w') =>
         exists k,
           matched (start_actorName o) (start_poll E w k) = Some deployment
           /\
           (forall j, (j < k)%nat ->
              matched (start_actorName o) (start_poll E w j) = None) /\
           counter_lt k (start_iterations o) = true /\
           w' = start_polled o (Nat.iter k (start_retried o) w)
     | (Normal None, w') =>
         exists n,
           (forall j, (j < n)%nat ->
              matched (start_actorName o) (start_poll E w j) = None) /\
           counter_lt n (start_iterations o) = false /\
           (forall j, (j < n)%nat ->
              counter_lt j (start_iterations o) = true) /\
           w' = Nat.iter n (start_retried o) w
     | (Throw _, _) => False
     | (OutOfFuel, _) => True
     end).
Proof.
  split; [| split; [| split; [| split; [| split]]]].
  - intros E o w. rewrite waitForDeploymentToStart_attempt_spec.
    unfold start_poll. now rewrite Nat.add_0_r.
  - intros actorName status deployments deployment. simpl.
    rewrite find_first. split.
    + intros (l1 & l2 & H & Hx & Hl1). exists l1, l2.
      split; [exact H | split; [now apply created_by_iff |]].
      eapply Forall_impl; [| exact Hl1]. intros d Hd Hc.
      apply created_by_iff in Hc. congruence.
    + intros (l1 & l2 & H & Hx & Hl1). exists l1, l2.
      split; [exact H | split; [now apply created_by_iff |]].
      eapply Forall_impl; [| exact Hl1]. intros d Hd.
      destruct (created_by actorName d) eqn:Hc; [| reflexivity].
      apply created_by_iff in Hc. contradiction.
  - reflexivity.
  - intros E o w k deployment. apply waitForDeploymentToStart_finds.
  - intros E o w n. apply waitForDeploymentToStart_gives_up.
  - apply waitForDeploymentToStart_outcome.
Qed.

Lemma waitForDeploymentToStart_first_match_witness :
  waitForDeploymentToStart
    (sample_env deployments_appear polls_until_success no_answer no_answer
       (sample_inputs "" "" 60))
    11 (start_options 20) initial
  = (Normal (Some (a_deployment 2 "vercel[bot]")),
     start_polled (start_options 20)
       (Nat.iter 2 (start_retried (start_options 20)) initial)).
Proof.
  apply (proj1 (proj2 (proj2 (proj2 waitForDeploymentToStart_first_match)))).
  - intros j Hj. destruct j as [|[|j]]; [reflexivity | reflexivity | lia].
  - reflexivity.
  - vm_compute. reflexivity.
  - lia.
Defined.

(** ** The password exchange *)

Lemma getPassword_spec (E : Env) (o : GetPasswordOptions.t) (w : World) :
  getPassword E o w =
  (settle (exchange_result E (server_post E (calls_post w))),
   sent
     (password_request E (GetPasswordOptions.url o)
        (GetPasswordOptions.vercelPassword o))
     w).
Proof.
  unfold getPassword, bind, axios, settle, exchange_result, jwt_cookie.
  change (is_post (password_request E _ _)) with true. cbv iota.
  destruct (server_post E (calls_post w)) as [r|message]; [| reflexivity].
  change (match AxiosRequest.validateStatus (password_request E _ _) with
          | Some f => f
          | None => default_validateStatus
          end (HttpResponse.status r))
    with (exchange_valid (HttpResponse.status r)).
  destruct (exchange_valid (HttpResponse.status r)); [| reflexivity].
  destruct (HttpResponse.set_cookie r) as [h|]; [| reflexivity].
  destruct (find _ (parseCookies E h)) as [c|]; [| reflexivity].
  destruct (String.eqb (Cookie.value c) ""); reflexivity.
Qed.

Lemma getPassword_spec_fst (E : Env) (o : GetPasswordOptions.t) (w : World) :
  settle (exchange_result E (server_post E (calls_post w)))
  = fst (getPassword E o w).
Proof. now rewrite getPassword_spec. Qed.

Lemma getPassword_world (E : Env) (o : GetPasswordOptions.t) (w : World) :
  calls_post (snd (getPassword E o w)) = S (calls_post w) /\
  calls_get (snd (getPassword E o w)) = calls_get w /\
  trace (snd (getPassword E o w))
  = trace w
    ++ [Request
          (password_request E (GetPasswordOptions.url o)
             (GetPasswordOptions.vercelPassword o))].
Proof. rewrite getPassword_spec. repeat split. Qed.

Lemma exchange_valid_iff (status : Z) :
  exchange_valid status = true <-> 200 <= status < 307.
Proof. unfold exchange_valid. lia. Qed.

Lemma jwt_cookie_iff (E : Env) (r : HttpResponse.t) (jwt : string) :
  jwt_cookie E r = Some jwt <->
  exists setCookieHeader cookie,
    HttpResponse.set_cookie r = Some setCookieHeader /\
    find (fun c => String.eqb (Cookie.name c) "_vercel_jwt")
      (parseCookies E setCookieHeader) = Some cookie /\
    Cookie.value cookie = jwt /\ jwt <> "".
Proof.
  unfold jwt_cookie.
  destruct (HttpResponse.set_cookie r) as [h|].
  - destruct (find _ (parseCookies E h)) as [c|] eqn:Hf.
    + destruct (String.eqb_spec (Cookie.value c) "") as [He|He].
      * split; [discriminate |].
        intros (h' & c' & [= <-] & Hf' & Hv & Hne).
        rewrite Hf in Hf'. injection Hf' as <-. congruence.
      * split.
        -- intros [= <-]. exists h, c. auto.
        -- intros (h' & c' & [= <-] & Hf' & Hv & Hne).
           rewrite Hf in Hf'. injection Hf' as <-. now subst.
    + split; [discriminate |].
      intros (h' & c' & [= <-] & Hf' & _). congruence.
  - split; [discriminate |]. intros (h' & c' & H & _). discriminate.
Qed.

(** C7. The exchange sends one request: a POST to the base URL with the
    form-encoded password as body, the form content type and no redirect
    followed; it accepts exactly the statuses from 200 to 306, and then
    returns the value of the cookie named [_vercel_jwt] of the [Set-Cookie]
    header.  A response with the header [_vercel_jwt=abc123] gives [abc123],
    and a response without a [Set-Cookie] header raises the missing-token
    error. *)
Theorem getPassword_exchange :
  (forall E url vercelPassword w,
     let req := password_request E url vercelPassword in
     snd (getPassword E (password_options url vercelPassword) w)
     = sent req w /\
     trace (sent req w) = trace w ++ [Request req] /\
     calls_post (sent req w) = S (calls_post w) /\
     calls_get (sent req w) = calls_get w /\
     AxiosRequest.method req = "post" /\
     AxiosRequest.url req = url /\
     AxiosRequest.data req
     = Some (URLSearchParams_toString E
               [("_vercel_password", vercelPassword)]) /\
     AxiosRequest.headers req
     = [("content-type", "application/x-www-form-urlencoded")] /\
     AxiosRequest.maxRedirects req = Some 0) /\
  (forall E o w r,
     server_post E (calls_post w) = Responded r ->
     (200 <= HttpResponse.status r < 307 ->
      fst (getPassword E o w) =
      match jwt_cookie E r with
      | Some jwt => Normal jwt
      | None => Throw missing_token
      end) /\
     (~ 200 <= HttpResponse.status r < 307 ->
      exists message,
        fst (getPassword E o w)
        = Throw (AxiosError message (Some (HttpResponse.status r))))) /\
  (forall E o w message,
     server_post E (calls_post w) = NoResponse message ->
     fst (getPassword E o w) = Throw (AxiosError message None)) /\
  (forall E r jwt,
     jwt_cookie E r = Some jwt <->
     exists setCookieHeader cookie,
       HttpResponse.set_cookie r = Some setCookieHeader /\
       find (fun c => String.eqb (Cookie.name c) "_vercel_jwt")
         (parseCookies E setCookieHeader) = Some cookie /\
       Cookie.value cookie = jwt /\ jwt <> "") /\
  (forall E o w status,
     server_post E (calls_post w) = http status (Some ["_vercel_jwt=abc123"]) ->
     parseCookies E ["_vercel_jwt=abc123"]
     = [{| Cookie.name := "_vercel_jwt"; Cookie.value := "abc123" |}] ->
     200 <= status < 307 ->
     fst (getPassword E o w) = Normal "abc123") /\
  (forall E o w status,
     server_post E (calls_post w) = http status None ->
     200 <= status < 307 ->
     fst (getPassword E o w) = Throw missing_token).
Proof.
  split; [| split; [| split; [| split; [| split]]]].
  - intros E url vercelPassword w req.
    rewrite getPassword_spec. repeat split.
  - intros E o w r Hr. rewrite getPassword_spec, Hr. simpl. split.
    + intros Hs. apply exchange_valid_iff in Hs. rewrite Hs.
      destruct (jwt_cookie E r); reflexivity.
    + intros Hs. destruct (exchange_valid (HttpResponse.status r)) eqn:Hv.
      * apply exchange_valid_iff in Hv. contradiction.
      * eexists. reflexivity.
  - intros E o w message Hr. rewrite getPassword_spec, Hr. reflexivity.
  - apply jwt_cookie_iff.
  - intros E o w status Hr Hp Hs. rewrite getPassword_spec, Hr.
    unfold http, settle, exchange_result, jwt_cookie.
    cbn [HttpResponse.status HttpResponse.set_cookie].
    apply exchange_valid_iff in Hs. rewrite Hs, Hp. reflexivity.
  - intros E o w status Hr Hs. rewrite getPassword_spec, Hr.
    unfold http, settle, exchange_result, jwt_cookie.
    cbn [HttpResponse.status HttpResponse.set_cookie].
    apply exchange_valid_iff in Hs. rewrite Hs. reflexivity.
Qed.

Lemma getPassword_exchange_witness :
  fst
    (getPassword
       (sample_env one_deployment polls_until_success
          (fun _ => http 303 (Some ["_vercel_jwt=abc123"])) no_answer
          (sample_inputs "secret" "" 60))
       (password_options "https://preview.example.com" "secret") initial)
  = Normal "abc123".
Proof.
  apply (proj1 (proj2 (proj2 (proj2 (proj2 getPassword_exchange))))
           _ _ _ 303).
  - reflexivity.
  - reflexivity.
  - lia.
Defined.

(** ** The URL health waiter *)

Lemma failures_app (t t' : list Event) :
  failures (t ++ t') = (failures t + failures t')%nat.
Proof.
  induction t as [|ev t IH]; simpl; [reflexivity |].
  destruct ev; simpl; rewrite IH; reflexivity.
Qed.

Lemma sleeps_app (t t' : list Event) :
  sleeps (t ++ t') = (sleeps t + sleeps t')%nat.
Proof.
  induction t as [|ev t IH]; simpl; [reflexivity |].
  destruct ev; simpl; rewrite IH; reflexivity.
Qed.

Lemma is_post_get_request (uri : string) (headers : list (string * string)) :
  is_post (get_request uri headers) = false.
Proof. reflexivity. Qed.

Lemma is_post_password_request (E : Env) (url vercelPassword : string) :
  is_post (password_request E url vercelPassword) = true.
Proof. reflexivity. Qed.

Section UrlWaiter.

Variable E : Env.
Variable o : WaitForUrlOptions.t.

(** One attempt: the exchange when a password is set, then the health
    check; an exception of either is followed by the sleep. *)
Lemma waitForUrl_attempt_spec (w : World) :
  waitForUrl_attempt E o w =
  match truthy (WaitForUrlOptions.vercelPassword o) with
  | None => probe E o [] w
  | Some vercelPassword =>
      match exchange_result E (server_post E (calls_post w)) with
      | inl jwt =>
          probe E o [("Cookie", "_vercel_jwt=" +++ jwt)]
            (emit (SetOutput "vercel_jwt" jwt)
               (sent (exchange_request E o vercelPassword) w))
      | inr _ => (Normal Next, exchange_retried E o vercelPassword w)
      end
  end.
Proof.
  assert (Hprobe : forall headers w0,
    try_catch
      (bind (new_URL E (WaitForUrlOptions.path o) (WaitForUrlOptions.url o))
         (fun checkUri =>
            bind (axios_get E checkUri (bypass_headers o headers))
              (fun _ => ret (Return tt))))
      (fun _ =>
         bind (wait (WaitForUrlOptions.checkIntervalInMilliseconds o))
           (fun _ => ret Next)) w0
    = probe E o headers w0).
  { intros headers w0.
    unfold try_catch, bind, new_URL, probe, axios_get, axios, get_ok.
    destruct (URL_toString E _ _) as [uri|]; [| reflexivity].
    change (is_post (get_request uri (bypass_headers o headers)))
      with false. cbv iota. simpl.
    destruct (server_get E (calls_get w0)) as [r|message];
      [| reflexivity].
    destruct (default_validateStatus (HttpResponse.status r));
      reflexivity. }
  unfold waitForUrl_attempt.
  destruct (truthy (WaitForUrlOptions.vercelPassword o))
    as [vercelPassword|].
  - unfold try_catch, bind in *.
    change (getPassword E _ w)
      with (getPassword E
              (password_options (WaitForUrlOptions.url o) vercelPassword)
              w).
    rewrite getPassword_spec.
    destruct (exchange_result E (server_post E (calls_post w)))
      as [jwt|e]; cbn [settle]; [| reflexivity].
    unfold core_setOutput, ret at 1.
    rewrite <- Hprobe. reflexivity.
  - rewrite <- Hprobe. reflexivity.
Qed.

(** What one attempt does to the counts of the world. *)
Lemma waitForUrl_attempt_counts (w : World) :
  let r := fst (waitForUrl_attempt E o w) in
  let w' := snd (waitForUrl_attempt E o w) in
  let c := calls_get w in
  failures (trace w') = failures (trace w) /\
  calls_post w'
  = (calls_post w
     + match truthy (WaitForUrlOptions.vercelPassword o) with
       | Some _ => 1
       | None => 0
       end)%nat /\
  ((r = Normal (Return tt) /\ calls_get w' = S c /\
    get_ok (server_get E c) = true /\
    sleeps (trace w') = sleeps (trace w))
   \/
   (r = Normal Next /\
    (calls_get w' = c \/
     calls_get w' = S c /\ get_ok (server_get E c) = false) /\
    sleeps (trace w') = S (sleeps (trace w)) /\
    exists t,
      trace w'
      = t ++ [Sleep (WaitForUrlOptions.checkIntervalInMilliseconds o)])).
Proof.
  rewrite waitForUrl_attempt_spec.
  unfold probe, exchange_retried, url_slept.
  destruct (truthy (WaitForUrlOptions.vercelPassword o)) as [pw|];
    [destruct (exchange_result E (server_post E (calls_post w)))
       as [jwt|e] |];
    try destruct (URL_toString E _ _) as [uri|];
    unfold exchange_request;
    cbn [calls_get calls_post emit sent trace fst snd];
    rewrite ?is_post_get_request, ?is_post_password_request;
    try destruct (get_ok (server_get E (calls_get w))) eqn:Hget;
    cbn [calls_get calls_post emit sent trace fst snd];
    rewrite ?is_post_get_request, ?is_post_password_request;
    rewrite ?failures_app, ?sleeps_app; simpl failures; simpl sleeps;
    (split; [lia | split; [lia |]]);
    solve
      [ left; repeat split; lia
      | right; split; [reflexivity |];
        split; [(left; reflexivity) || (right; split; [lia | exact Hget ||reflexivity]) |];
        split; [lia | eexists; reflexivity] ].
Qed.

(** *** In every configuration *)

Lemma waitForUrl_attempt_keeps (w : World) (i : nat) (wc : World) :
  url_waiting E o w i wc ->
  match waitForUrl_attempt E o wc with
  | (Normal Next, w') => url_waiting E o w (S i) w'
  | (Normal (Return _), w') => url_succeeded E o w i w'
  | (Throw _, _) => False
  | (OutOfFuel, _) => True
  end.
Proof.
  intros (Hf & Hs & Hp & Hle & Hget).
  pose proof (waitForUrl_attempt_counts wc) as H. cbv zeta in H.
  destruct (waitForUrl_attempt E o wc) as [r w']. cbn [fst snd] in H.
  fold (exchanges_per_attempt o) in H.
  destruct H as (Hf' & Hp' & [(-> & Hg & Hok & Hs') | (-> & Hg & Hs' & _)]).
  - unfold url_succeeded. repeat split; try lia.
    exists (calls_get wc - calls_get w)%nat.
    replace (calls_get w + (calls_get wc - calls_get w))%nat
      with (calls_get wc) by lia.
    split; [lia | split; [exact Hok |]].
    intros j Hj. apply Hget. lia.
  - unfold url_waiting. repeat split; try lia.
    intros j Hj. destruct Hg as [Hg | [Hg Hbad]].
    + apply Hget. lia.
    + destruct (Nat.eq_dec (calls_get w + j) (calls_get wc)) as [Heq|Hne].
      * now rewrite Heq.
      * apply Hget. lia.
Qed.

Lemma url_waiting_start (w : World) : url_waiting E o w 0 w.
Proof. unfold url_waiting. repeat split; try lia. Qed.

(** The waiter never throws; it ends either at the first GET that
    succeeds, within its count, or with the timeout after the attempts
    its count allows. *)
Lemma waitForUrl_outcome (fuel : nat) (w : World) :
  match waitForUrl E fuel o w with
  | (Normal _, w') =>
      (exists i,
         counter_lt i (url_iterations o) = true /\
         url_succeeded E o w i w')
      \/
      (exists i w1,
         counter_lt i (url_iterations o) = false /\
         (forall j, (j < i)%nat ->
            counter_lt j (url_iterations o) = true) /\
         url_waiting E o w i w1 /\
         w' = emit (SetFailed (url_timeout_message o)) w1)
  | (Throw _, _) => False
  | (OutOfFuel, _) => True
  end.
Proof.
  unfold waitForUrl, bind.
  pose proof (for_loop_invariant (url_iterations o)
                (fun _ => waitForUrl_attempt E o)
                (url_waiting E o w) (fun i _ => url_succeeded E o w i)
                (fun i wc Hwc _ => waitForUrl_attempt_keeps w i wc Hwc)
                fuel 0%nat w (url_waiting_start w)) as H.
  fold (url_iterations o).
  destruct (for_loop fuel (url_iterations o) _ 0%nat w)
    as [[[a|]| e |] w']; try exact H.
  - left. destruct H as (i & _ & Hs & Hc). exists i. auto.
  - right. destruct H as (i & _ & Hw & Hc & Hall). exists i, w'.
    split; [exact Hc | split; [| split; [exact Hw | reflexivity]]].
    intros j Hj. apply Hall. lia.
Qed.

Lemma waitForUrl_attempt_returns (w : World) :
  fst (waitForUrl_attempt E o w) <> OutOfFuel.
Proof.
  pose proof (waitForUrl_attempt_counts w) as H. cbv zeta in H.
  destruct H as (_ & _ & [(-> & _) | (-> & _)]); discriminate.
Qed.

(** With a finite count the waiter comes back. *)
Lemma waitForUrl_terminates (fuel n : nat) (w : World) :
  budget (url_iterations o) = Some n -> (n < fuel)%nat ->
  exists w', waitForUrl E fuel o w = (Normal tt, w').
Proof.
  intros Hb Hfuel.
  pose proof (waitForUrl_outcome fuel w) as Hout.
  pose proof (for_loop_terminates (url_iterations o)
                (fun _ => waitForUrl_attempt E o) n Hb
                (fun _ => waitForUrl_attempt_returns) fuel 0%nat w
                ltac:(lia)) as Hterm.
  unfold waitForUrl, bind in *. fold (url_iterations o) in *.
  destruct (for_loop fuel (url_iterations o) _ 0%nat w)
    as [[[[]|]| e |] w']; simpl in *;
    try contradiction; eexists; reflexivity.
Qed.

(** *** Without a password *)

Section NoPassword.

Variable checkUri : string.
Hypothesis no_password :
  truthy (WaitForUrlOptions.vercelPassword o) = None.
Hypothesis valid_url :
  URL_toString E (WaitForUrlOptions.path o) (WaitForUrlOptions.url o)
  = Some checkUri.

Lemma waitForUrl_attempt_no_password (w : World) :
  waitForUrl_attempt E o w =
  if get_ok (server_get E (calls_get w)) then
    (Normal (Return tt), sent (url_request o checkUri) w)
  else (Normal Next, url_retried o checkUri w).
Proof.
  rewrite waitForUrl_attempt_spec, no_password. unfold probe.
  rewrite valid_url. reflexivity.
Qed.

Lemma url_retried_calls (k : nat) (w : World) :
  calls_get (Nat.iter k (url_retried o checkUri) w)
  = (calls_get w + k)%nat.
Proof.
  induction k as [|k IH]; simpl; [lia | rewrite IH; lia].
Qed.

Lemma url_retried_trace (k : nat) (w : World) :
  trace (Nat.iter k (url_retried o checkUri) w)
  = trace w
    ++ List.concat
         (repeat
            [Request (url_request o checkUri);
             Sleep (WaitForUrlOptions.checkIntervalInMilliseconds o)]
            k).
Proof.
  induction k as [|k IH]; simpl Nat.iter.
  - simpl. now rewrite app_nil_r.
  - rewrite concat_repeat_snoc, app_assoc, <- IH.
    unfold url_retried at 1, url_slept. simpl.
    now rewrite <- app_assoc.
Qed.

Lemma waitForUrl_attempt_retry (w : World) (j : nat) :
  get_ok (server_get E (calls_get w + j)) = false ->
  waitForUrl_attempt E o (Nat.iter j (url_retried o checkUri) w)
  = (Normal Next, Nat.iter (S j) (url_retried o checkUri) w).
Proof.
  intros Hj. rewrite waitForUrl_attempt_no_password.
  rewrite url_retried_calls, Hj. reflexivity.
Qed.

(** The waiter succeeds at the first GET that succeeds. *)
Lemma waitForUrl_succeeds (w : World) (k : nat) :
  (forall j, (j < k)%nat ->
     get_ok (server_get E (calls_get w + j)) = false) ->
  get_ok (server_get E (calls_get w + k)) = true ->
  counter_lt k (url_iterations o) = true ->
  forall fuel, (k < fuel)%nat ->
    waitForUrl E fuel o w
    = (Normal tt,
       sent (url_request o checkUri)
         (Nat.iter k (url_retried o checkUri) w)).
Proof.
  intros Hretry Hok Hlt fuel Hfuel.
  unfold waitForUrl, bind.
  rewrite (for_loop_first_return _ _ k
             (fun j => Nat.iter j (url_retried o checkUri) w) 0%nat tt
             (sent (url_request o checkUri)
                (Nat.iter k (url_retried o checkUri) w)));
    try assumption; try reflexivity.
  - intros j Hj. simpl. apply waitForUrl_attempt_retry. auto.
  - simpl. rewrite waitForUrl_attempt_no_password.
    rewrite url_retried_calls, Hok. reflexivity.
Qed.

(** When no GET succeeds the waiter uses its whole count and signals
    the timeout. *)
Lemma waitForUrl_times_out (w : World) (n : nat) :
  budget (url_iterations o) = Some n ->
  (forall j, (j < n)%nat ->
     get_ok (server_get E (calls_get w + j)) = false) ->
  forall fuel, (n < fuel)%nat ->
    waitForUrl E fuel o w
    = (Normal tt,
       emit (SetFailed (url_timeout_message o))
         (Nat.iter n (url_retried o checkUri) w)).
Proof.
  intros Hb Hretry fuel Hfuel.
  unfold waitForUrl, bind.
  rewrite (for_loop_budget_exhausted _ _ n
             (fun j => Nat.iter j (url_retried o checkUri) w));
    try assumption; try reflexivity.
  intros j Hj. apply waitForUrl_attempt_retry. auto.
Qed.

End NoPassword.

(** *** With a password whose exchange fails *)

Section FailingExchange.

Variable vercelPassword : string.
Hypothesis password :
  truthy (WaitForUrlOptions.vercelPassword o) = Some vercelPassword.


Lemma exchange_retried_trace (k : nat) (w : World) :
  trace (Nat.iter k (exchange_retried E o vercelPassword) w)
  = trace w
    ++ List.concat
         (repeat
            [Request (exchange_request E o vercelPassword);
             Sleep (WaitForUrlOptions.checkIntervalInMilliseconds o)]
            k).
Proof.
  induction k as [|k IH]; simpl Nat.iter.
  - simpl. now rewrite app_nil_r.
  - rewrite concat_repeat_snoc, app_assoc, <- IH.
    unfold exchange_retried at 1, url_slept. simpl.
    now rewrite <- app_assoc.
Qed.



End FailingExchange.

End UrlWaiter.

Lemma get_ok_iff (r : HttpResponse.t) :
  get_ok (Responded r) = true <-> 200 <= HttpResponse.status r < 300.
Proof. unfold get_ok, default_validateStatus. lia. Qed.

(** C6, as stated, fails: a status that is no HTTP error status does not
    always suffice.  A GET answered with 304 is neither a transport failure
    nor an error status, yet the attempt fails: the waiter sleeps and sends
    a second GET, and a server that answers 304 to every GET makes the
    waiter use up its count and signal the timeout. *)
Lemma non_error_status_is_retried :
  http_error_status 304 = false /\
  waitForUrl
    (sample_env one_deployment polls_until_success no_answer
       not_modified_then_ok (sample_inputs "" "" 60))
    31 (url_options 60 "" "") initial
  = (Normal tt,
     {| calls_listDeployments := 0;
        calls_listDeploymentStatuses := 0;
        calls_post := 0;
        calls_get := 2;
        trace :=
          [Request (get_request "https://preview.example.com/" []);
           Sleep (JsNumber.of_Z 2000);
           Request (get_request "https://preview.example.com/" [])] |}) /\
  waitForUrl
    (sample_env one_deployment polls_until_success no_answer not_modified
       (sample_inputs "" "" 60))
    31 (url_options 4 "" "") initial
  = (Normal tt,
     {| calls_listDeployments := 0;
        calls_listDeploymentStatuses := 0;
        calls_post := 0;
        calls_get := 2;
        trace :=
          [Request (get_request "https://preview.example.com/" []);
           Sleep (JsNumber.of_Z 2000);
           Request (get_request "https://preview.example.com/" []);
           Sleep (JsNumber.of_Z 2000);
           SetFailed
             "Timeout reached: Unable to connect to https://preview.example.com"]
     |}).
Proof. repeat split; vm_compute; reflexivity. Qed.

(** C6, amended.  An attempt of the URL health waiter succeeds exactly
    when its GET is sent and answered with a status from 200 to 299, the
    statuses that axios accepts by default; a transport failure, an answer
    with any other status (1xx and 3xx as well as 4xx and 5xx) and any
    other exception of the attempt are followed by the sleep and the next
    attempt.  The waiter never throws: it ends at the first GET that
    succeeds, or signals the timeout once its count is used up.  With the
    answers 500 then 200 it succeeds at the second attempt and sends no
    third GET. *)
Theorem waitForUrl_first_successful_get :
  (forall E o w,
     let r := fst (waitForUrl_attempt E o w) in
     let w' := snd (waitForUrl_attempt E o w) in
     let c := calls_get w in
     failures (trace w') = failures (trace w) /\
     calls_post w' = (calls_post w + exchanges_per_attempt o)%nat /\
     ((r = Normal (Return tt) /\ calls_get w' = S c /\
       get_ok (server_get E c) = true /\
       sleeps (trace w') = sleeps (trace w))
      \/
      (r = Normal Next /\
       (calls_get w' = c \/
        calls_get w' = S c /\ get_ok (server_get E c) = false) /\
       sleeps (trace w') = S (sleeps (trace w)) /\
       exists t,
         trace w'
         = t ++ [Sleep (WaitForUrlOptions.checkIntervalInMilliseconds o)])))
  /\
  (forall r,
     (get_ok (Responded r) = true <-> 200 <= HttpResponse.status r < 300)) /\
  (forall message, get_ok (NoResponse message) = false) /\
  (forall E o fuel w,
     match waitForUrl E fuel o w with
     | (Normal _, w') =>
         (exists i,
            counter_lt i (url_iterations o) = true /\
            url_succeeded E o w i w')
         \/
         (exists i w1,
            counter_lt i (url_iterations o) = false /\
            (forall j, (j < i)%nat ->
               counter_lt j (url_iterations o) = true) /\
            url_waiting E o w i w1 /\
            w' = emit (SetFailed (url_timeout_message o)) w1)
     | (Throw _, _) => False
     | (OutOfFuel, _) => True
     end) /\
  (forall E o fuel n w,
     budget (url_iterations o) = Some n -> (n < fuel)%nat ->
     exists w', waitForUrl E fuel o w = (Normal tt, w')) /\
  (forall E o checkUri w k,
     truthy (WaitForUrlOptions.vercelPassword o) = None ->
     URL_toString E (WaitForUrlOptions.path o) (WaitForUrlOptions.url o)
     = Some checkUri ->
     (forall j, (j < k)%nat ->
        get_ok (server_get E (calls_get w + j)) = false) ->
     get_ok (server_get E (calls_get w + k)) = true ->
     counter_lt k (url_iterations o) = true ->
     forall fuel, (k < fuel)%nat ->
       waitForUrl E fuel o w
       = (Normal tt,
          sent (url_request o checkUri)
            (Nat.iter k (url_retried o checkUri) w))) /\
  (forall E o checkUri w n,
     truthy (WaitForUrlOptions.vercelPassword o) = None ->
     URL_toString E (WaitForUrlOptions.path o) (WaitForUrlOptions.url o)
     = Some checkUri ->
     budget (url_iterations o) = Some n ->
     (forall j, (j < n)%nat ->
        get_ok (server_get E (calls_get w + j)) = false) ->
     forall fuel, (n < fuel)%nat ->
       waitForUrl E fuel o w
       = (Normal tt,
          emit (SetFailed (url_timeout_message o))
            (Nat.iter n (url_retried o checkUri) w))) /\
  (forall E o checkUri w cookies0 cookies1,
     truthy (WaitForUrlOptions.vercelPassword o) = None ->
     URL_toString E (WaitForUrlOptions.path o) (WaitForUrlOptions.url o)
     = Some checkUri ->
     server_get E (calls_get w) = http 500 cookies0 ->
     server_get E (calls_get w + 1) = http 200 cookies1 ->
     counter_lt 1 (url_iterations o) = true ->
     forall fuel, (1 < fuel)%nat ->
       exists w',
         waitForUrl E fuel o w = (Normal tt, w') /\
         calls_get w' = (calls_get w + 2)%nat /\
         trace w'
         = trace w
           ++ [Request (url_request o checkUri);
               Sleep (WaitForUrlOptions.checkIntervalInMilliseconds o);
               Request (url_request o checkUri)]).
Proof.
  split; [| split; [| split; [| split; [| split; [| split; [| split]]]]]].
  - intros E o w. apply waitForUrl_attempt_counts.
  - apply get_ok_iff.
  - reflexivity.
  - intros E o fuel w. apply waitForUrl_outcome.
  - intros E o fuel n w. apply waitForUrl_terminates.
  - intros E o checkUri w k Hpw Hurl.
    apply (waitForUrl_succeeds E o checkUri Hpw Hurl).
  - intros E o checkUri w n Hpw Hurl.
    apply (waitForUrl_times_out E o checkUri Hpw Hurl).
  - intros E o checkUri w cookies0 cookies1 Hpw Hurl H0 H1 Hlt fuel Hfuel.
    eexists. split; [| split].
    + apply (waitForUrl_succeeds E o checkUri Hpw Hurl w 1);
        try assumption.
      * intros j Hj. replace j with 0%nat by lia.
        rewrite Nat.add_0_r, H0. reflexivity.
      * rewrite H1. reflexivity.
    + simpl. lia.
    + simpl. rewrite <- !app_assoc. reflexivity.
Qed.

Lemma waitForUrl_first_successful_get_witness :
  waitForUrl
    (sample_env one_deployment polls_until_success no_answer error_then_ok
       (sample_inputs "" "" 60))
    31 (url_options 60 "" "") initial
  = (Normal tt,
     sent (url_request (url_options 60 "" "") "https://preview.example.com/")
       (Nat.iter 1
          (url_retried (url_options 60 "" "") "https://preview.example.com/")
          initial)).
Proof.
  apply (proj1 (proj2 (proj2 (proj2 (proj2
           (proj2 waitForUrl_first_successful_get)))))).
  - reflexivity.
  - reflexivity.
  - intros j Hj. replace j with 0%nat by lia. reflexivity.
  - reflexivity.
  - vm_compute. reflexivity.
  - lia.
Defined.

(** ** A missing cookie in the URL health waiter *)




(** ** The trace of the URL health waiter with a password *)

Section PasswordTrace.

Variable E : Env.
Variable o : WaitForUrlOptions.t.
Variable vercelPassword : string.
Hypothesis password :
  truthy (WaitForUrlOptions.vercelPassword o) = Some vercelPassword.

Lemma attempts_from_snoc (p : nat) (bs : list (list Event))
  (b : list Event) :
  attempts_from E o vercelPassword p bs ->
  attempt_events E o vercelPassword
    (server_post E (p + List.length bs)) b ->
  attempts_from E o vercelPassword p (bs ++ [b]).
Proof.
  intros Hbs. induction Hbs as [p|p b0 bs Hb0 Hbs IH]; intros Hb; simpl.
  - rewrite Nat.add_0_r in Hb. constructor; [exact Hb | constructor].
  - constructor; [exact Hb0 |]. apply IH.
    simpl in Hb. now rewrite Nat.add_succ_r in Hb.
Qed.

(** Every attempt starts with the exchange. *)
Lemma waitForUrl_attempt_events (w : World) :
  match waitForUrl_attempt E o w with
  | (Normal Next, w') =>
      exists b,
        attempt_events E o vercelPassword (server_post E (calls_post w)) b
        /\ trace w' = trace w ++ b /\ calls_post w' = S (calls_post w)
  | (Normal (Return _), w') =>
      exists b,
        success_events E o vercelPassword (server_post E (calls_post w)) b
        /\ trace w' = trace w ++ b
  | _ => False
  end.
Proof.
  rewrite waitForUrl_attempt_spec, password.
  destruct (exchange_result E (server_post E (calls_post w)))
    as [jwt|e] eqn:Hx.
  - unfold probe.
    destruct (URL_toString E _ _) as [checkUri|] eqn:Hurl.
    + cbn [calls_get emit sent]. unfold exchange_request.
      rewrite is_post_password_request.
      destruct (get_ok (server_get E (calls_get w))).
      * eexists. split; [apply (get_succeeded _ _ _ _ jwt checkUri Hx Hurl) |].
        simpl. now rewrite <- !app_assoc.
      * eexists. split; [apply (get_failed _ _ _ _ jwt checkUri Hx Hurl) |].
        simpl. now rewrite <- !app_assoc.
    + eexists. split; [apply (url_rejected _ _ _ _ jwt Hx Hurl) |].
      simpl. now rewrite <- !app_assoc.
  - eexists. split; [apply (exchange_failed _ _ _ _ e Hx) |].
    simpl. now rewrite <- !app_assoc.
Qed.

(** The trace of the waiter is made of attempts, each with its own
    exchange. *)
Lemma waitForUrl_password_trace (fuel : nat) (w : World) :
  match waitForUrl E fuel o w with
  | (Normal _, w') => password_trace E o vercelPassword w w'
  | (Throw _, _) => False
  | (OutOfFuel, _) => True
  end.
Proof.
  unfold waitForUrl, bind. fold (url_iterations o).
  pose proof
    (for_loop_invariant (url_iterations o)
       (fun _ => waitForUrl_attempt E o)
       (fun i wc =>
          exists blocks,
            List.length blocks = i /\
            attempts_from E o vercelPassword (calls_post w) blocks /\
            trace wc = trace w ++ List.concat blocks /\
            calls_post wc = (calls_post w + i)%nat)
       (fun i _ wc =>
          exists blocks last,
            List.length blocks = i /\
            attempts_from E o vercelPassword (calls_post w) blocks /\
            success_events E o vercelPassword
              (server_post E (calls_post w + i)) last /\
            trace wc = trace w ++ List.concat blocks ++ last))
    as H.
  specialize (H ltac:(
    intros i wc (blocks & Hlen & Hbs & Htr & Hp) _;
    pose proof (waitForUrl_attempt_events wc) as Ha;
    destruct (waitForUrl_attempt E o wc) as [[[a|]| e |] w'];
    try contradiction;
    destruct Ha as (b & Hb & Ha);
    [ exists blocks, b; rewrite Hp in Hb; rewrite Ha, Htr, <- app_assoc;
      auto
    | destruct Ha as [Ha Hp'];
      exists (blocks ++ [b]);
      rewrite length_app, concat_app, Ha, Htr, Hp', Hp; simpl;
      rewrite app_nil_r, <- app_assoc;
      repeat split; try lia;
      apply attempts_from_snoc; [exact Hbs |];
      rewrite Hlen, <- Hp; exact Hb ])).
  specialize (H fuel 0%nat w).
  specialize (H ltac:(
    exists []; simpl; rewrite app_nil_r;
    repeat split; try lia; constructor)).
  destruct (for_loop fuel (url_iterations o) _ 0%nat w)
    as [[[a|]| e |] w']; try exact H.
  - destruct H as (i & _ & (blocks & last & Hlen & Hbs & Hl & Htr) & Hc).
    exists blocks. split; [exact Hbs |]. left. exists last.
    rewrite Hlen. auto.
  - destruct H as (i & _ & (blocks & Hlen & Hbs & Htr & Hp) & Hc & _).
    exists blocks. split; [exact Hbs |]. right.
    rewrite Hlen. split; [exact Hc |].
    simpl. now rewrite Htr, <- app_assoc.
Qed.

End PasswordTrace.

Lemma attempts_from_In (E : Env) (o : WaitForUrlOptions.t)
  (vercelPassword : string) (p : nat) (bs : list (list Event))
  (b : list Event) :
  attempts_from E o vercelPassword p bs -> In b bs ->
  exists outcome, attempt_events E o vercelPassword outcome b.
Proof.
  intros Hbs. induction Hbs as [p|p b0 bs Hb0 Hbs IH]; intros Hin.
  - contradiction.
  - destruct Hin as [<-|Hin]; [eexists; exact Hb0 | auto].
Qed.

Lemma attempt_events_health_check (E : Env) (o : WaitForUrlOptions.t)
  (vercelPassword : string) (outcome : HttpOutcome) (b : list Event) :
  attempt_events E o vercelPassword outcome b -> health_check_headers o b.
Proof.
  intros Hb req Hin Hget.
  destruct Hb; simpl in Hin;
    repeat
      match goal with
      | H : _ \/ _ |- _ => destruct H as [H|H]
      | H : Request _ = Request _ |- _ => injection H as <-
      | H : False |- _ => contradiction
      end;
    try discriminate.
  exists jwt. reflexivity.
Qed.

Lemma success_events_health_check (E : Env) (o : WaitForUrlOptions.t)
  (vercelPassword : string) (outcome : HttpOutcome) (b : list Event) :
  success_events E o vercelPassword outcome b -> health_check_headers o b.
Proof.
  intros Hb req Hin Hget.
  destruct Hb; simpl in Hin;
    repeat
      match goal with
      | H : _ \/ _ |- _ => destruct H as [H|H]
      | H : Request _ = Request _ |- _ => injection H as <-
      | H : False |- _ => contradiction
      end;
    try discriminate.
  exists jwt. reflexivity.
Qed.

(** In a trace of the waiter with a password, every health check carries
    the headers the code computes, whatever the attempt. *)
Lemma password_trace_health_checks (E : Env) (o : WaitForUrlOptions.t)
  (vercelPassword : string) (w w' : World) :
  password_trace E o vercelPassword w w' ->
  exists d, trace w' = trace w ++ d /\ health_check_headers o d.
Proof.
  intros (blocks & Hbs & Hend).
  assert (Hblocks : health_check_headers o (List.concat blocks)).
  { intros req Hin Hget. apply in_concat in Hin.
    destruct Hin as (b & Hb & Hin).
    destruct (attempts_from_In _ _ _ _ _ _ Hbs Hb) as [outcome Hev].
    exact (attempt_events_health_check _ _ _ _ _ Hev req Hin Hget). }
  destruct Hend as [(last & Hlast & _ & Htr) | (_ & Htr)].
  - exists (List.concat blocks ++ last). split; [exact Htr |].
    intros req Hin Hget. apply in_app_or in Hin. destruct Hin as [Hin|Hin].
    + exact (Hblocks req Hin Hget).
    + exact (success_events_health_check _ _ _ _ _ Hlast req Hin Hget).
  - eexists. split; [exact Htr |].
    intros req Hin Hget. apply in_app_or in Hin. destruct Hin as [Hin|Hin].
    + exact (Hblocks req Hin Hget).
    + destruct Hin as [Hin|[]]. discriminate.
Qed.

Lemma bypass_headers_configured (o : WaitForUrlOptions.t) (h : string)
  (headers : list (string * string)) :
  truthy (WaitForUrlOptions.protectionBypassHeader o) = Some h ->
  bypass_headers o headers = [("x-vercel-protection-bypass", h)].
Proof. intros Hh. unfold bypass_headers. now rewrite Hh. Qed.

(** C8. With a password and a bypass header both set, every health check
    carries the bypass header and no Cookie header, whatever the attempt,
    while each attempt still makes the exchange and reports its token as
    the output [vercel_jwt] before the health check. *)
Theorem bypass_header_replaces_cookie :
  forall E o vercelPassword h,
    truthy (WaitForUrlOptions.vercelPassword o) = Some vercelPassword ->
    truthy (WaitForUrlOptions.protectionBypassHeader o) = Some h ->
    (forall headers,
       bypass_headers o headers = [("x-vercel-protection-bypass", h)]) /\
    (forall w jwt checkUri,
       exchange_result E (server_post E (calls_post w)) = inl jwt ->
       URL_toString E (WaitForUrlOptions.path o) (WaitForUrlOptions.url o)
       = Some checkUri ->
       trace (snd (waitForUrl_attempt E o w))
       = trace w
         ++ [Request (exchange_request E o vercelPassword);
             SetOutput "vercel_jwt" jwt;
             Request
               (get_request checkUri [("x-vercel-protection-bypass", h)])]
         ++ (if get_ok (server_get E (calls_get w)) then []
             else [Sleep (WaitForUrlOptions.checkIntervalInMilliseconds o)]))
    /\
    (forall fuel w,
       match waitForUrl E fuel o w with
       | (Normal _, w') =>
           password_trace E o vercelPassword w w' /\
           exists d,
             trace w' = trace w ++ d /\
             forall req,
               In (Request req) d -> is_post req = false ->
               AxiosRequest.headers req
               = [("x-vercel-protection-bypass", h)]
       | (Throw _, _) => False
       | (OutOfFuel, _) => True
       end) /\
    (forall fuel n w,
       budget (url_iterations o) = Some n -> (n < fuel)%nat ->
       exists w', waitForUrl E fuel o w = (Normal tt, w')).
Proof.
  intros E o vercelPassword h Hpw Hh.
  split; [| split; [| split]].
  - intros headers. now apply bypass_headers_configured.
  - intros w jwt checkUri Hx Hurl.
    rewrite waitForUrl_attempt_spec, Hpw, Hx. unfold probe.
    rewrite Hurl, (bypass_headers_configured o h _ Hh).
    cbn [calls_get emit sent]. unfold exchange_request.
    rewrite is_post_password_request.
    destruct (get_ok (server_get E (calls_get w))); simpl;
      now rewrite <- !app_assoc.
  - intros fuel w.
    pose proof (waitForUrl_password_trace E o vercelPassword Hpw fuel w)
      as H.
    destruct (waitForUrl E fuel o w) as [[a| e |] w']; try exact H.
    split; [exact H |].
    destruct (password_trace_health_checks _ _ _ _ _ H) as (d & Hd & Hhc).
    exists d. split; [exact Hd |].
    intros req Hin Hget. destruct (Hhc req Hin Hget) as [jwt ->].
    now apply bypass_headers_configured.
  - intros fuel n w. apply waitForUrl_terminates.
Qed.

Lemma bypass_header_replaces_cookie_witness :
  (forall headers,
     bypass_headers (url_options 60 "secret" "bypass-me") headers
     = [("x-vercel-protection-bypass", "bypass-me")]) /\
  exists w',
    waitForUrl env_password_and_bypass 31
      (url_options 60 "secret" "bypass-me") initial
    = (Normal tt, w').
Proof.
  destruct (bypass_header_replaces_cookie env_password_and_bypass
              (url_options 60 "secret" "bypass-me") "secret" "bypass-me"
              eq_refl eq_refl) as (H1 & _ & _ & H4).
  split; [exact H1 |].
  apply (H4 31%nat 30%nat initial); [vm_compute; reflexivity | lia].
Defined.

(** ** The order of the stages *)

Lemma emits_refl (P : Event -> bool) (w : World) : emits P w w.
Proof. exists []. now rewrite app_nil_r. Qed.

Lemma emits_trans (P : Event -> bool) (w1 w2 w3 : World) :
  emits P w1 w2 -> emits P w2 w3 -> emits P w1 w3.
Proof.
  intros (d1 & H1 & P1) (d2 & H2 & P2). exists (d1 ++ d2).
  rewrite H2, H1, <- app_assoc, forallb_app, P1, P2. auto.
Qed.

Lemma emits_step (P : Event -> bool) (w w' : World) (ev : Event) :
  trace w' = trace w ++ [ev] -> P ev = true -> emits P w w'.
Proof.
  intros Htr Hev. exists [ev]. split; [exact Htr |]. simpl. now rewrite Hev.
Qed.

Lemma emits_emit (P : Event -> bool) (w : World) (ev : Event) :
  P ev = true -> emits P w (emit ev w).
Proof. intros Hev. now apply (emits_step P w _ ev). Qed.

Lemma emits_sent (P : Event -> bool) (w : World) (req : AxiosRequest.t) :
  P (Request req) = true -> emits P w (sent req w).
Proof. intros Hev. now apply (emits_step P w _ (Request req)). Qed.





Section Stages.

Variable E : Env.




Lemma waitForUrl_attempt_no_api_call (o : WaitForUrlOptions.t)
  (w : World) :
  emits no_api_call w (snd (waitForUrl_attempt E o w)).
Proof.
  rewrite waitForUrl_attempt_spec.
  unfold probe, exchange_retried, url_slept.
  destruct (truthy (WaitForUrlOptions.vercelPassword o)) as [pw|];
    [destruct (exchange_result E (server_post E (calls_post w)))
       as [jwt|e] |];
    try destruct (URL_toString E _ _) as [uri|];
    try destruct (get_ok (server_get E _));
    cbn [snd];
    repeat
      first
        [ apply emits_refl
        | eapply emits_trans; [| now apply emits_emit]
        | eapply emits_trans; [| now apply emits_sent] ].
Qed.

Lemma waitForUrl_no_api_call (fuel : nat) (o : WaitForUrlOptions.t)
  (w : World) :
  match waitForUrl E fuel o w with
  | (Normal _, w') => emits no_api_call w w'
  | (Throw _, _) => False
  | (OutOfFuel, _) => True
  end.
Proof.
  unfold waitForUrl, bind.
  pose proof
    (for_loop_invariant (url_iterations o)
       (fun _ => waitForUrl_attempt E o)
       (fun _ wc => emits no_api_call w wc)
       (fun _ _ wc => emits no_api_call w wc)) as H.
  specialize (H ltac:(
    intros i wc Hwc _; cbv beta;
    pose proof (waitForUrl_attempt_no_api_call o wc) as Ha;
    pose proof (waitForUrl_attempt_returns E o wc) as Hr;
    pose proof (waitForUrl_attempt_counts E o wc) as Hc;
    cbv zeta in Hc;
    destruct (waitForUrl_attempt E o wc) as [[[a|]| e |] w'];
    cbn [fst snd] in *;
    try (eapply emits_trans; [exact Hwc | exact Ha]);
    [ destruct Hc as (_ & _ & [(Hc & _) | (Hc & _)]); discriminate
    | exact I ])).
  specialize (H fuel 0%nat w (emits_refl _ w)).
  fold (url_iterations o).
  destruct (for_loop fuel (url_iterations o) _ 0%nat w)
    as [[[a|]| e |] w']; try exact H.
  - now destruct H as (i & _ & H & _).
  - destruct H as (i & _ & H & _).
    eapply emits_trans; [exact H | now apply emits_emit].
Qed.

End Stages.





(** *** Runs come back *)

Lemma waitForDeploymentToStart_terminates (E : Env) (fuel n : nat)
  (o : WaitForDeploymentToStartOptions.t) (w : World) :
  budget (start_iterations o) = Some n -> (n < fuel)%nat ->
  fst (waitForDeploymentToStart E fuel o w) <> OutOfFuel.
Proof.
  intros Hb Hfuel.
  pose proof (for_loop_terminates (start_iterations o)
                (fun _ => waitForDeploymentToStart_attempt E o) n Hb)
    as Hterm.
  specialize (Hterm ltac:(
    intros i w0; cbv beta; rewrite waitForDeploymentToStart_attempt_spec;
    destruct (matched _ _); discriminate) fuel 0%nat w ltac:(lia)).
  unfold waitForDeploymentToStart, bind.
  fold (start_interval o). fold (start_iterations o).
  destruct (for_loop fuel (start_iterations o) _ 0%nat w)
    as [[[a|]| e |] w']; simpl in *; congruence.
Qed.

Lemma waitForStatus_terminates (E : Env) (fuel n : nat)
  (o : WaitForStatusOptions.t) (w : World) :
  budget (status_iterations o) = Some n -> (n < fuel)%nat ->
  fst (waitForStatus E fuel o w) <> OutOfFuel.
Proof.
  intros Hb Hfuel.
  pose proof (for_loop_terminates (status_iterations o)
                (fun _ => waitForStatus_attempt E o) n Hb) as Hterm.
  specialize (Hterm ltac:(
    intros i w0; cbv beta; rewrite waitForStatus_attempt_spec;
    destruct (accepted _ _); discriminate) fuel 0%nat w ltac:(lia)).
  unfold waitForStatus, bind. fold (status_iterations o).
  destruct (for_loop fuel (status_iterations o) _ 0%nat w)
    as [[[a|]| e |] w']; simpl in *; congruence.
Qed.


(** ** The place of the password exchange *)





(** ** Counts that allow no attempt *)

Section NoAttempt.

Variable E : Env.

Lemma for_loop_no_turn {A : Type} (iterations : Count)
  (body : nat -> M (Control A)) (fuel : nat) (w : World) :
  counter_lt 0 iterations = false ->
  for_loop (S fuel) iterations body 0%nat w = (Normal Next, w).
Proof. intros H. simpl. now rewrite H. Qed.

Lemma waitForDeploymentToStart_no_attempt (fuel : nat)
  (o : WaitForDeploymentToStartOptions.t) (w : World) :
  counter_lt 0 (start_iterations o) = false ->
  waitForDeploymentToStart E (S fuel) o w = (Normal None, w).
Proof.
  intros H. unfold waitForDeploymentToStart, bind.
  fold (start_interval o). fold (start_iterations o).
  now rewrite for_loop_no_turn.
Qed.

Lemma waitForStatus_no_attempt (fuel : nat) (o : WaitForStatusOptions.t)
  (w : World) :
  counter_lt 0 (status_iterations o) = false ->
  waitForStatus E (S fuel) o w
  = (Normal None, emit (SetFailed status_timeout_message) w).
Proof.
  intros H. unfold waitForStatus, bind. fold (status_iterations o).
  now rewrite for_loop_no_turn.
Qed.

Lemma waitForUrl_no_attempt (fuel : nat) (o : WaitForUrlOptions.t)
  (w : World) :
  counter_lt 0 (url_iterations o) = false ->
  waitForUrl E (S fuel) o w
  = (Normal tt, emit (SetFailed (url_timeout_message o)) w).
Proof.
  intros H. unfold waitForUrl, bind. fold (url_iterations o).
  now rewrite for_loop_no_turn.
Qed.

End NoAttempt.

Lemma calculateIterations_zero (a b : JsNumber.t) :
  JsNumber.zero a -> JsNumber.positive b ->
  ~ JsNumber.zero (JsNumber.div b (JsNumber.of_Z 1000)) ->
  calculateIterations a b = Int 0.
Proof.
  intros Ha Hb Hc. unfold calculateIterations.
  pose proof (div_positive_not_negative b (JsNumber.of_Z 1000) Hb I) as Hn.
  destruct a as [sa| | |]; try contradiction.
  destruct (JsNumber.div b (JsNumber.of_Z 1000)) as [[]|[]| |[] mc ec];
    simpl in *; try contradiction; reflexivity.
Qed.

Lemma div_by_1000_not_negative (b : JsNumber.t) :
  not_negative b -> not_negative (JsNumber.div b (JsNumber.of_Z 1000)).
Proof.
  destruct b as [[]|[]| |[] mb eb]; try contradiction; intros _.
  - exact I.
  - exact I.
  - exact (div_positive_not_negative (S754_finite false mb eb)
             (JsNumber.of_Z 1000) I I).
Qed.

(** The quotient of two numbers that are not negative is not negative,
    unless it is NaN: 0 / 0 and Infinity / Infinity. *)
Lemma div_not_negative (x y : JsNumber.t) :
  not_negative x -> not_negative y ->
  match JsNumber.div x y with
  | S754_nan =>
      JsNumber.zero x /\ JsNumber.zero y \/ infinite x /\ infinite y
  | q =>
      not_negative q /\
      ~ (JsNumber.zero x /\ JsNumber.zero y \/ infinite x /\ infinite y)
  end.
Proof.
  destruct x as [[]|[]| |[] mx ex]; try contradiction;
    destruct y as [[]|[]| |[] my ey]; try contradiction; intros _ _;
    try (simpl; tauto).
  pose proof (div_positive_not_negative (S754_finite false mx ex)
                (S754_finite false my ey) I I) as H.
  destruct (JsNumber.div _ _) as [[]|[]| |[] mq eq]; try contradiction;
    simpl; tauto.
Qed.

Lemma Math_floor_not_negative (q : JsNumber.t) :
  not_negative q -> Count_nonneg (Math_floor q) /\ Math_floor q <> NaN.
Proof.
  destruct q as [[]|[]| |[] m e]; try contradiction; intros _;
    (split; [| discriminate]); simpl; try lia; try exact I.
  apply Z.shiftl_nonneg. lia.
Qed.

(** The count is at least 0 exactly when the quotient is a zero, positive
    or [+Infinity]. *)
Lemma calculateIterations_nonneg_iff (a b : JsNumber.t) :
  Count_nonneg (calculateIterations a b) <->
  match JsNumber.div a (JsNumber.div b (JsNumber.of_Z 1000)) with
  | S754_zero _ | S754_infinity false | S754_finite false _ _ => True
  | _ => False
  end.
Proof.
  unfold calculateIterations.
  destruct (JsNumber.div a (JsNumber.div b (JsNumber.of_Z 1000)))
    as [s|[]| |[] m e]; simpl; try tauto; try lia.
  - rewrite Z.shiftl_nonneg. lia.
  - rewrite Z.shiftl_nonneg. lia.
Qed.

Lemma calculateIterations_not_negative (a b : JsNumber.t) :
  not_negative a -> not_negative b ->
  (calculateIterations a b = NaN <->
   JsNumber.zero a /\ JsNumber.zero (JsNumber.div b (JsNumber.of_Z 1000)) \/
   infinite a /\ infinite (JsNumber.div b (JsNumber.of_Z 1000))) /\
  (calculateIterations a b <> NaN ->
   Count_nonneg (calculateIterations a b)).
Proof.
  intros Ha Hb. unfold calculateIterations.
  pose proof (div_not_negative a _ Ha (div_by_1000_not_negative b Hb)) as H.
  destruct (JsNumber.div a (JsNumber.div b (JsNumber.of_Z 1000))) as [s|s| |s m e].
  - destruct H as [Hq Hn].
    pose proof (Math_floor_not_negative (S754_zero s) Hq) as [H1 H2].
    split; [split; [intros H'; now apply H2 in H' | tauto] | auto].
  - destruct H as [Hq Hn].
    pose proof (Math_floor_not_negative (S754_infinity s) Hq) as [H1 H2].
    split; [split; [intros H'; now apply H2 in H' | tauto] | auto].
  - split; [split; [intros _; exact H | reflexivity] |].
    intros H'. now contradiction H'.
  - destruct H as [Hq Hn].
    pose proof (Math_floor_not_negative (S754_finite s m e) Hq) as [H1 H2].
    split; [split; [intros H'; now apply H2 in H' | tauto] | auto].
Qed.

(** C9, as stated, fails: nothing checks the inputs, and a timeout of -5
    with an interval of 2000 gives the count -3. *)
Lemma negative_timeout_negative_count :
  status_iterations (status_options (-5) false) = Int (-3) /\
  ~ Count_nonneg (status_iterations (status_options (-5) false)).
Proof.
  assert (H : status_iterations (status_options (-5) false) = Int (-3))
    by (vm_compute; reflexivity).
  split; [exact H |]. rewrite H. simpl. lia.
Qed.

(** C9, amended.  The count is at least 0 exactly when the quotient of
    doubles [maxTimeout / (checkIntervalInMilliseconds / 1000)] is a zero,
    positive or [+Infinity].  This is so whenever the timeout and the
    interval are not negative ([+0], positive or [+Infinity]), unless the
    count is NaN, which it is exactly when the timeout and the interval in
    seconds are both zero or both infinite.  The count is 0 for a timeout
    of 0 and a positive interval whose value in seconds is not zero.
    Whenever the count allows no attempt (it is 0, negative, [-Infinity]
    or NaN) the waiter fails at once, without any call: the start waiter
    returns null, the status and the URL health waiters signal their
    timeout. *)
Theorem no_attempt_without_budget :
  (forall a b,
     Count_nonneg (calculateIterations a b) <->
     match JsNumber.div a (JsNumber.div b (JsNumber.of_Z 1000)) with
     | S754_zero _ | S754_infinity false | S754_finite false _ _ => True
     | _ => False
     end) /\
  (forall a b,
     not_negative a -> not_negative b ->
     (calculateIterations a b = NaN <->
      JsNumber.zero a /\
      JsNumber.zero (JsNumber.div b (JsNumber.of_Z 1000)) \/
      infinite a /\ infinite (JsNumber.div b (JsNumber.of_Z 1000))) /\
     (calculateIterations a b <> NaN ->
      Count_nonneg (calculateIterations a b))) /\
  (forall a b,
     JsNumber.zero a -> JsNumber.positive b ->
     ~ JsNumber.zero (JsNumber.div b (JsNumber.of_Z 1000)) ->
     calculateIterations a b = Int 0) /\
  (forall n, n <= 0 -> counter_lt 0 (Int n) = false) /\
  counter_lt 0 NaN = false /\
  counter_lt 0 NegInfinity = false /\
  (forall E fuel o w,
     counter_lt 0 (start_iterations o) = false ->
     waitForDeploymentToStart E (S fuel) o w = (Normal None, w)) /\
  (forall E fuel o w,
     counter_lt 0 (status_iterations o) = false ->
     waitForStatus E (S fuel) o w
     = (Normal None, emit (SetFailed status_timeout_message) w)) /\
  (forall E fuel o w,
     counter_lt 0 (url_iterations o) = false ->
     waitForUrl E (S fuel) o w
     = (Normal tt, emit (SetFailed (url_timeout_message o)) w)) /\
  (forall ev w,
     calls_listDeployments (emit ev w) = calls_listDeployments w /\
     calls_listDeploymentStatuses (emit ev w)
     = calls_listDeploymentStatuses w /\
     calls_post (emit ev w) = calls_post w /\
     calls_get (emit ev w) = calls_get w).
Proof.
  split; [| split; [| split; [| split; [| split; [| split; [| split;
    [| split; [| split]]]]]]]].
  - apply calculateIterations_nonneg_iff.
  - apply calculateIterations_not_negative.
  - apply calculateIterations_zero.
  - intros n Hn. simpl. lia.
  - reflexivity.
  - reflexivity.
  - apply waitForDeploymentToStart_no_attempt.
  - apply waitForStatus_no_attempt.
  - apply waitForUrl_no_attempt.
  - intros ev w. repeat split.
Qed.

Lemma no_attempt_without_budget_witness :
  Count_nonneg
    (calculateIterations (JsNumber.of_Z 60) (JsNumber.of_Z 2000)) /\
  calculateIterations (JsNumber.of_Z 0) (JsNumber.of_Z 2000) = Int 0 /\
  waitForStatus env_cookie_never 1 (status_options 0 false) initial
  = (Normal None, emit (SetFailed status_timeout_message) initial) /\
  waitForUrl env_cookie_never 1 (url_options (-5) "" "") initial
  = (Normal tt,
     emit (SetFailed (url_timeout_message (url_options (-5) "" "")))
       initial) /\
  waitForDeploymentToStart env_cookie_never 1 (start_options 0) initial
  = (Normal None, initial).
Proof.
  destruct no_attempt_without_budget
    as (_ & H1 & H2 & _ & _ & _ & H6 & H7 & H8 & _).
  split; [| split; [| split; [| split]]].
  - apply (H1 (JsNumber.of_Z 60) (JsNumber.of_Z 2000)); try exact I.
    vm_compute. discriminate.
  - apply H2; [exact I | exact I | vm_compute; tauto].
  - apply H7. vm_compute. reflexivity.
  - apply H8. vm_compute. reflexivity.
  - apply H6. vm_compute. reflexivity.
Defined.

(** ** The pull-request lookup *)

(** C10. The lookup does not depend on its [number] argument: two calls
    that differ in it alone give the same result and the same world; the
    number looked up is the one of the workflow context. *)
Theorem getShaForPullRequest_ignores_number :
  (forall E owner repo number1 number2 w,
     getShaForPullRequest E (sha_options owner repo number1) w
     = getShaForPullRequest E (sha_options owner repo number2) w) /\
  (forall E owner repo number w p,
     Context.pull_request (context E) = Some p -> p <> 0 ->
     getShaForPullRequest E (sha_options owner repo number) w
     = (lookup_result E owner repo p,
        match lookup_result E owner repo p with
        | Normal None =>
            emit
              (SetFailed
                 "Could not get information about the current pull request")
              (emit (PullsGet owner repo p) w)
        | _ => emit (PullsGet owner repo p) w
        end)) /\
  (forall E owner repo number w,
     Context.pull_request (context E) = None \/
     Context.pull_request (context E) = Some 0 ->
     getShaForPullRequest E (sha_options owner repo number) w
     = (Normal None,
        emit (SetFailed "No pull request number was found") w)).
Proof.
  split; [| split].
  - reflexivity.
  - intros E owner repo number w p Hp Hne.
    unfold getShaForPullRequest, lookup_result, bind, pulls_get, of_octokit.
    rewrite Hp. cbn [GetShaForPullRequestOptions.owner
                       GetShaForPullRequestOptions.repo sha_options].
    destruct p as [|p|p]; [contradiction | |];
      destruct (octokit_pulls_get E owner repo _) as [st sha|msg];
      try reflexivity; cbn [fst snd]; destruct (st =? 200); reflexivity.
  - intros E owner repo number w [Hp|Hp];
      unfold getShaForPullRequest; rewrite Hp; reflexivity.
Qed.

Lemma getShaForPullRequest_ignores_number_witness :
  getShaForPullRequest env_pull_request (sha_options "acme" "site" 99)
    initial
  = (lookup_result env_pull_request "acme" "site" 12,
     match lookup_result env_pull_request "acme" "site" 12 with
     | Normal None =>
         emit
           (SetFailed
              "Could not get information about the current pull request")
           (emit (PullsGet "acme" "site" 12) initial)
     | _ => emit (PullsGet "acme" "site" 12) initial
     end).
Proof.
  apply (proj1 (proj2 getShaForPullRequest_ignores_number)).
  - reflexivity.
  - discriminate.
Defined.

(** ** Whole runs *)

(** One deployment of the platform, a successful status with its target
    URL, no password and no bypass header, a health check answered with
    200: the run publishes the URL, succeeds, and reports no token. *)
Example run_end_to_end :
  run env_end_to_end 31 initial
  = (Normal tt,
     {| calls_listDeployments := 1;
        calls_listDeploymentStatuses := 1;
        calls_post := 0;
        calls_get := 1;
        trace :=
          [ListDeployments "acme" "site" "abc" (Some "");
           ListDeploymentStatuses "acme" "site" 7;
           SetOutput "url" preview;
           Request (get_request "https://preview.example.com/" [])] |}).
Proof. vm_compute. reflexivity. Qed.

(** With a password and a bypass header the run still makes the exchange
    and reports the token, and its health checks carry the bypass header
    alone. *)
Example run_password_and_bypass :
  run env_password_and_bypass 31 initial
  = (Normal tt,
     {| calls_listDeployments := 1;
        calls_listDeploymentStatuses := 1;
        calls_post := 2;
        calls_get := 2;
        trace :=
          [ListDeployments "acme" "site" "abc" (Some "");
           ListDeploymentStatuses "acme" "site" 7;
           SetOutput "url" preview;
           Request
             (password_request env_password_and_bypass preview "secret");
           SetOutput "vercel_jwt" "abc123";
           Request
             (get_request "https://preview.example.com/"
                [("x-vercel-protection-bypass", "bypass-me")]);
           Sleep (JsNumber.of_Z 2000);
           Request
             (password_request env_password_and_bypass preview "secret");
           SetOutput "vercel_jwt" "abc123";
           Request
             (get_request "https://preview.example.com/"
                [("x-vercel-protection-bypass", "bypass-me")])] |}).
Proof. vm_compute. reflexivity. Qed.

(** An exchange that never gets its cookie ends the run with the timeout
    of the URL health waiter, after one exchange per attempt. *)
Example run_cookie_never :
  run env_cookie_never 3 initial
  = (Normal tt,
     {| calls_listDeployments := 1;
        calls_listDeploymentStatuses := 1;
        calls_post := 2;
        calls_get := 0;
        trace :=
          [ListDeployments "acme" "site" "abc" (Some "");
           ListDeploymentStatuses "acme" "site" 7;
           SetOutput "url" preview;
           Request (password_request env_cookie_never preview "secret");
           Sleep (JsNumber.of_Z 2000);
           Request (password_request env_cookie_never preview "secret");
           Sleep (JsNumber.of_Z 2000);
           SetFailed
             "Timeout reached: Unable to connect to https://preview.example.com"]
     |}).
Proof. vm_compute. reflexivity. Qed.

(** ** The run, stage by stage *)

Lemma run_eq (E : Env) (fuel : nat) (w : World) :
  run E fuel w = run_staged E fuel w.
Proof.
  unfold run, run_staged, try_catch, bind, core_getInput_required,
    core_getBooleanInput, core_setFailed, core_setOutput, throw, ret,
    failed.
  destruct (String.eqb (Inputs.token (inputs E)) "") eqn:Htok;
    cbn [andb negb].
  { unfold empty_token_message.
    destruct (Inputs.token_blank (inputs E)); cbn [negb];
      [| reflexivity].
    destruct (Inputs.allow_inactive (inputs E)) as [allow|];
      [rewrite Htok |]; reflexivity. }
  destruct (Inputs.allow_inactive (inputs E)) as [allow|];
    [| reflexivity].
  rewrite Htok. unfold sha_stage, sha_options, ret.
  set (stage :=
         match Context.pull_request (context E) with
         | Some number => getShaForPullRequest E _
         | None => _
         end w).
  destruct stage as [[sha| e |] w1]; try reflexivity.
  destruct (truthy sha) as [sha'|]; [| reflexivity].
  unfold run_from_start.
  change (waitForDeploymentToStart E fuel _ w1)
    with (waitForDeploymentToStart E fuel (run_start_options E sha') w1).
  destruct (waitForDeploymentToStart E fuel (run_start_options E sha') w1)
    as [[[deployment|]| e |] w2]; try reflexivity.
  unfold run_from_status.
  change (waitForStatus E fuel _ w2)
    with (waitForStatus E fuel (run_status_options E allow deployment) w2).
  destruct (waitForStatus E fuel (run_status_options E allow deployment) w2)
    as [[[status|]| e |] w3]; try reflexivity.
  cbv iota beta.
  destruct (truthy (Some (DeploymentStatus.target_url status)))
    as [targetUrl|]; [| reflexivity].
  unfold run_from_url.
  change (waitForUrl E fuel _ (emit (SetOutput "url" targetUrl) w3))
    with (waitForUrl E fuel (run_url_options E targetUrl)
            (emit (SetOutput "url" targetUrl) w3)).
  destruct (waitForUrl E fuel (run_url_options E targetUrl) _)
    as [[[]| e |] w4]; reflexivity.
Qed.

Lemma run_start_iterations (E : Env) (sha : string) :
  start_iterations (run_start_options E sha) = run_iterations E.
Proof. reflexivity. Qed.

Lemma run_status_iterations (E : Env) (allowInactive : bool)
  (deployment : Deployment.t) :
  status_iterations (run_status_options E allowInactive deployment)
  = run_iterations E.
Proof. reflexivity. Qed.

Lemma run_url_iterations (E : Env) (targetUrl : string) :
  url_iterations (run_url_options E targetUrl) = run_iterations E.
Proof. reflexivity. Qed.

(** The commit stage makes no counted call, never runs out of fuel, and
    signals a failure whenever it gives no commit. *)
Lemma sha_stage_frame (E : Env) (w : World) :
  let r := fst (sha_stage E w) in
  let w' := snd (sha_stage E w) in
  calls_listDeployments w' = calls_listDeployments w /\
  calls_listDeploymentStatuses w' = calls_listDeploymentStatuses w /\
  calls_post w' = calls_post w /\
  calls_get w' = calls_get w /\
  (failures (trace w) <= failures (trace w'))%nat /\
  r <> OutOfFuel /\
  (forall sha, r = Normal (Some sha) ->
     failures (trace w') = failures (trace w)).
Proof.
  unfold sha_stage, getShaForPullRequest, bind, pulls_get, of_octokit,
    core_setFailed, ret.
  destruct (Context.pull_request (context E)) as [[|p|p]|];
    cbn [fst snd emit trace calls_listDeployments
           calls_listDeploymentStatuses calls_post calls_get];
    try destruct (octokit_pulls_get E _ _ _) as [st sha|msg];
    cbn [fst snd emit trace calls_listDeployments
           calls_listDeploymentStatuses calls_post calls_get];
    try destruct (negb (st =? 200));
    cbn [fst snd emit trace calls_listDeployments
           calls_listDeploymentStatuses calls_post calls_get];
    rewrite ?failures_app; simpl failures;
    repeat split; try lia; try discriminate;
    intros sha0 Hsha; try discriminate; lia.
Qed.

(** The lookup with the pull number [p] of the context. *)
Lemma getShaForPullRequest_with_number (E : Env) (owner repo : string)
  (number : Z) (w : World) (p : Z) :
  Context.pull_request (context E) = Some p -> p <> 0 ->
  getShaForPullRequest E (sha_options owner repo number) w
  = (lookup_result E owner repo p,
     match lookup_result E owner repo p with
     | Normal None =>
         emit
           (SetFailed
              "Could not get information about the current pull request")
           (emit (PullsGet owner repo p) w)
     | _ => emit (PullsGet owner repo p) w
     end).
Proof.
  intros Hp Hne.
  unfold getShaForPullRequest, lookup_result, bind, pulls_get, of_octokit.
  rewrite Hp. cbn [GetShaForPullRequestOptions.owner
                     GetShaForPullRequestOptions.repo sha_options].
  destruct p as [|p|p]; [contradiction | |];
    destruct (octokit_pulls_get E owner repo _) as [st sha|msg];
    try reflexivity; cbn [fst snd]; destruct (st =? 200); reflexivity.
Qed.

(** The lookup without a pull number. *)
Lemma getShaForPullRequest_without_number (E : Env) (owner repo : string)
  (number : Z) (w : World) :
  Context.pull_request (context E) = None \/
  Context.pull_request (context E) = Some 0 ->
  getShaForPullRequest E (sha_options owner repo number) w
  = (Normal None, emit (SetFailed "No pull request number was found") w).
Proof.
  intros [Hp|Hp]; unfold getShaForPullRequest; rewrite Hp; reflexivity.
Qed.

(** A run whose token is empty fails at once, without any call: with the
    message of the input library when the text given is empty, with the
    message of the run itself when the text is blank. *)
Lemma run_empty_token (E : Env) (fuel : nat) (w : World) :
  Inputs.token (inputs E) = "" ->
  run E fuel w = (Normal tt, emit (SetFailed (empty_token_message E)) w).
Proof.
  intros Htok. rewrite run_eq. unfold run_staged. now rewrite Htok.
Qed.

(** ** The calls a waiter makes *)

Lemma emits_failures (P : Event -> bool) (w w' : World) :
  emits P w w' -> (failures (trace w) <= failures (trace w'))%nat.
Proof. intros (d & -> & _). rewrite failures_app. lia. Qed.

(** The number of attempts made when the loop ends normally is the count
    itself. *)
Lemma exhausted_at_budget (iterations : Count) (n i : nat) :
  budget iterations = Some n ->
  counter_lt i iterations = false ->
  (forall j, (j < i)%nat -> counter_lt j iterations = true) ->
  i = n.
Proof.
  intros Hb Hc Hall.
  destruct (Nat.lt_trichotomy i n) as [Hlt|[Heq|Hgt]]; [| exact Heq |].
  - assert (Hc' : counter_lt i iterations = true)
      by (apply counter_lt_budget; now rewrite Hb).
    congruence.
  - specialize (Hall n Hgt). apply counter_lt_budget in Hall.
    rewrite Hb in Hall. lia.
Qed.

Lemma within_budget (iterations : Count) (n k : nat) :
  budget iterations = Some n -> counter_lt k iterations = true ->
  (k < n)%nat.
Proof. intros Hb Hc. apply counter_lt_budget in Hc. now rewrite Hb in Hc. Qed.

Lemma start_retried_frame (o : WaitForDeploymentToStartOptions.t)
  (k : nat) (w : World) :
  calls_listDeploymentStatuses (Nat.iter k (start_retried o) w)
  = calls_listDeploymentStatuses w /\
  calls_post (Nat.iter k (start_retried o) w) = calls_post w /\
  calls_get (Nat.iter k (start_retried o) w) = calls_get w /\
  failures (trace (Nat.iter k (start_retried o) w)) = failures (trace w).
Proof.
  induction k as [|k (H1 & H2 & H3 & H4)]; simpl; [auto |].
  rewrite !failures_app, H4. simpl. repeat split; try assumption; lia.
Qed.

Lemma status_retried_frame (o : WaitForStatusOptions.t) (k : nat)
  (w : World) :
  calls_listDeployments (Nat.iter k (status_retried o) w)
  = calls_listDeployments w /\
  calls_post (Nat.iter k (status_retried o) w) = calls_post w /\
  calls_get (Nat.iter k (status_retried o) w) = calls_get w /\
  failures (trace (Nat.iter k (status_retried o) w)) = failures (trace w).
Proof.
  induction k as [|k (H1 & H2 & H3 & H4)]; simpl; [auto |].
  rewrite !failures_app, H4. simpl. repeat split; try assumption; lia.
Qed.

(** An attempt of the URL health waiter sends at most one GET and calls
    no API. *)
Lemma waitForUrl_attempt_frame (E : Env) (o : WaitForUrlOptions.t)
  (w : World) :
  calls_listDeployments (snd (waitForUrl_attempt E o w))
  = calls_listDeployments w /\
  calls_listDeploymentStatuses (snd (waitForUrl_attempt E o w))
  = calls_listDeploymentStatuses w /\
  (calls_get (snd (waitForUrl_attempt E o w)) <= S (calls_get w))%nat.
Proof.
  rewrite waitForUrl_attempt_spec.
  unfold probe, exchange_retried, url_slept.
  destruct (truthy (WaitForUrlOptions.vercelPassword o)) as [pw|];
    [destruct (exchange_result E (server_post E (calls_post w)))
       as [jwt|e] |];
    try destruct (URL_toString E _ _) as [uri|];
    try destruct (get_ok (server_get E _));
    unfold exchange_request;
    cbn [snd calls_get calls_listDeployments calls_listDeploymentStatuses
           emit sent];
    rewrite ?is_post_get_request, ?is_post_password_request;
    repeat split; lia.
Qed.

(** The URL health waiter in full: it calls no API, sends at most one GET
    per attempt, and ends at the first GET that succeeds or with its
    timeout. *)
Lemma waitForUrl_summary (E : Env) (o : WaitForUrlOptions.t) (fuel : nat)
  (w : World) :
  match waitForUrl E fuel o w with
  | (Normal _, w') =>
      calls_listDeployments w' = calls_listDeployments w /\
      calls_listDeploymentStatuses w' = calls_listDeploymentStatuses w /\
      ((exists i,
          counter_lt i (url_iterations o) = true /\
          url_succeeded E o w i w' /\
          (calls_get w' <= calls_get w + S i)%nat)
       \/
       (exists i w1,
          counter_lt i (url_iterations o) = false /\
          (forall j, (j < i)%nat ->
             counter_lt j (url_iterations o) = true) /\
          url_waiting E o w i w1 /\
          (calls_get w1 <= calls_get w + i)%nat /\
          w' = emit (SetFailed (url_timeout_message o)) w1))
  | (Throw _, _) => False
  | (OutOfFuel, _) => True
  end.
Proof.
  unfold waitForUrl, bind. fold (url_iterations o).
  pose proof
    (for_loop_invariant (url_iterations o)
       (fun _ => waitForUrl_attempt E o)
       (fun i wc =>
          url_waiting E o w i wc /\
          calls_listDeployments wc = calls_listDeployments w /\
          calls_listDeploymentStatuses wc = calls_listDeploymentStatuses w
          /\ (calls_get wc <= calls_get w + i)%nat)
       (fun i _ wc =>
          url_succeeded E o w i wc /\
          calls_listDeployments wc = calls_listDeployments w /\
          calls_listDeploymentStatuses wc = calls_listDeploymentStatuses w
          /\ (calls_get wc <= calls_get w + S i)%nat)) as H.
  specialize (H ltac:(
    intros i wc (H0 & H1 & H2 & H3) _; cbv beta;
    pose proof (waitForUrl_attempt_frame E o wc) as (F1 & F2 & F3);
    pose proof (waitForUrl_attempt_keeps E o w i wc H0) as Hk;
    destruct (waitForUrl_attempt E o wc) as [[[a|]| e |] w'];
    cbn [fst snd] in *;
    [ split; [exact Hk | repeat split; lia]
    | split; [exact Hk | repeat split; lia]
    | exact Hk
    | exact I ])).
  specialize (H fuel 0%nat w).
  specialize (H ltac:(
    split; [apply url_waiting_start | repeat split; lia])).
  destruct (for_loop fuel (url_iterations o) _ 0%nat w)
    as [[[a|]| e |] w']; try exact H.
  - destruct H as (i & _ & (H0 & H1 & H2 & H3) & Hc).
    split; [exact H1 | split; [exact H2 |]]. left. exists i. auto.
  - destruct H as (i & _ & (H0 & H1 & H2 & H3) & Hc & Hall).
    split; [exact H1 | split; [exact H2 |]]. right. exists i, w'.
    split; [exact Hc | split; [| auto]].
    intros j Hj. apply Hall. lia.
Qed.

Lemma waitForDeploymentToStart_bounded (E : Env)
  (o : WaitForDeploymentToStartOptions.t) (fuel n : nat) (w : World) :
  budget (start_iterations o) = Some n -> (n < fuel)%nat ->
  exists r w',
    waitForDeploymentToStart E fuel o w = (Normal r, w') /\
    (calls_listDeployments w <= calls_listDeployments w'
     <= calls_listDeployments w + n)%nat /\
    calls_listDeploymentStatuses w' = calls_listDeploymentStatuses w /\
    calls_post w' = calls_post w /\
    calls_get w' = calls_get w /\
    failures (trace w') = failures (trace w).
Proof.
  intros Hb Hfuel.
  pose proof (waitForDeploymentToStart_terminates E fuel n o w Hb Hfuel)
    as Hterm.
  pose proof (waitForDeploymentToStart_outcome E o fuel w) as Hout.
  destruct (waitForDeploymentToStart E fuel o w) as [[[d|]| e |] w'];
    cbn [fst] in Hterm; try contradiction.
  - destruct Hout as (k & _ & _ & Hc & ->).
    apply (within_budget _ n) in Hc; [| exact Hb].
    destruct (start_retried_frame o k w) as (F1 & F2 & F3 & F4).
    exists (Some d). eexists. split; [reflexivity |].
    unfold start_polled. simpl. rewrite failures_app. simpl.
    rewrite start_retried_calls. repeat split; try assumption; lia.
  - destruct Hout as (i & _ & Hc & Hall & ->).
    apply (exhausted_at_budget _ n) in Hc; [subst i | exact Hb | exact Hall].
    destruct (start_retried_frame o n w) as (F1 & F2 & F3 & F4).
    exists None. eexists. split; [reflexivity |].
    rewrite start_retried_calls. repeat split; try assumption; lia.
Qed.

Lemma waitForStatus_bounded (E : Env) (o : WaitForStatusOptions.t)
  (fuel n : nat) (w : World) :
  budget (status_iterations o) = Some n -> (n < fuel)%nat ->
  exists r w',
    waitForStatus E fuel o w = (Normal r, w') /\
    calls_listDeployments w' = calls_listDeployments w /\
    (calls_listDeploymentStatuses w <= calls_listDeploymentStatuses w'
     <= calls_listDeploymentStatuses w + n)%nat /\
    calls_post w' = calls_post w /\
    calls_get w' = calls_get w /\
    failures (trace w')
    = (failures (trace w) + match r with Some _ => 0 | None => 1 end)%nat.
Proof.
  intros Hb Hfuel.
  pose proof (waitForStatus_terminates E fuel n o w Hb Hfuel) as Hterm.
  pose proof (waitForStatus_outcome E o fuel w) as Hout.
  destruct (waitForStatus E fuel o w) as [[[s|]| e |] w'];
    cbn [fst] in Hterm; try contradiction.
  - destruct Hout as (k & _ & _ & Hc & ->).
    apply (within_budget _ n) in Hc; [| exact Hb].
    destruct (status_retried_frame o k w) as (F1 & F2 & F3 & F4).
    exists (Some s). eexists. split; [reflexivity |].
    unfold status_polled. simpl. rewrite failures_app. simpl.
    rewrite status_retried_calls. repeat split; try assumption; lia.
  - destruct Hout as (i & _ & Hc & Hall & ->).
    apply (exhausted_at_budget _ n) in Hc; [subst i | exact Hb | exact Hall].
    destruct (status_retried_frame o n w) as (F1 & F2 & F3 & F4).
    exists None. eexists. split; [reflexivity |].
    simpl. rewrite failures_app. simpl.
    rewrite status_retried_calls. repeat split; try assumption; lia.
Qed.

Lemma waitForUrl_bounded (E : Env) (o : WaitForUrlOptions.t)
  (fuel n : nat) (w : World) :
  budget (url_iterations o) = Some n -> (n < fuel)%nat ->
  exists w',
    waitForUrl E fuel o w = (Normal tt, w') /\
    calls_listDeployments w' = calls_listDeployments w /\
    calls_listDeploymentStatuses w' = calls_listDeploymentStatuses w /\
    (calls_post w <= calls_post w'
     <= calls_post w + n * exchanges_per_attempt o)%nat /\
    (calls_get w <= calls_get w' <= calls_get w + n)%nat /\
    (failures (trace w) <= failures (trace w')
     <= S (failures (trace w)))%nat.
Proof.
  intros Hb Hfuel.
  destruct (waitForUrl_terminates E o fuel n w Hb Hfuel) as [w' Hrun].
  pose proof (waitForUrl_summary E o fuel w) as Hsum.
  rewrite Hrun in Hsum. exists w'. split; [exact Hrun |].
  destruct Hsum as (H1 & H2 & [(i & Hc & Hs & Hg) | (i & w1 & Hc & Hall & Hw & Hg & ->)]).
  - apply (within_budget _ n) in Hc; [| exact Hb].
    destruct Hs as (Hf & _ & Hp & m & Hm & _).
    split; [exact H1 | split; [exact H2 |]].
    assert (S i * exchanges_per_attempt o <= n * exchanges_per_attempt o)%nat
      by (apply Nat.mul_le_mono_r; lia).
    repeat split; lia.
  - apply (exhausted_at_budget _ n) in Hc; [subst i | exact Hb | exact Hall].
    destruct Hw as (Hf & _ & Hp & Hle & _).
    simpl in *. rewrite failures_app. simpl.
    split; [exact H1 | split; [exact H2 |]].
    repeat split; lia.
Qed.

(** X1. With a finite count of [n] attempts and more fuel than that, every
    waiter comes back and has made at most [n] calls of its own kind (the
    URL health waiter at most [n] GETs and, with a password, at most [n]
    exchanges) and none of another kind, whatever the answers. *)
Theorem waiters_make_at_most_budget_calls :
  (forall E o fuel n w,
     budget (start_iterations o) = Some n -> (n < fuel)%nat ->
     exists r w',
       waitForDeploymentToStart E fuel o w = (Normal r, w') /\
       (calls_listDeployments w <= calls_listDeployments w'
        <= calls_listDeployments w + n)%nat /\
       calls_listDeploymentStatuses w' = calls_listDeploymentStatuses w /\
       calls_post w' = calls_post w /\
       calls_get w' = calls_get w /\
       failures (trace w') = failures (trace w)) /\
  (forall E o fuel n w,
     budget (status_iterations o) = Some n -> (n < fuel)%nat ->
     exists r w',
       waitForStatus E fuel o w = (Normal r, w') /\
       calls_listDeployments w' = calls_listDeployments w /\
       (calls_listDeploymentStatuses w <= calls_listDeploymentStatuses w'
        <= calls_listDeploymentStatuses w + n)%nat /\
       calls_post w' = calls_post w /\
       calls_get w' = calls_get w /\
       failures (trace w')
       = (failures (trace w) + match r with Some _ => 0 | None => 1 end)%nat)
  /\
  (forall E o fuel n w,
     budget (url_iterations o) = Some n -> (n < fuel)%nat ->
     exists w',
       waitForUrl E fuel o w = (Normal tt, w') /\
       calls_listDeployments w' = calls_listDeployments w /\
       calls_listDeploymentStatuses w' = calls_listDeploymentStatuses w /\
       (calls_post w <= calls_post w'
        <= calls_post w + n * exchanges_per_attempt o)%nat /\
       (calls_get w <= calls_get w' <= calls_get w + n)%nat /\
       (failures (trace w) <= failures (trace w')
        <= S (failures (trace w)))%nat).
Proof.
  split; [| split].
  - apply waitForDeploymentToStart_bounded.
  - apply waitForStatus_bounded.
  - apply waitForUrl_bounded.
Qed.

Lemma waiters_make_at_most_budget_calls_witness :
  exists w',
    waitForUrl env_cookie_never 3 (url_options 4 "secret" "") initial
    = (Normal tt, w') /\
    calls_listDeployments w' = calls_listDeployments initial /\
    calls_listDeploymentStatuses w' = calls_listDeploymentStatuses initial /\
    (calls_post initial <= calls_post w'
     <= calls_post initial
        + 2 * exchanges_per_attempt (url_options 4 "secret" ""))%nat /\
    (calls_get initial <= calls_get w' <= calls_get initial + 2)%nat /\
    (failures (trace initial) <= failures (trace w')
     <= S (failures (trace initial)))%nat.
Proof.
  apply (proj2 (proj2 waiters_make_at_most_budget_calls)).
  - vm_compute. reflexivity.
  - lia.
Defined.

(** ** Whole runs: calls and success *)

Lemma run_calls_bounded :
  forall E fuel n w,
    budget (run_iterations E) = Some n -> (n < fuel)%nat ->
    exists w',
      run E fuel w = (Normal tt, w') /\
      (calls_listDeployments w' <= calls_listDeployments w + n)%nat /\
      (calls_listDeploymentStatuses w'
       <= calls_listDeploymentStatuses w + n)%nat /\
      (calls_post w' <= calls_post w + n)%nat /\
      (calls_get w' <= calls_get w + n)%nat.
Proof.
  intros E fuel n w Hb Hfuel. rewrite run_eq. unfold run_staged, failed.
  destruct (String.eqb (Inputs.token (inputs E)) "");
    [eexists; split; [reflexivity | simpl; repeat split; lia] |].
  destruct (Inputs.allow_inactive (inputs E)) as [allow|];
    [| eexists; split; [reflexivity | simpl; repeat split; lia]].
  pose proof (sha_stage_frame E w) as Hsha. cbv zeta in Hsha.
  destruct (sha_stage E w) as [[sha| e |] w1]; cbn [fst snd] in Hsha;
    destruct Hsha as (S1 & S2 & S3 & S4 & _ & Sne & _);
    [| eexists; split; [reflexivity | simpl; repeat split; lia]
     | contradiction].
  destruct (truthy sha) as [sha'|];
    [| eexists; split; [reflexivity | simpl; repeat split; lia]].
  unfold run_from_start.
  destruct (waitForDeploymentToStart_bounded E (run_start_options E sha')
              fuel n w1 Hb Hfuel)
    as (d & w2 & -> & D1 & D2 & D3 & D4 & _).
  destruct d as [deployment|];
    [| eexists; split; [reflexivity | simpl; repeat split; lia]].
  unfold run_from_status.
  destruct (waitForStatus_bounded E
              (run_status_options E allow deployment) fuel n w2 Hb Hfuel)
    as (s & w3 & -> & T1 & T2 & T3 & T4 & _).
  destruct s as [status|];
    [| eexists; split; [reflexivity | simpl; repeat split; lia]].
  destruct (truthy (Some (DeploymentStatus.target_url status)))
    as [targetUrl|];
    [| eexists; split; [reflexivity | simpl; repeat split; lia]].
  unfold run_from_url.
  destruct (waitForUrl_bounded E (run_url_options E targetUrl) fuel n
              (emit (SetOutput "url" targetUrl) w3) Hb Hfuel)
    as (w4 & -> & U1 & U2 & U3 & U4 & _).
  exists w4. split; [reflexivity |]. simpl in *.
  assert (n * exchanges_per_attempt (run_url_options E targetUrl) <= n)%nat.
  { unfold exchanges_per_attempt.
    destruct (truthy _); lia. }
  repeat split; lia.
Qed.

(** X2. A run with a finite count of [n] attempts and more fuel than that
    comes back, and has made at most [n] requests for deployments, [n]
    polls of statuses, [n] exchanges and [n] health checks. *)
Theorem run_makes_at_most_budget_calls :
  forall E fuel n w,
    budget (run_iterations E) = Some n -> (n < fuel)%nat ->
    exists w',
      run E fuel w = (Normal tt, w') /\
      (calls_listDeployments w' <= calls_listDeployments w + n)%nat /\
      (calls_listDeploymentStatuses w'
       <= calls_listDeploymentStatuses w + n)%nat /\
      (calls_post w' <= calls_post w + n)%nat /\
      (calls_get w' <= calls_get w + n)%nat.
Proof.
  intros E fuel n w Hb Hfuel.
  destruct (run_calls_bounded E fuel n w Hb Hfuel) as (w' & Hrun & Hcalls).
  exists w'. split; [exact Hrun | exact Hcalls].
Qed.

Lemma run_makes_at_most_budget_calls_witness :
  exists w',
    run env_password_error_then_ok 31 initial = (Normal tt, w') /\
    (calls_listDeployments w' <= calls_listDeployments initial + 30)%nat /\
    (calls_listDeploymentStatuses w'
     <= calls_listDeploymentStatuses initial + 30)%nat /\
    (calls_post w' <= calls_post initial + 30)%nat /\
    (calls_get w' <= calls_get initial + 30)%nat.
Proof.
  apply run_makes_at_most_budget_calls.
  - vm_compute. reflexivity.
  - lia.
Defined.

Lemma matched_created_by (actorName : string)
  (r : OctokitResult (list Deployment.t)) (d : Deployment.t) :
  matched actorName r = Some d -> Deployment.creator d = Some actorName.
Proof.
  destruct r as [st l|m]; simpl; [| discriminate].
  intros H. apply find_some in H. now apply created_by_iff.
Qed.

Lemma truthy_inv (o : option string) (s : string) :
  truthy o = Some s -> o = Some s /\ s <> "".
Proof.
  destruct o as [[|c t]|]; simpl; try discriminate.
  intros [= <-]. split; [reflexivity | discriminate].
Qed.

(** X3. A run that comes back without any failure signal has gone through
    every stage.  The token and [allow_inactive] were accepted and a commit
    was resolved.  Some request [k1] for the deployments of that commit was
    the first to list a deployment created by [vercel[bot]], and some poll
    [k2] of its statuses was the first to show an accepted status, one with
    state [success] (or [inactive], when allowed), whose target URL is not
    empty.  Up to there the run has made these requests and polls, each
    failed one followed by a sleep, and then published the target URL as
    the output [url].  What follows makes no call of the API, and ends at
    the first health check that succeeded. *)
Theorem run_without_failure_is_healthy :
  forall E fuel w w',
    run E fuel w = (Normal tt, w') ->
    failures (trace w') = failures (trace w) ->
    exists allowInactive sha w1 k1 deployment k2 status i,
      Inputs.token (inputs E) <> "" /\
      Inputs.allow_inactive (inputs E) = Some allowInactive /\
      sha_stage E w = (Normal (Some sha), w1) /\ sha <> "" /\
      (forall j, (j < k1)%nat ->
         matched "vercel[bot]"
           (octokit_listDeployments E (calls_listDeployments w1 + j))
         = None) /\
      matched "vercel[bot]"
        (octokit_listDeployments E (calls_listDeployments w1 + k1))
      = Some deployment /\
      Deployment.creator deployment = Some "vercel[bot]" /\
      (forall j, (j < k2)%nat ->
         accepted allowInactive
           (octokit_listDeploymentStatuses E
              (calls_listDeploymentStatuses w1 + j)) = None) /\
      accepted allowInactive
        (octokit_listDeploymentStatuses E
           (calls_listDeploymentStatuses w1 + k2)) = Some status /\
      (DeploymentStatus.state status = "success" \/
       DeploymentStatus.state status = "inactive" /\
       allowInactive = true) /\
      DeploymentStatus.target_url status <> "" /\
      counter_lt k1 (run_iterations E) = true /\
      counter_lt k2 (run_iterations E) = true /\
      counter_lt i (run_iterations E) = true /\
      let os := run_start_options E sha in
      let ot := run_status_options E allowInactive deployment in
      let ou := run_url_options E (DeploymentStatus.target_url status) in
      let w2 := start_polled os (Nat.iter k1 (start_retried os) w1) in
      let w3 :=
        emit (SetOutput "url" (DeploymentStatus.target_url status))
          (status_polled ot (Nat.iter k2 (status_retried ot) w2)) in
      emits no_api_call w3 w' /\ url_succeeded E ou w3 i w'.
Proof.
  intros E fuel w w' Hrun Hf. rewrite run_eq in Hrun.
  unfold run_staged, failed in Hrun.
  assert (Hfail : forall m w0,
            (failures (trace w) <= failures (trace w0))%nat ->
            (Normal tt, emit (SetFailed m) w0) = (Normal tt, w') -> False).
  { intros m w0 Hle [= <-]. simpl in Hf. rewrite failures_app in Hf.
    simpl in Hf. lia. }
  destruct (String.eqb (Inputs.token (inputs E)) "") eqn:Htok;
    [exfalso; eapply Hfail; [| exact Hrun]; lia |].
  apply String.eqb_neq in Htok.
  destruct (Inputs.allow_inactive (inputs E)) as [allow|] eqn:Hallow;
    [| exfalso; eapply Hfail; [| exact Hrun]; lia].
  pose proof (sha_stage_frame E w) as Hsha. cbv zeta in Hsha.
  destruct (sha_stage E w) as [[sha| e |] w1] eqn:Hstage;
    cbn [fst snd] in Hsha;
    destruct Hsha as (_ & _ & _ & _ & Hle1 & _ & _);
    [| exfalso; eapply Hfail; [| exact Hrun]; lia | discriminate].
  destruct (truthy sha) as [sha'|] eqn:Hsha';
    [| exfalso; eapply Hfail; [| exact Hrun]; lia].
  apply truthy_inv in Hsha'. destruct Hsha' as [-> Hne].
  unfold run_from_start in Hrun.
  set (os := run_start_options E sha') in *.
  pose proof (waitForDeploymentToStart_outcome E os fuel w1) as Hstart.
  destruct (waitForDeploymentToStart E fuel os w1)
    as [[[deployment|]| e |] w2]; try contradiction; try discriminate.
  2:{ destruct Hstart as (n & _ & _ & _ & ->).
      exfalso. eapply Hfail; [| exact Hrun].
      rewrite (proj2 (proj2 (proj2 (start_retried_frame _ n w1)))). lia. }
  destruct Hstart as (k1 & Hk1 & Hnone1 & Hc1 & Hw2).
  destruct (start_retried_frame os k1 w1) as (A1 & _ & _ & A4).
  assert (B1 : calls_listDeploymentStatuses w2
               = calls_listDeploymentStatuses w1) by (subst w2; exact A1).
  assert (B4 : failures (trace w2) = failures (trace w1)).
  { subst w2. unfold start_polled. simpl. rewrite failures_app, A4.
    simpl. lia. }
  unfold run_from_status in Hrun.
  set (ot := run_status_options E allow deployment) in *.
  pose proof (waitForStatus_outcome E ot fuel w2) as Hstatus.
  destruct (waitForStatus E fuel ot w2)
    as [[[status|]| e |] w3]; try contradiction; try discriminate.
  2:{ destruct Hstatus as (n & _ & _ & _ & ->).
      exfalso. eapply Hfail; [| exact Hrun].
      simpl. rewrite failures_app. simpl.
      rewrite (proj2 (proj2 (proj2 (status_retried_frame _ n w2)))). lia. }
  destruct Hstatus as (k2 & Hk2 & Hnone2 & Hc2 & Hw3).
  assert (C4 : failures (trace w3) = failures (trace w2)).
  { subst w3. unfold status_polled. simpl. rewrite failures_app.
    rewrite (proj2 (proj2 (proj2 (status_retried_frame ot k2 w2)))).
    simpl. lia. }
  destruct (truthy (Some (DeploymentStatus.target_url status)))
    as [targetUrl|] eqn:Htarget;
    [| exfalso; eapply Hfail; [| exact Hrun]; lia].
  apply truthy_inv in Htarget. destruct Htarget as [[= <-] Htarget].
  unfold run_from_url in Hrun.
  set (ou := run_url_options E (DeploymentStatus.target_url status)) in *.
  set (w4 := emit (SetOutput "url" (DeploymentStatus.target_url status)) w3)
    in *.
  pose proof (waitForUrl_outcome E ou fuel w4) as Hurl.
  pose proof (waitForUrl_no_api_call E fuel ou w4) as Hemits.
  destruct (waitForUrl E fuel ou w4) as [[[]| e |] w5];
    try contradiction; try discriminate.
  injection Hrun as ->.
  assert (D4 : failures (trace w4) = failures (trace w3)).
  { subst w4. simpl. rewrite failures_app. simpl. lia. }
  destruct Hurl as [(i & Hc3 & Hs) | (i & w6 & _ & _ & (Hf6 & _) & ->)].
  2:{ exfalso. simpl in Hf. rewrite failures_app in Hf. simpl in Hf. lia. }
  exists allow, sha', w1, k1, deployment, k2, status, i.
  unfold status_poll in Hk2, Hnone2. rewrite B1 in Hk2.
  apply accepted_iff in Hk2 as Hstate. destruct Hstate as [_ Hstate].
  repeat match goal with |- _ /\ _ => split end;
    try assumption; try reflexivity.
  - exact (matched_created_by _ _ _ Hk1).
  - intros j Hj. rewrite <- B1. now apply Hnone2.
  - cbv zeta. fold os ot ou. rewrite <- Hw2, <- Hw3. fold w4.
    split; [exact Hemits | exact Hs].
Qed.

Lemma run_without_failure_is_healthy_witness :
  exists allowInactive sha w1 k1 deployment k2 status i,
    Inputs.token (inputs env_slow_preview) <> "" /\
    Inputs.allow_inactive (inputs env_slow_preview) = Some allowInactive /\
    sha_stage env_slow_preview initial = (Normal (Some sha), w1) /\
    sha <> "" /\
    (forall j, (j < k1)%nat ->
       matched "vercel[bot]"
         (octokit_listDeployments env_slow_preview
            (calls_listDeployments w1 + j))
       = None) /\
    matched "vercel[bot]"
      (octokit_listDeployments env_slow_preview
         (calls_listDeployments w1 + k1))
    = Some deployment /\
    Deployment.creator deployment = Some "vercel[bot]" /\
    (forall j, (j < k2)%nat ->
       accepted allowInactive
         (octokit_listDeploymentStatuses env_slow_preview
            (calls_listDeploymentStatuses w1 + j)) = None) /\
    accepted allowInactive
      (octokit_listDeploymentStatuses env_slow_preview
         (calls_listDeploymentStatuses w1 + k2)) = Some status /\
    (DeploymentStatus.state status = "success" \/
     DeploymentStatus.state status = "inactive" /\
     allowInactive = true) /\
    DeploymentStatus.target_url status <> "" /\
    counter_lt k1 (run_iterations env_slow_preview) = true /\
    counter_lt k2 (run_iterations env_slow_preview) = true /\
    counter_lt i (run_iterations env_slow_preview) = true /\
    let os := run_start_options env_slow_preview sha in
    let ot := run_status_options env_slow_preview allowInactive deployment in
    let ou :=
      run_url_options env_slow_preview (DeploymentStatus.target_url status)
    in
    let w2 := start_polled os (Nat.iter k1 (start_retried os) w1) in
    let w3 :=
      emit (SetOutput "url" (DeploymentStatus.target_url status))
        (status_polled ot (Nat.iter k2 (status_retried ot) w2)) in
    emits no_api_call w3 (snd (run env_slow_preview 31 initial)) /\
    url_succeeded env_slow_preview ou w3 i
      (snd (run env_slow_preview 31 initial)).
Proof.
  apply (run_without_failure_is_healthy env_slow_preview 31 initial).
  - vm_compute. reflexivity.
  - vm_compute. reflexivity.
Defined.

(** ** Whole runs: the fatal conditions *)

Lemma truthy_Some (s : string) : s <> "" -> truthy (Some s) = Some s.
Proof. destruct s; [contradiction | reflexivity]. Qed.

Lemma run_reaches_start (E : Env) (fuel : nat) (allowInactive : bool)
  (sha : string) (w w1 : World) :
  Inputs.token (inputs E) <> "" ->
  Inputs.allow_inactive (inputs E) = Some allowInactive ->
  sha_stage E w = (Normal (Some sha), w1) -> sha <> "" ->
  run E fuel w = run_from_start E fuel allowInactive sha w1.
Proof.
  intros Htok Hallow Hsha Hne. rewrite run_eq. unfold run_staged.
  apply String.eqb_neq in Htok. rewrite Htok, Hallow, Hsha.
  now rewrite truthy_Some.
Qed.

(** X4. A token that is missing, or an [allow_inactive] that is no
    boolean, ends the run at once: a single failure signal is the only
    event, and no call is made, not even the pull-request lookup. *)
Theorem run_rejects_bad_inputs :
  forall E fuel w,
    Inputs.token (inputs E) = "" \/ Inputs.allow_inactive (inputs E) = None ->
    exists message,
      run E fuel w = (Normal tt, emit (SetFailed message) w).
Proof.
  intros E fuel w H. rewrite run_eq. unfold run_staged.
  destruct (String.eqb (Inputs.token (inputs E)) "") eqn:Htok;
    [eexists; reflexivity |].
  destruct H as [H | H].
  - rewrite H in Htok. discriminate.
  - rewrite H. eexists. reflexivity.
Qed.

(** X5. The commit of a run.  Outside a pull request it is the commit of
    the context, and the run fails when that is empty.  In a pull request
    it is the head commit the lookup returns: a lookup that throws ends the
    run with the message of the exception, a response whose status is not
    200 or a pull number of 0 ends it with two failure signals, and in none
    of these cases is the commit of the context used instead. *)
Theorem run_commit_resolution :
  forall E fuel allowInactive w,
    Inputs.token (inputs E) <> "" ->
    Inputs.allow_inactive (inputs E) = Some allowInactive ->
    let owner := Context.owner (context E) in
    let repo := Context.repo (context E) in
    (Context.pull_request (context E) = None ->
     (Context.sha (context E) <> "" ->
      run E fuel w
      = run_from_start E fuel allowInactive (Context.sha (context E)) w) /\
     (Context.sha (context E) = "" ->
      run E fuel w
      = (Normal tt,
         emit (SetFailed "Unable to determine SHA. Exiting...") w))) /\
    (Context.pull_request (context E) = Some 0 ->
     run E fuel w
     = (Normal tt,
        emit (SetFailed "Unable to determine SHA. Exiting...")
          (emit (SetFailed "No pull request number was found") w))) /\
    (forall p,
       Context.pull_request (context E) = Some p -> p <> 0 ->
       (forall message,
          octokit_pulls_get E owner repo p = Rejected message ->
          run E fuel w
          = (Normal tt,
             emit (SetFailed message) (emit (PullsGet owner repo p) w))) /\
       (forall status sha,
          octokit_pulls_get E owner repo p = Resolved status sha ->
          status <> 200 ->
          run E fuel w
          = (Normal tt,
             emit (SetFailed "Unable to determine SHA. Exiting...")
               (emit
                  (SetFailed
                     "Could not get information about the current pull request")
                  (emit (PullsGet owner repo p) w)))) /\
       (forall sha,
          octokit_pulls_get E owner repo p = Resolved 200 sha ->
          (sha <> "" ->
           run E fuel w
           = run_from_start E fuel allowInactive sha
               (emit (PullsGet owner repo p) w)) /\
          (sha = "" ->
           run E fuel w
           = (Normal tt,
              emit (SetFailed "Unable to determine SHA. Exiting...")
                (emit (PullsGet owner repo p) w))))).
Proof.
  intros E fuel allow w Htok Hallow owner repo. subst owner repo.
  apply String.eqb_neq in Htok.
  assert (Hrun : run E fuel w =
                 match sha_stage E w with
                 | (Normal sha, w') =>
                     match truthy sha with
                     | Some sha => run_from_start E fuel allow sha w'
                     | None =>
                         failed "Unable to determine SHA. Exiting..." w'
                     end
                 | (Throw e, w') => failed (Exception_message e) w'
                 | (OutOfFuel, w') => (OutOfFuel, w')
                 end).
  { rewrite run_eq. unfold run_staged. now rewrite Htok, Hallow. }
  rewrite Hrun. unfold sha_stage.
  split; [| split].
  - intros Hpr. rewrite Hpr. unfold ret. split.
    + intros Hne. rewrite !truthy_Some by exact Hne. reflexivity.
    + intros ->. reflexivity.
  - intros Hpr. rewrite Hpr.
    rewrite getShaForPullRequest_without_number by auto.
    reflexivity.
  - intros p Hpr Hne. rewrite Hpr.
    rewrite (getShaForPullRequest_with_number E _ _ p w p Hpr Hne).
    unfold lookup_result.
    split; [| split].
    + intros message ->. reflexivity.
    + intros status sha -> Hst. apply Z.eqb_neq in Hst. rewrite Hst.
      reflexivity.
    + intros sha ->. cbn [Z.eqb Pos.eqb]. split.
      * intros Hsha. rewrite truthy_Some by exact Hsha. reflexivity.
      * intros ->. reflexivity.
Qed.

Lemma run_rejects_bad_inputs_witness :
  exists message,
    run env_no_token 1 initial = (Normal tt, emit (SetFailed message) initial).
Proof.
  apply (run_rejects_bad_inputs env_no_token 1 initial).
  left. reflexivity.
Defined.

Lemma run_commit_resolution_witness :
  run env_pull_request 31 initial
  = run_from_start env_pull_request 31 false "abc"
      (emit (PullsGet "acme" "site" 12) initial).
Proof.
  destruct (run_commit_resolution env_pull_request 31 false initial)
    as (_ & _ & H).
  - discriminate.
  - reflexivity.
  - destruct (H 12 eq_refl ltac:(discriminate)) as (_ & _ & H200).
    apply (H200 "abc"); [reflexivity | discriminate].
Defined.

(** X6. When no request of the start waiter finds a deployment created by
    [vercel[bot]] within the count, the run fails with its own message
    after exactly [n] requests, each followed by the sleep; it polls no
    status and sends nothing to the preview server. *)
Theorem run_without_deployment :
  forall E fuel allowInactive sha w w1 n,
    Inputs.token (inputs E) <> "" ->
    Inputs.allow_inactive (inputs E) = Some allowInactive ->
    sha_stage E w = (Normal (Some sha), w1) -> sha <> "" ->
    budget (run_iterations E) = Some n ->
    (forall j, (j < n)%nat ->
       matched "vercel[bot]"
         (octokit_listDeployments E (calls_listDeployments w1 + j)) = None) ->
    (n < fuel)%nat ->
    exists w',
      run E fuel w = (Normal tt, w') /\
      trace w'
      = trace w1
        ++ List.concat
             (repeat
                [ListDeployments (Context.owner (context E))
                   (Context.repo (context E)) sha
                   (Some (Inputs.environment (inputs E)));
                 Sleep (run_interval E)]
                n)
        ++ [SetFailed "no vercel deployment found, exiting..."] /\
      calls_listDeployments w' = (calls_listDeployments w1 + n)%nat /\
      calls_listDeploymentStatuses w' = calls_listDeploymentStatuses w1 /\
      calls_post w' = calls_post w1 /\
      calls_get w' = calls_get w1.
Proof.
  intros E fuel allow sha w w1 n Htok Hallow Hsha Hne Hb Hnone Hfuel.
  rewrite (run_reaches_start E fuel allow sha w w1 Htok Hallow Hsha Hne).
  unfold run_from_start.
  rewrite (waitForDeploymentToStart_gives_up E (run_start_options E sha) w1
             n Hb Hnone fuel Hfuel).
  eexists. split; [reflexivity |].
  destruct (start_retried_frame (run_start_options E sha) n w1)
    as (F1 & F2 & F3 & _).
  cbn [emit trace calls_listDeployments calls_listDeploymentStatuses
         calls_post calls_get].
  rewrite start_retried_trace, start_retried_calls, <- app_assoc.
  repeat split; assumption.
Qed.

Lemma run_without_deployment_witness :
  exists w',
    run env_no_deployment 3 initial = (Normal tt, w') /\
    trace w'
    = trace initial
      ++ List.concat
           (repeat
              [ListDeployments (Context.owner (context env_no_deployment))
                 (Context.repo (context env_no_deployment)) "abc"
                 (Some (Inputs.environment (inputs env_no_deployment)));
               Sleep (run_interval env_no_deployment)]
              2)
      ++ [SetFailed "no vercel deployment found, exiting..."] /\
    calls_listDeployments w' = (calls_listDeployments initial + 2)%nat /\
    calls_listDeploymentStatuses w' = calls_listDeploymentStatuses initial /\
    calls_post w' = calls_post initial /\
    calls_get w' = calls_get initial.
Proof.
  apply (run_without_deployment env_no_deployment 3 false "abc" initial
           initial 2).
  - discriminate.
  - reflexivity.
  - reflexivity.
  - discriminate.
  - vm_compute. reflexivity.
  - intros j Hj. reflexivity.
  - lia.
Defined.

(** X7. When the status waiter uses up its count the run signals two
    failures, the timeout of the waiter and then the missing target URL;
    when the accepted status has an empty target URL the run signals the
    missing target URL alone.  In both cases no [url] output is published
    and nothing is sent to the preview server. *)
Theorem run_without_target_url :
  forall E fuel allowInactive sha deployment w w1 w2,
    Inputs.token (inputs E) <> "" ->
    Inputs.allow_inactive (inputs E) = Some allowInactive ->
    sha_stage E w = (Normal (Some sha), w1) -> sha <> "" ->
    waitForDeploymentToStart E fuel (run_start_options E sha) w1
    = (Normal (Some deployment), w2) ->
    let o := run_status_options E allowInactive deployment in
    (forall n,
       budget (run_iterations E) = Some n ->
       (forall j, (j < n)%nat ->
          accepted allowInactive
            (octokit_listDeploymentStatuses E
               (calls_listDeploymentStatuses w2 + j)) = None) ->
       (n < fuel)%nat ->
       run E fuel w
       = (Normal tt,
          emit (SetFailed "no target_url found in the status check")
            (emit (SetFailed status_timeout_message)
               (Nat.iter n (status_retried o) w2)))) /\
    (forall k status,
       (forall j, (j < k)%nat ->
          accepted allowInactive
            (octokit_listDeploymentStatuses E
               (calls_listDeploymentStatuses w2 + j)) = None) ->
       accepted allowInactive
         (octokit_listDeploymentStatuses E
            (calls_listDeploymentStatuses w2 + k)) = Some status ->
       DeploymentStatus.target_url status = "" ->
       counter_lt k (run_iterations E) = true ->
       (k < fuel)%nat ->
       run E fuel w
       = (Normal tt,
          emit (SetFailed "no target_url found in the status check")
            (status_polled o (Nat.iter k (status_retried o) w2)))).
Proof.
  intros E fuel allow sha deployment w w1 w2 Htok Hallow Hsha Hne Hstart o.
  rewrite (run_reaches_start E fuel allow sha w w1 Htok Hallow Hsha Hne).
  unfold run_from_start. rewrite Hstart. unfold run_from_status.
  fold o. split.
  - intros n Hb Hnone Hfuel.
    now rewrite (waitForStatus_times_out E o w2 n Hb Hnone fuel Hfuel).
  - intros k status Hnone Hok Hurl Hlt Hfuel.
    rewrite (waitForStatus_succeeds E o w2 k status Hnone Hok Hlt fuel
               Hfuel).
    now rewrite Hurl.
Qed.

Lemma run_without_target_url_witness :
  run env_never_successful 3 initial
  = (Normal tt,
     emit (SetFailed "no target_url found in the status check")
       (emit (SetFailed status_timeout_message)
          (Nat.iter 2
             (status_retried
                (run_status_options env_never_successful false
                   vercel_deployment))
             (start_polled (run_start_options env_never_successful "abc")
                initial)))).
Proof.
  apply (proj1
           (run_without_target_url env_never_successful 3 false "abc"
              vercel_deployment initial initial
              (start_polled (run_start_options env_never_successful "abc")
                 initial)
              ltac:(discriminate) eq_refl eq_refl ltac:(discriminate)
              ltac:(vm_compute; reflexivity))).
  - vm_compute. reflexivity.
  - intros j Hj. reflexivity.
  - lia.
Defined.

(** ** Defaults and edge cases *)



Lemma sleeps_concat_repeat (ev : Event) (ms : JsNumber.t) (k : nat) :
  is_request ev = true \/ is_api_call ev = true ->
  sleeps (List.concat (repeat [ev; Sleep ms] k)) = k.
Proof.
  intros Hev. induction k as [|k IH]; [reflexivity |].
  simpl. destruct ev; simpl in *; try (destruct Hev; discriminate);
    now rewrite IH.
Qed.

(** X9. The trace of a waiter.  A status waiter that succeeds at attempt
    [k] has polled [k + 1] times and slept [k] times, with no sleep after
    the accepted poll; one that times out has polled and slept [n] times:
    it sleeps after its last failed poll as well, before it signals the
    timeout.  The start waiter does the same, without any signal. *)
Theorem waiters_sleep_after_each_failed_attempt :
  (forall E o w k status,
     (forall j, (j < k)%nat ->
        accepted (WaitForStatusOptions.allowInactive o)
          (status_poll E w j) = None) ->
     accepted (WaitForStatusOptions.allowInactive o) (status_poll E w k)
     = Some status ->
     counter_lt k (status_iterations o) = true ->
     forall fuel, (k < fuel)%nat ->
       exists w',
         waitForStatus E fuel o w = (Normal (Some status), w') /\
         trace w'
         = trace w
           ++ List.concat
                (repeat
                   [ListDeploymentStatuses (WaitForStatusOptions.owner o)
                      (WaitForStatusOptions.repo o)
                      (WaitForStatusOptions.deployment_id o);
                    Sleep (WaitForStatusOptions.checkIntervalInMilliseconds o)]
                   k)
           ++ [ListDeploymentStatuses (WaitForStatusOptions.owner o)
                 (WaitForStatusOptions.repo o)
                 (WaitForStatusOptions.deployment_id o)] /\
         sleeps (trace w') = (sleeps (trace w) + k)%nat) /\
  (forall E o w n,
     budget (status_iterations o) = Some n ->
     (forall j, (j < n)%nat ->
        accepted (WaitForStatusOptions.allowInactive o)
          (status_poll E w j) = None) ->
     forall fuel, (n < fuel)%nat ->
       exists w',
         waitForStatus E fuel o w = (Normal None, w') /\
         trace w'
         = trace w
           ++ List.concat
                (repeat
                   [ListDeploymentStatuses (WaitForStatusOptions.owner o)
                      (WaitForStatusOptions.repo o)
                      (WaitForStatusOptions.deployment_id o);
                    Sleep (WaitForStatusOptions.checkIntervalInMilliseconds o)]
                   n)
           ++ [SetFailed status_timeout_message] /\
         sleeps (trace w') = (sleeps (trace w) + n)%nat) /\
  (forall E o w n,
     budget (start_iterations o) = Some n ->
     (forall j, (j < n)%nat ->
        matched (start_actorName o) (start_poll E w j) = None) ->
     forall fuel, (n < fuel)%nat ->
       exists w',
         waitForDeploymentToStart E fuel o w = (Normal None, w') /\
         trace w'
         = trace w
           ++ List.concat
                (repeat
                   [ListDeployments (WaitForDeploymentToStartOptions.owner o)
                      (WaitForDeploymentToStartOptions.repo o)
                      (WaitForDeploymentToStartOptions.sha o)
                      (WaitForDeploymentToStartOptions.environment o);
                    Sleep (start_interval o)]
                   n) /\
         sleeps (trace w') = (sleeps (trace w) + n)%nat).
Proof.
  split; [| split].
  - intros E o w k status Hnone Hok Hlt fuel Hfuel.
    eexists. split;
      [apply (waitForStatus_succeeds E o w k status Hnone Hok Hlt fuel
                Hfuel) |].
    unfold status_polled. cbn [after_listDeploymentStatuses trace].
    rewrite status_retried_trace, <- app_assoc. split; [reflexivity |].
    rewrite !sleeps_app, sleeps_concat_repeat by (right; reflexivity).
    simpl. lia.
  - intros E o w n Hb Hnone fuel Hfuel.
    eexists. split;
      [apply (waitForStatus_times_out E o w n Hb Hnone fuel Hfuel) |].
    cbn [emit trace].
    rewrite status_retried_trace, <- app_assoc. split; [reflexivity |].
    rewrite !sleeps_app, sleeps_concat_repeat by (right; reflexivity).
    simpl. lia.
  - intros E o w n Hb Hnone fuel Hfuel.
    eexists. split;
      [apply (waitForDeploymentToStart_gives_up E o w n Hb Hnone fuel
                Hfuel) |].
    rewrite start_retried_trace. split; [reflexivity |].
    rewrite !sleeps_app, sleeps_concat_repeat by (right; reflexivity).
    reflexivity.
Qed.

Lemma waiters_sleep_after_each_failed_attempt_witness :
  exists w',
    waitForStatus env_never_successful 3 (status_options 4 false) initial
    = (Normal None, w') /\
    trace w'
    = trace initial
      ++ List.concat
           (repeat
              [ListDeploymentStatuses "acme" "site" 7;
               Sleep (JsNumber.of_Z 2000)]
              2%nat)
      ++ [SetFailed status_timeout_message] /\
    sleeps (trace w') = (sleeps (trace initial) + 2)%nat.
Proof.
  apply (proj1 (proj2 waiters_sleep_after_each_failed_attempt)
           env_never_successful (status_options 4 false) initial 2%nat).
  - vm_compute. reflexivity.
  - intros j Hj. reflexivity.
  - lia.
Defined.

(** A loop whose count is [Infinity] goes on as long as its turns end
    normally: with [fuel] units of fuel it has made [fuel] turns. *)
Lemma for_loop_unbounded {A : Type} (body : nat -> M (Control A))
  (fuel : nat) :
  forall (W : nat -> World) (i : nat),
    (forall j, body (i + j)%nat (W j) = (Normal Next, W (S j))) ->
    for_loop fuel PosInfinity body i (W 0%nat) = (OutOfFuel, W fuel).
Proof.
  induction fuel as [|fuel IH]; intros W i Hnext; simpl; [reflexivity |].
  specialize (Hnext 0%nat) as H0. rewrite Nat.add_0_r in H0. rewrite H0.
  apply (IH (fun j => W (S j)) (S i)).
  intros j. specialize (Hnext (S j)). now rewrite Nat.add_succ_r in Hnext.
Qed.

(** X10. A division by an interval of [+0] gives the count [Infinity] for
    a positive timeout, and so does a timeout of [Infinity] unless the
    interval in seconds is itself infinite.  A waiter with that count has
    no bound: as long as no poll is accepted it goes on polling and
    sleeping, and never signals its timeout. *)
Theorem infinite_count_never_times_out :
  (forall a,
     JsNumber.positive a ->
     calculateIterations a (S754_zero false) = PosInfinity) /\
  (forall b,
     JsNumber.positive b ->
     JsNumber.div b (JsNumber.of_Z 1000) <> S754_infinity false ->
     calculateIterations (S754_infinity false) b = PosInfinity) /\
  (forall E o w,
     status_iterations o = PosInfinity ->
     (forall j,
        accepted (WaitForStatusOptions.allowInactive o)
          (status_poll E w j) = None) ->
     forall fuel,
       waitForStatus E fuel o w
       = (OutOfFuel, Nat.iter fuel (status_retried o) w) /\
       failures (trace (Nat.iter fuel (status_retried o) w))
       = failures (trace w) /\
       calls_listDeploymentStatuses (Nat.iter fuel (status_retried o) w)
       = (calls_listDeploymentStatuses w + fuel)%nat) /\
  (forall E o w,
     start_iterations o = PosInfinity ->
     (forall j, matched (start_actorName o) (start_poll E w j) = None) ->
     forall fuel,
       waitForDeploymentToStart E fuel o w
       = (OutOfFuel, Nat.iter fuel (start_retried o) w) /\
       calls_listDeployments (Nat.iter fuel (start_retried o) w)
       = (calls_listDeployments w + fuel)%nat).
Proof.
  split; [| split; [| split]].
  - intros a Ha. destruct a as [| | |[] m e]; try contradiction.
    reflexivity.
  - intros b Hb Hfin. unfold calculateIterations.
    pose proof (div_positive_not_negative b (JsNumber.of_Z 1000) Hb I)
      as Hn.
    destruct (JsNumber.div b (JsNumber.of_Z 1000)) as [[]|[]| |[] mc ec];
      try contradiction; reflexivity.
  - intros E o w Hinf Hnone fuel. split; [| split].
    + unfold waitForStatus, bind. fold (status_iterations o).
      rewrite Hinf.
      rewrite (for_loop_unbounded _ fuel
                 (fun j => Nat.iter j (status_retried o) w) 0%nat);
        [reflexivity |].
      intros j. simpl. apply (waitForStatus_attempt_retry E o w j j);
        [apply Hnone | lia].
    + apply status_retried_frame.
    + apply status_retried_calls.
  - intros E o w Hinf Hnone fuel. split.
    + unfold waitForDeploymentToStart, bind.
      fold (start_interval o). fold (start_iterations o). rewrite Hinf.
      rewrite (for_loop_unbounded _ fuel
                 (fun j => Nat.iter j (start_retried o) w) 0%nat);
        [reflexivity |].
      intros j. simpl. apply waitForDeploymentToStart_attempt_retry.
      apply Hnone.
    + apply start_retried_calls.
Qed.

Lemma infinite_count_never_times_out_witness :
  calculateIterations (JsNumber.of_Z 60) (S754_zero false) = PosInfinity /\
  forall fuel,
    waitForStatus env_never_successful fuel status_options_no_interval
      initial
    = (OutOfFuel,
       Nat.iter fuel (status_retried status_options_no_interval) initial) /\
    failures
      (trace
         (Nat.iter fuel (status_retried status_options_no_interval) initial))
    = failures (trace initial) /\
    calls_listDeploymentStatuses
      (Nat.iter fuel (status_retried status_options_no_interval) initial)
    = (calls_listDeploymentStatuses initial + fuel)%nat.
Proof.
  destruct infinite_count_never_times_out as (H1 & _ & H3 & _).
  split.
  - apply H1. exact I.
  - apply H3.
    + reflexivity.
    + intros j. reflexivity.
Defined.

(** X11. Among the cookies of the response, the first one named
    [_vercel_jwt] alone decides: cookies of other names before it are
    skipped and every cookie after it is ignored, so that an empty first
    [_vercel_jwt] raises the missing-token error even when a later one
    carries a token. *)
Theorem getPassword_first_jwt_cookie_decides :
  forall E o w r setCookieHeader before cookie after,
    server_post E (calls_post w) = Responded r ->
    200 <= HttpResponse.status r < 307 ->
    HttpResponse.set_cookie r = Some setCookieHeader ->
    parseCookies E setCookieHeader = before ++ cookie :: after ->
    Forall (fun c => Cookie.name c <> "_vercel_jwt") before ->
    Cookie.name cookie = "_vercel_jwt" ->
    fst (getPassword E o w)
    = if String.eqb (Cookie.value cookie) "" then Throw missing_token
      else Normal (Cookie.value cookie).
Proof.
  intros E o w r h pre c post Hr Hs Hh Hparse Hpre Hc.
  rewrite getPassword_spec, Hr. cbn [fst].
  unfold exchange_result, jwt_cookie.
  apply exchange_valid_iff in Hs. rewrite Hs, Hh, Hparse.
  assert (Hfind : find (fun x => String.eqb (Cookie.name x) "_vercel_jwt")
                    (pre ++ c :: post) = Some c).
  { apply find_first. exists pre, post. split; [reflexivity | split].
    - now apply String.eqb_eq.
    - eapply Forall_impl; [| exact Hpre]. intros x Hx.
      now apply String.eqb_neq. }
  rewrite Hfind. destruct (String.eqb (Cookie.value c) ""); reflexivity.
Qed.

Lemma getPassword_first_jwt_cookie_decides_witness :
  fst (getPassword env_two_jwt_cookies (password_options preview "secret")
         initial)
  = Throw missing_token.
Proof.
  apply (getPassword_first_jwt_cookie_decides env_two_jwt_cookies
           (password_options preview "secret") initial
           {| HttpResponse.status := 303;
              HttpResponse.set_cookie :=
                Some ["theme=dark"; "_vercel_jwt="; "_vercel_jwt=abc123"] |}
           ["theme=dark"; "_vercel_jwt="; "_vercel_jwt=abc123"]
           [{| Cookie.name := "theme"; Cookie.value := "dark" |}]
           {| Cookie.name := "_vercel_jwt"; Cookie.value := "" |}
           [{| Cookie.name := "_vercel_jwt"; Cookie.value := "abc123" |}]).
  - reflexivity.
  - simpl. lia.
  - reflexivity.
  - reflexivity.
  - repeat constructor. discriminate.
  - reflexivity.
Defined.

(** With a URL that cannot be built an attempt never succeeds and sends
    no GET. *)
Lemma waitForUrl_attempt_invalid_url (E : Env) (o : WaitForUrlOptions.t)
  (w : World) :
  URL_toString E (WaitForUrlOptions.path o) (WaitForUrlOptions.url o) = None ->
  fst (waitForUrl_attempt E o w) = Normal Next /\
  calls_get (snd (waitForUrl_attempt E o w)) = calls_get w.
Proof.
  intros Hurl. rewrite waitForUrl_attempt_spec.
  unfold probe, exchange_retried, url_slept. rewrite Hurl.
  destruct (truthy (WaitForUrlOptions.vercelPassword o)) as [pw|];
    [destruct (exchange_result E (server_post E (calls_post w)))
       as [jwt|e] |];
    unfold exchange_request; cbn [fst snd calls_get emit sent];
    rewrite ?is_post_password_request; split; reflexivity.
Qed.

(** X12. A target URL and path that [new URL] rejects are not fatal: every
    attempt of the URL health waiter fails without sending a GET (after
    its exchange, when a password is set), and with a finite count of [n]
    attempts the waiter signals its timeout after [n] sleeps. *)
Theorem waitForUrl_invalid_url_times_out :
  forall E o fuel n w,
    URL_toString E (WaitForUrlOptions.path o) (WaitForUrlOptions.url o)
    = None ->
    budget (url_iterations o) = Some n -> (n < fuel)%nat ->
    exists w1,
      waitForUrl E fuel o w
      = (Normal tt, emit (SetFailed (url_timeout_message o)) w1) /\
      calls_get w1 = calls_get w /\
      calls_post w1 = (calls_post w + n * exchanges_per_attempt o)%nat /\
      sleeps (trace w1) = (sleeps (trace w) + n)%nat /\
      failures (trace w1) = failures (trace w).
Proof.
  intros E o fuel n w Hurl Hb Hfuel.
  destruct (waitForUrl_terminates E o fuel n w Hb Hfuel) as [w' Hrun].
  pose proof (waitForUrl_summary E o fuel w) as Hsum.
  rewrite Hrun in Hsum.
  assert (Hget : calls_get w' = calls_get w).
  { clear Hsum. revert Hrun. unfold waitForUrl, bind.
    fold (url_iterations o).
    pose proof
      (for_loop_invariant (url_iterations o)
         (fun _ => waitForUrl_attempt E o)
         (fun _ wc => calls_get wc = calls_get w)
         (fun _ _ _ => False)) as H.
    specialize (H ltac:(
      intros i wc Hwc _; cbv beta;
      destruct (waitForUrl_attempt_invalid_url E o wc Hurl) as [Hr Hg];
      destruct (waitForUrl_attempt E o wc) as [r wc'];
      cbn [fst snd] in *; subst r; congruence)).
    specialize (H fuel 0%nat w eq_refl).
    destruct (for_loop fuel (url_iterations o) _ 0%nat w)
      as [[[a|]| e |] w0]; try contradiction.
    - now destruct H as (i & _ & [] & _).
    - destruct H as (i & _ & Hg & _). intros [= <-]. exact Hg.
    - discriminate. }
  destruct Hsum as (_ & _ & [(i & _ & Hs & _)
                            | (i & w1 & Hc & Hall & Hw & _ & ->)]).
  - destruct Hs as (_ & _ & _ & m & Hm & _). lia.
  - apply (exhausted_at_budget _ n) in Hc; [subst i | exact Hb | exact Hall].
    destruct Hw as (Hf & Hs & Hp & Hle & _).
    exists w1. split; [exact Hrun |]. simpl in Hget.
    repeat split; assumption.
Qed.

Lemma waitForUrl_invalid_url_times_out_witness :
  exists w1,
    waitForUrl env_invalid_url 3 (url_options 4 "secret" "") initial
    = (Normal tt,
       emit (SetFailed (url_timeout_message (url_options 4 "secret" "")))
         w1) /\
    calls_get w1 = calls_get initial /\
    calls_post w1
    = (calls_post initial
       + 2 * exchanges_per_attempt (url_options 4 "secret" ""))%nat /\
    sleeps (trace w1) = (sleeps (trace initial) + 2)%nat /\
    failures (trace w1) = failures (trace initial).
Proof.
  apply waitForUrl_invalid_url_times_out.
  - reflexivity.
  - vm_compute. reflexivity.
  - lia.
Defined.

(** ** Whole runs: success *)

Lemma start_retried_sleeps (o : WaitForDeploymentToStartOptions.t)
  (k : nat) (w : World) :
  sleeps (trace (Nat.iter k (start_retried o) w))
  = (sleeps (trace w) + k)%nat.
Proof.
  rewrite start_retried_trace, sleeps_app.
  now rewrite sleeps_concat_repeat by (right; reflexivity).
Qed.

Lemma status_retried_sleeps (o : WaitForStatusOptions.t) (k : nat)
  (w : World) :
  sleeps (trace (Nat.iter k (status_retried o) w))
  = (sleeps (trace w) + k)%nat.
Proof.
  rewrite status_retried_trace, sleeps_app.
  now rewrite sleeps_concat_repeat by (right; reflexivity).
Qed.

Lemma url_retried_frame (o : WaitForUrlOptions.t) (checkUri : string)
  (k : nat) (w : World) :
  sleeps (trace (Nat.iter k (url_retried o checkUri) w))
  = (sleeps (trace w) + k)%nat /\
  failures (trace (Nat.iter k (url_retried o checkUri) w))
  = failures (trace w) /\
  calls_post (Nat.iter k (url_retried o checkUri) w) = calls_post w /\
  calls_listDeployments (Nat.iter k (url_retried o checkUri) w)
  = calls_listDeployments w /\
  calls_listDeploymentStatuses (Nat.iter k (url_retried o checkUri) w)
  = calls_listDeploymentStatuses w.
Proof.
  induction k as [|k (H1 & H2 & H3 & H4 & H5)]; simpl;
    [repeat split; lia |].
  rewrite !sleeps_app, !failures_app, H1, H2. simpl.
  repeat split; lia.
Qed.

(** X13. The run that succeeds, without password.  When the request
    number [k1] is the first to list a deployment of [vercel[bot]], the
    poll number [k2] the first to show an accepted status, whose target
    URL is not empty, and the health check number [k3] the first to
    succeed, all within the count, the run publishes the target URL once,
    signals no failure, makes no exchange, and has slept
    [k1 + k2 + k3] times. *)
Theorem run_succeeds_after_retries :
  forall E fuel allowInactive sha deployment status checkUri w w1 k1 k2 k3,
    Inputs.token (inputs E) <> "" ->
    Inputs.allow_inactive (inputs E) = Some allowInactive ->
    Inputs.vercel_password (inputs E) = "" ->
    sha_stage E w = (Normal (Some sha), w1) -> sha <> "" ->
    (forall j, (j < k1)%nat ->
       matched "vercel[bot]"
         (octokit_listDeployments E (calls_listDeployments w1 + j)) = None) ->
    matched "vercel[bot]"
      (octokit_listDeployments E (calls_listDeployments w1 + k1))
    = Some deployment ->
    (forall j, (j < k2)%nat ->
       accepted allowInactive
         (octokit_listDeploymentStatuses E
            (calls_listDeploymentStatuses w1 + j)) = None) ->
    accepted allowInactive
      (octokit_listDeploymentStatuses E
         (calls_listDeploymentStatuses w1 + k2)) = Some status ->
    DeploymentStatus.target_url status <> "" ->
    URL_toString E (run_path E) (DeploymentStatus.target_url status)
    = Some checkUri ->
    (forall j, (j < k3)%nat ->
       get_ok (server_get E (calls_get w1 + j)) = false) ->
    get_ok (server_get E (calls_get w1 + k3)) = true ->
    counter_lt k1 (run_iterations E) = true ->
    counter_lt k2 (run_iterations E) = true ->
    counter_lt k3 (run_iterations E) = true ->
    (k1 < fuel)%nat -> (k2 < fuel)%nat -> (k3 < fuel)%nat ->
    let os := run_start_options E sha in
    let ot := run_status_options E allowInactive deployment in
    let ou := run_url_options E (DeploymentStatus.target_url status) in
    let w2 := start_polled os (Nat.iter k1 (start_retried os) w1) in
    let w3 := status_polled ot (Nat.iter k2 (status_retried ot) w2) in
    let w4 :=
      sent (url_request ou checkUri)
        (Nat.iter k3 (url_retried ou checkUri)
           (emit (SetOutput "url" (DeploymentStatus.target_url status)) w3))
    in
    run E fuel w = (Normal tt, w4) /\
    failures (trace w4) = failures (trace w1) /\
    sleeps (trace w4) = (sleeps (trace w1) + k1 + k2 + k3)%nat /\
    calls_listDeployments w4 = (calls_listDeployments w1 + S k1)%nat /\
    calls_listDeploymentStatuses w4
    = (calls_listDeploymentStatuses w1 + S k2)%nat /\
    calls_get w4 = (calls_get w1 + S k3)%nat /\
    calls_post w4 = calls_post w1.
Proof.
  intros E fuel allow sha deployment status checkUri w w1 k1 k2 k3
    Htok Hallow Hpw Hsha Hne Hd0 Hd Hs0 Hs Htarget Hurl Hg0 Hg
    Hc1 Hc2 Hc3 Hf1 Hf2 Hf3 os ot ou w2 w3 w4.
  destruct (start_retried_frame os k1 w1) as (A1 & A2 & A3 & A4).
  assert (B1 : calls_listDeploymentStatuses w2
               = calls_listDeploymentStatuses w1) by exact A1.
  assert (B3 : calls_get w2 = calls_get w1) by exact A3.
  destruct (status_retried_frame ot k2 w2) as (C1 & C2 & C3 & C4).
  assert (D3 : calls_get
                 (emit (SetOutput "url" (DeploymentStatus.target_url status))
                    w3) = calls_get w1).
  { subst w3. unfold status_polled. simpl. rewrite C3. exact B3. }
  split.
  - rewrite (run_reaches_start E fuel allow sha w w1 Htok Hallow Hsha Hne).
    unfold run_from_start. fold os.
    rewrite (waitForDeploymentToStart_finds E os w1 k1 deployment Hd0 Hd
               Hc1 fuel Hf1).
    unfold run_from_status. fold ot w2.
    rewrite (waitForStatus_succeeds E ot w2 k2 status);
      try assumption;
      [| intros j Hj; unfold status_poll; rewrite B1; now apply Hs0
       | unfold status_poll; rewrite B1; exact Hs].
    fold w3. rewrite (truthy_Some _ Htarget).
    unfold run_from_url. fold ou.
    rewrite (waitForUrl_succeeds E ou checkUri) with (k := k3);
      try assumption; try reflexivity.
    + unfold ou, run_url_options. cbn [WaitForUrlOptions.vercelPassword].
      now rewrite Hpw.
    + intros j Hj. rewrite D3. now apply Hg0.
    + rewrite D3. exact Hg.
  - destruct (url_retried_frame ou checkUri k3
                (emit (SetOutput "url" (DeploymentStatus.target_url status))
                   w3)) as (E1 & E2 & E3 & E4 & E5).
    subst w4. cbn [sent trace calls_listDeployments
                     calls_listDeploymentStatuses calls_get calls_post].
    unfold url_request. rewrite is_post_get_request.
    rewrite failures_app, sleeps_app, E1, E2, E3, E4, E5, url_retried_calls,
      D3.
    subst w3. unfold status_polled.
    cbn [emit after_listDeploymentStatuses trace calls_post
           calls_listDeployments calls_listDeploymentStatuses].
    rewrite !failures_app, !sleeps_app, C1, C2, C4, status_retried_sleeps,
      status_retried_calls.
    subst w2. unfold start_polled.
    cbn [after_listDeployments trace calls_post calls_listDeployments
           calls_listDeploymentStatuses].
    rewrite !failures_app, !sleeps_app, A1, A2, A4, start_retried_sleeps,
      start_retried_calls.
    simpl failures. simpl sleeps.
    repeat split; lia.
Qed.

Lemma run_succeeds_after_retries_witness :
  fst (run env_slow_preview 31 initial) = Normal tt /\
  failures (trace (snd (run env_slow_preview 31 initial))) = 0%nat /\
  sleeps (trace (snd (run env_slow_preview 31 initial))) = 5%nat.
Proof.
  destruct
    (run_succeeds_after_retries env_slow_preview 31 false "abc"
       (a_deployment 2 "vercel[bot]") (a_status "success")
       "https://preview.example.com/" initial initial 2 2 1
       ltac:(discriminate) eq_refl eq_refl eq_refl ltac:(discriminate)
       ltac:(intros [|[|j]] Hj; [reflexivity | reflexivity | lia])
       eq_refl
       ltac:(intros [|[|j]] Hj; [reflexivity | reflexivity | lia])
       eq_refl ltac:(discriminate) eq_refl
       ltac:(intros [|j] Hj; [reflexivity | lia])
       eq_refl
       ltac:(vm_compute; reflexivity) ltac:(vm_compute; reflexivity)
       ltac:(vm_compute; reflexivity) ltac:(lia) ltac:(lia) ltac:(lia))
    as (Hrun & Hf & Hs & _).
  rewrite Hrun. split; [reflexivity | split; [exact Hf | exact Hs]].
Defined.
